(** * playaevents: the year-scoped read/write API layer and its cache

    A shallow embedding of [playaevents/models.py] (the model classes, their
    managers and [get_and_cache]) and of [playaevents/api/handlers.py] (the
    piston handlers for PlayaEvent and ThemeCamp), followed by the properties
    of the public reads, of create/update/delete and of the cache-aside
    accessor.

    Conventions of the embedding:
    - a database table is the list of its rows, in table order; a queryset is
      the list of rows it selects. The default ordering ([Meta.ordering]) is
      modelled for the reference data (art installations and streets), whose
      reads are characterised with their order; the properties of the Event
      and ThemeCamp reads are about which rows are selected, and their
      querysets are kept in table order;
    - Python strings are [string]s of ASCII text; [None] is [None];
    - a [QueryDict] (request.PUT, request.POST, request.GET) is a finite map
      from field name to value;
    - a handler is a computation over the database that may fall through to
      the next statement, [return] a response early, or let an exception
      escape. *)

From stdpp Require Import base option list strings gmap sorting.
From Stdlib Require Import ZArith Ascii String.

Local Open Scope string_scope.
Local Open Scope Z_scope.

(** ** Model rows (models.py) *)

(** [class Year(models.Model)] *)
Record Year := mkYear {
  y_id : Z;
  y_year : string;
  y_location : string;
  y_participants : option Z;
  y_theme : option string;
  y_notes : option string;
}.

(** [class CircularStreet(models.Model)] *)
Record CircularStreet := mkCircularStreet {
  cs_id : Z;
  cs_year : Z;
  cs_name : string;
  cs_order : option Z;
  cs_distance_from_center : option Z;
}.

(** [class TimeStreet(models.Model)] *)
Record TimeStreet := mkTimeStreet {
  ts_id : Z;
  ts_year : Z;
  ts_hour : Z;
  ts_minute : Z;
  ts_name : string;
}.

(** [class ThemeCamp(models.Model)]; [tc_id] is [None] until the first save.
    The [image] and [time_address] columns, which no code here reads or
    writes, are left out. *)
Record ThemeCamp := mkThemeCamp {
  tc_id : option Z;
  tc_name : string;
  tc_year : option Z;
  tc_slug : option string;
  tc_description : option string;
  tc_url : option string;
  tc_contact_email : option string;
  tc_hometown : option string;
  tc_location_string : option string;
  tc_list_online : option bool;
  tc_circular_street : option Z;
  tc_bm_fm_id : option Z;
  tc_deleted : option bool;
}.

(** [class ArtInstallation(models.Model)] (the columns the API serialises) *)
Record ArtInstallation := mkArtInstallation {
  art_id : Z;
  art_year : Z;
  art_name : string;
  art_slug : option string;
  art_artist : option string;
  art_description : option string;
  art_url : option string;
  art_contact_email : option string;
  art_circular_street : option Z;
}.

(** [swingtime.models.EventType] *)
Record EventType := mkEventType {
  et_id : Z;
  et_abbr : string;
  et_label : string;
}.

(** [swingtime.models.Occurrence]: one start/end pair of an event; times are
    points on the time line. *)
Record Occurrence := mkOccurrence {
  occ_id : Z;
  occ_event : Z;
  occ_start_time : Z;
  occ_end_time : Z;
}.

(** [class PlayaEvent(Event)]: the columns of swingtime's [Event] (title,
    description, event_type) followed by PlayaEvent's own. *)
Record PlayaEvent := mkPlayaEvent {
  pe_id : option Z;
  pe_title : string;
  pe_description : string;
  pe_event_type : option Z;
  pe_year : option Z;
  pe_print_description : string;
  pe_slug : string;
  pe_hosted_by_camp : option Z;
  pe_located_at_art : option Z;
  pe_other_location : option string;
  pe_check_location : option bool;
  pe_url : option string;
  pe_contact_email : option string;
  pe_all_day : option bool;
  pe_list_online : option bool;
  pe_list_contact_online : option bool;
  pe_creator : option Z;
  pe_moderation : string;
  pe_speaker_series : option bool;
  pe_password_hint : option string;
  pe_password : option string;
}.

#[global] Instance Year_eq_dec : EqDecision Year.
Proof. solve_decision. Defined.
#[global] Instance ThemeCamp_eq_dec : EqDecision ThemeCamp.
Proof. solve_decision. Defined.
#[global] Instance PlayaEvent_eq_dec : EqDecision PlayaEvent.
Proof. solve_decision. Defined.

(** The database: one table per model. *)
Record DB := mkDB {
  years : list Year;
  event_types : list EventType;
  circular_streets : list CircularStreet;
  time_streets : list TimeStreet;
  art_installations : list ArtInstallation;
  theme_camps : list ThemeCamp;
  playa_events : list PlayaEvent;
  occurrences : list Occurrence;
}.

(** ** Attribute assignment

    [obj.field = value] on a model instance. *)

Definition set_tc_id (v : option Z) (c : ThemeCamp) : ThemeCamp :=
  let '(mkThemeCamp _ n y s d u ce h ls lo cs bm de) := c in
  mkThemeCamp v n y s d u ce h ls lo cs bm de.
Definition set_tc_name (v : string) (c : ThemeCamp) : ThemeCamp :=
  let '(mkThemeCamp i _ y s d u ce h ls lo cs bm de) := c in
  mkThemeCamp i v y s d u ce h ls lo cs bm de.
Definition set_tc_year (v : option Z) (c : ThemeCamp) : ThemeCamp :=
  let '(mkThemeCamp i n _ s d u ce h ls lo cs bm de) := c in
  mkThemeCamp i n v s d u ce h ls lo cs bm de.
Definition set_tc_slug (v : option string) (c : ThemeCamp) : ThemeCamp :=
  let '(mkThemeCamp i n y _ d u ce h ls lo cs bm de) := c in
  mkThemeCamp i n y v d u ce h ls lo cs bm de.
Definition set_tc_description (v : option string) (c : ThemeCamp) : ThemeCamp :=
  let '(mkThemeCamp i n y s _ u ce h ls lo cs bm de) := c in
  mkThemeCamp i n y s v u ce h ls lo cs bm de.
Definition set_tc_url (v : option string) (c : ThemeCamp) : ThemeCamp :=
  let '(mkThemeCamp i n y s d _ ce h ls lo cs bm de) := c in
  mkThemeCamp i n y s d v ce h ls lo cs bm de.
Definition set_tc_hometown (v : option string) (c : ThemeCamp) : ThemeCamp :=
  let '(mkThemeCamp i n y s d u ce _ ls lo cs bm de) := c in
  mkThemeCamp i n y s d u ce v ls lo cs bm de.
Definition set_tc_location_string (v : option string) (c : ThemeCamp) : ThemeCamp :=
  let '(mkThemeCamp i n y s d u ce h _ lo cs bm de) := c in
  mkThemeCamp i n y s d u ce h v lo cs bm de.
Definition set_tc_list_online (v : option bool) (c : ThemeCamp) : ThemeCamp :=
  let '(mkThemeCamp i n y s d u ce h ls _ cs bm de) := c in
  mkThemeCamp i n y s d u ce h ls v cs bm de.
Definition set_tc_circular_street (v : option Z) (c : ThemeCamp) : ThemeCamp :=
  let '(mkThemeCamp i n y s d u ce h ls lo _ bm de) := c in
  mkThemeCamp i n y s d u ce h ls lo v bm de.
Definition set_tc_deleted (v : option bool) (c : ThemeCamp) : ThemeCamp :=
  let '(mkThemeCamp i n y s d u ce h ls lo cs bm _) := c in
  mkThemeCamp i n y s d u ce h ls lo cs bm v.

Definition set_pe_id (v : option Z) (e : PlayaEvent) : PlayaEvent :=
  let '(mkPlayaEvent _ ti de ty y pd sl hc la ol cl u ce ad lo lc cr mo sp ph pw) := e in
  mkPlayaEvent v ti de ty y pd sl hc la ol cl u ce ad lo lc cr mo sp ph pw.
Definition set_pe_event_type (v : option Z) (e : PlayaEvent) : PlayaEvent :=
  let '(mkPlayaEvent i ti de _ y pd sl hc la ol cl u ce ad lo lc cr mo sp ph pw) := e in
  mkPlayaEvent i ti de v y pd sl hc la ol cl u ce ad lo lc cr mo sp ph pw.
Definition set_pe_year (v : option Z) (e : PlayaEvent) : PlayaEvent :=
  let '(mkPlayaEvent i ti de ty _ pd sl hc la ol cl u ce ad lo lc cr mo sp ph pw) := e in
  mkPlayaEvent i ti de ty v pd sl hc la ol cl u ce ad lo lc cr mo sp ph pw.
Definition set_pe_print_description (v : string) (e : PlayaEvent) : PlayaEvent :=
  let '(mkPlayaEvent i ti de ty y _ sl hc la ol cl u ce ad lo lc cr mo sp ph pw) := e in
  mkPlayaEvent i ti de ty y v sl hc la ol cl u ce ad lo lc cr mo sp ph pw.
Definition set_pe_slug (v : string) (e : PlayaEvent) : PlayaEvent :=
  let '(mkPlayaEvent i ti de ty y pd _ hc la ol cl u ce ad lo lc cr mo sp ph pw) := e in
  mkPlayaEvent i ti de ty y pd v hc la ol cl u ce ad lo lc cr mo sp ph pw.
Definition set_pe_hosted_by_camp (v : option Z) (e : PlayaEvent) : PlayaEvent :=
  let '(mkPlayaEvent i ti de ty y pd sl _ la ol cl u ce ad lo lc cr mo sp ph pw) := e in
  mkPlayaEvent i ti de ty y pd sl v la ol cl u ce ad lo lc cr mo sp ph pw.
Definition set_pe_located_at_art (v : option Z) (e : PlayaEvent) : PlayaEvent :=
  let '(mkPlayaEvent i ti de ty y pd sl hc _ ol cl u ce ad lo lc cr mo sp ph pw) := e in
  mkPlayaEvent i ti de ty y pd sl hc v ol cl u ce ad lo lc cr mo sp ph pw.
Definition set_pe_other_location (v : option string) (e : PlayaEvent) : PlayaEvent :=
  let '(mkPlayaEvent i ti de ty y pd sl hc la _ cl u ce ad lo lc cr mo sp ph pw) := e in
  mkPlayaEvent i ti de ty y pd sl hc la v cl u ce ad lo lc cr mo sp ph pw.
Definition set_pe_check_location (v : option bool) (e : PlayaEvent) : PlayaEvent :=
  let '(mkPlayaEvent i ti de ty y pd sl hc la ol _ u ce ad lo lc cr mo sp ph pw) := e in
  mkPlayaEvent i ti de ty y pd sl hc la ol v u ce ad lo lc cr mo sp ph pw.
Definition set_pe_url (v : option string) (e : PlayaEvent) : PlayaEvent :=
  let '(mkPlayaEvent i ti de ty y pd sl hc la ol cl _ ce ad lo lc cr mo sp ph pw) := e in
  mkPlayaEvent i ti de ty y pd sl hc la ol cl v ce ad lo lc cr mo sp ph pw.
Definition set_pe_contact_email (v : option string) (e : PlayaEvent) : PlayaEvent :=
  let '(mkPlayaEvent i ti de ty y pd sl hc la ol cl u _ ad lo lc cr mo sp ph pw) := e in
  mkPlayaEvent i ti de ty y pd sl hc la ol cl u v ad lo lc cr mo sp ph pw.
Definition set_pe_all_day (v : option bool) (e : PlayaEvent) : PlayaEvent :=
  let '(mkPlayaEvent i ti de ty y pd sl hc la ol cl u ce _ lo lc cr mo sp ph pw) := e in
  mkPlayaEvent i ti de ty y pd sl hc la ol cl u ce v lo lc cr mo sp ph pw.
Definition set_pe_list_online (v : option bool) (e : PlayaEvent) : PlayaEvent :=
  let '(mkPlayaEvent i ti de ty y pd sl hc la ol cl u ce ad _ lc cr mo sp ph pw) := e in
  mkPlayaEvent i ti de ty y pd sl hc la ol cl u ce ad v lc cr mo sp ph pw.
Definition set_pe_list_contact_online (v : option bool) (e : PlayaEvent) : PlayaEvent :=
  let '(mkPlayaEvent i ti de ty y pd sl hc la ol cl u ce ad lo _ cr mo sp ph pw) := e in
  mkPlayaEvent i ti de ty y pd sl hc la ol cl u ce ad lo v cr mo sp ph pw.
Definition set_pe_creator (v : option Z) (e : PlayaEvent) : PlayaEvent :=
  let '(mkPlayaEvent i ti de ty y pd sl hc la ol cl u ce ad lo lc _ mo sp ph pw) := e in
  mkPlayaEvent i ti de ty y pd sl hc la ol cl u ce ad lo lc v mo sp ph pw.
Definition set_pe_moderation (v : string) (e : PlayaEvent) : PlayaEvent :=
  let '(mkPlayaEvent i ti de ty y pd sl hc la ol cl u ce ad lo lc cr _ sp ph pw) := e in
  mkPlayaEvent i ti de ty y pd sl hc la ol cl u ce ad lo lc cr v sp ph pw.

Definition set_theme_camps (v : list ThemeCamp) (db : DB) : DB :=
  let '(mkDB ys ets css tss arts _ pes occs) := db in
  mkDB ys ets css tss arts v pes occs.
Definition set_playa_events (v : list PlayaEvent) (db : DB) : DB :=
  let '(mkDB ys ets css tss arts tcs _ occs) := db in
  mkDB ys ets css tss arts tcs v occs.

(** ** Requests and responses *)

(** [request.user] with the profile flag [user.get_profile().api_allowed]. *)
Record User := mkUser {
  user_id : Z;
  user_username : string;
  api_allowed : bool;
}.

(** A Django [HttpRequest] as piston hands it to a handler. *)
Record Request := mkRequest {
  req_user : User;
  req_method : string;
  req_GET : gmap string string;
  req_PUT : gmap string string;
  req_POST : gmap string string;
}.

(** The members of [piston.utils.rc] the handlers use. *)
Inductive Rc := ALL_OK | CREATED | DELETED | BAD_REQUEST | NOT_HERE.

(** A response body: a message, or [json.dumps({'pk': obj.id})]. *)
Inductive Content := Message (s : string) | JsonPk (pk : option Z).

Record HttpResponse := mkHttpResponse {
  status : Rc;
  content : Content;
}.

#[global] Instance Rc_eq_dec : EqDecision Rc.
Proof. solve_decision. Defined.
#[global] Instance Content_eq_dec : EqDecision Content.
Proof. solve_decision. Defined.
#[global] Instance HttpResponse_eq_dec : EqDecision HttpResponse.
Proof. solve_decision. Defined.

(** Modelled from the spec: [playaevents.api.utils.rc_response] is not among
    the sources; the spec describes the error envelope as a body carrying a
    human-readable message together with a status from the fixed set. *)
Definition rc_response (code : Rc) (msg : string) : HttpResponse :=
  {| status := code; content := Message msg |}.

(** ** Python values *)

(** Truth value of an optional URL argument: [None] and the empty string are
    false. [truthy a] is the argument when [if a:] takes the branch. *)
Definition truthy (a : option string) : option string :=
  match a with
  | Some s => if decide (s = "") then None else Some s
  | None => None
  end.

(** [str.upper()] on ASCII text. *)
Definition upper_ascii (c : ascii) : ascii :=
  let n := nat_of_ascii c in
  if ((97 <=? n) && (n <=? 122))%nat then ascii_of_nat (n - 32) else c.

Fixpoint upper (s : string) : string :=
  match s with
  | EmptyString => EmptyString
  | String c s' => String (upper_ascii c) (upper s')
  end.

(** Exceptions that the handlers do not catch. *)
Inductive Exn :=
| ValueError                      (* a key that is not an integer *)
| ValidationError                 (* a value that is not a date-time *)
| ObjectDoesNotExist              (* [get] outside a [try] found no row *)
| MultipleObjectsReturned         (* [get] found several rows *)
| IntegrityError                  (* NOT NULL column left unset at save *)
| TypeError.                      (* unexpected keyword argument *)

(** ** Handler computations

    A statement of a handler, run against the database, either falls through
    with a value, executes [return response], or raises. *)
Inductive Step (A : Type) :=
| Next (a : A)
| Return (r : HttpResponse)
| Throw (e : Exn).
Arguments Next {A} a.
Arguments Return {A} r.
Arguments Throw {A} e.

Definition Handler (A : Type) : Type := DB → Step A * DB.

Definition pure {A} (a : A) : Handler A := λ db, (Next a, db).
Definition return_ {A} (r : HttpResponse) : Handler A := λ db, (Return r, db).
Definition raise {A} (e : Exn) : Handler A := λ db, (Throw e, db).
Definition bind {A B} (m : Handler A) (k : A → Handler B) : Handler B :=
  λ db, match m db with
        | (Next a, db') => k a db'
        | (Return r, db') => (Return r, db')
        | (Throw e, db') => (Throw e, db')
        end.
(** Evaluate a queryset expression against the current database. *)
Definition query {A} (q : DB → A) : Handler A := λ db, (Next (q db), db).

Declare Scope handler_scope.
Delimit Scope handler_scope with handler.
Notation "x <- m ;; k" := (bind m (λ x, k))
  (at level 100, m at next level, right associativity) : handler_scope.

(** What the caller of a handler observes: the last statement's value is the
    returned response. *)
Inductive Outcome :=
| Returned (r : HttpResponse)
| Raised (e : Exn).

Definition run (h : Handler HttpResponse) (db : DB) : Outcome * DB :=
  match h db with
  | (Next r, db') | (Return r, db') => (Returned r, db')
  | (Throw e, db') => (Raised e, db')
  end.

(** ** The ORM *)

(** [Manager.get(...)]: the single selected row, [DoesNotExist] when there is
    none; with several rows, or a key that cannot be coerced, it raises. *)
Inductive GetResult (A : Type) :=
| Found (a : A)
| DoesNotExist
| GetError (e : Exn).
Arguments Found {A} a.
Arguments DoesNotExist {A}.
Arguments GetError {A} e.

Definition get {A} (qs : list A) : GetResult A :=
  match qs with
  | [] => DoesNotExist
  | [a] => Found a
  | _ => GetError MultipleObjectsReturned
  end.

(** Field lookups of [filter] keyword arguments on PlayaEvent. *)
Inductive EventLookup :=
| pe_year_is (y : Year)               (* year=<Year> *)
| pe_id_is (k : Z)                    (* id=k, pk=k *)
| pe_id__in (ks : list Z)          (* id__in=[...] *)
| pe_list_online_is (b : bool)        (* list_online=b *)
| pe_moderation_is (m : string).      (* moderation=m *)

(** Field lookups of [filter] keyword arguments on ThemeCamp. *)
Inductive CampLookup :=
| tc_year_is (y : Year)
| tc_id_is (k : Z)
| tc_list_online_is (b : bool)
| tc_deleted_is (b : bool).

(** Field lookups on swingtime's Occurrence. *)
Inductive OccurrenceLookup :=
| start_time__gte (t : Z)
| end_time__lte (t : Z).

#[global] Instance EventLookup_eq_dec : EqDecision EventLookup.
Proof. solve_decision. Defined.
#[global] Instance CampLookup_eq_dec : EqDecision CampLookup.
Proof. solve_decision. Defined.

Definition event_matches (e : PlayaEvent) (kw : EventLookup) : bool :=
  match kw with
  | pe_year_is y => bool_decide (pe_year e = Some (y_id y))
  | pe_id_is k => bool_decide (pe_id e = Some k)
  | pe_id__in ks =>
      match pe_id e with Some k => bool_decide (k ∈ ks) | None => false end
  | pe_list_online_is b => bool_decide (pe_list_online e = Some b)
  | pe_moderation_is m => bool_decide (pe_moderation e = m)
  end.

Definition camp_matches (c : ThemeCamp) (kw : CampLookup) : bool :=
  match kw with
  | tc_year_is y => bool_decide (tc_year c = Some (y_id y))
  | tc_id_is k => bool_decide (tc_id c = Some k)
  | tc_list_online_is b => bool_decide (tc_list_online c = Some b)
  | tc_deleted_is b => bool_decide (tc_deleted c = Some b)
  end.

Definition occurrence_matches (o : Occurrence) (kw : OccurrenceLookup) : bool :=
  match kw with
  | start_time__gte t => bool_decide (t ≤ occ_start_time o)
  | end_time__lte t => bool_decide (occ_end_time o ≤ t)
  end.

(** [queryset.filter(kwargs)]: the rows matching every lookup. *)
Definition filter_events (kwargs : list EventLookup) (qs : list PlayaEvent)
  : list PlayaEvent :=
  filter (λ e, forallb (event_matches e) kwargs) qs.
Definition filter_camps (kwargs : list CampLookup) (qs : list ThemeCamp)
  : list ThemeCamp :=
  filter (λ c, forallb (camp_matches c) kwargs) qs.
Definition filter_occurrences (kwargs : list OccurrenceLookup)
  (qs : list Occurrence) : list Occurrence :=
  filter (λ o, forallb (occurrence_matches o) kwargs) qs.

(** [ThemeCampManager.get_query_set]: "Manager which filters out
    list_online=False". *)
Definition ThemeCampManager_get_query_set (db : DB) : list ThemeCamp :=
  filter_camps [tc_list_online_is true] (theme_camps db).

(** [ThemeCamp.objects = ThemeCampManager()] *)
Definition ThemeCamp_objects (db : DB) : list ThemeCamp :=
  ThemeCampManager_get_query_set db.
(** [ThemeCamp.all_objects = ThemeCampAllManager()], which does not override
    [get_query_set]. *)
Definition ThemeCamp_all_objects (db : DB) : list ThemeCamp := theme_camps db.
(** [PlayaEvent.objects = PlayaEventManager()], which does not override
    [get_query_set] either. *)
Definition PlayaEvent_objects (db : DB) : list PlayaEvent := playa_events db.

(** [Year.objects.get(year=label)] *)
Definition Year_objects_get (label : string) (db : DB) : GetResult Year :=
  get (filter (λ y, y_year y = label) (years db)).

(** [EventType.objects.get(pk=k)] and [EventType.objects.get(abbr=a)] *)
Definition EventType_objects_get_pk (k : Z) (db : DB) : GetResult EventType :=
  get (filter (λ t, et_id t = k) (event_types db)).
Definition EventType_objects_get_abbr (a : string) (db : DB)
  : GetResult EventType :=
  get (filter (λ t, et_abbr t = a) (event_types db)).

(** *** Default ordering ([class Meta: ordering])

    A queryset of a model with a default ordering is sorted by the database,
    in ascending order of the named columns. How two values compare is the
    business of the database: text by its collation, a number by its value,
    NULL before every number or after every number. Rows that compare equal
    come in an order that nothing fixes. *)

(** [ORDER BY k1, k2]: the second key decides between rows that the first
    one does not tell apart. *)
Definition then_by {K1 K2} (le1 : K1 → K1 → bool) (le2 : K2 → K2 → bool)
  (x y : K1 * K2) : bool :=
  if le1 x.1 y.1 then (if le1 y.1 x.1 then le2 x.2 y.2 else true) else false.

(** The order of a nullable integer column. *)
Definition nullable_le (nulls_first : bool) (x y : option Z) : bool :=
  match x, y with
  | None, None => true
  | None, Some _ => nulls_first
  | Some _, None => negb nulls_first
  | Some a, Some b => bool_decide (a ≤ b)
  end.

(** Rows compared by a sort key. *)
Definition key_le {A K} (le : K → K → bool) (key : A → K) : relation A :=
  λ x y, le (key x) (key y) = true.

#[global] Instance key_le_dec {A K} (le : K → K → bool) (key : A → K) :
  RelDecision (key_le le key).
Proof. intros x y. unfold key_le. apply _. Defined.

(** [ORDER BY key ASC]. The sort is a merge sort; the properties below rely
    on the result being sorted and a rearrangement of the rows, never on
    where rows with equal keys end up. *)
Definition order_by {A K} (le : K → K → bool) (key : A → K) (rows : list A)
  : list A :=
  merge_sort (key_le le key) rows.

(** [INNER JOIN year ON (row.year_id = year.id)]: each row with the label of
    its Year row. Ordering by the foreign key [year] is ordering by the
    default ordering of Year, [('year',)], which needs this join; the foreign
    key is not null, so the join is an inner one. *)
Definition join_year {A} (year_of : A → Z) (db : DB) (rows : list A)
  : list (string * A) :=
  a ← rows;
  (λ y, (y_year y, a)) <$> filter (λ y, y_id y = year_of a) (years db).

(** What a comparison of the database is expected to be: any two values
    compare, and the comparison is transitive. *)
Definition total_preorder {K} (le : K → K → bool) : Prop :=
  (∀ a b, le a b = true ∨ le b a = true)
  ∧ (∀ a b c, le a b = true → le b c = true → le a c = true).

(** [Model()] with the field defaults of models.py. *)
Definition PlayaEvent_new : PlayaEvent :=
  {| pe_id := None; pe_title := ""; pe_description := "";
     pe_event_type := None; pe_year := None; pe_print_description := "";
     pe_slug := ""; pe_hosted_by_camp := None; pe_located_at_art := None;
     pe_other_location := None; pe_check_location := None; pe_url := None;
     pe_contact_email := None; pe_all_day := None; pe_list_online := None;
     pe_list_contact_online := None; pe_creator := None;
     pe_moderation := "U"; pe_speaker_series := Some false;
     pe_password_hint := None; pe_password := None |}.

Definition ThemeCamp_new : ThemeCamp :=
  {| tc_id := None; tc_name := ""; tc_year := None; tc_slug := None;
     tc_description := None; tc_url := None; tc_contact_email := None;
     tc_hometown := None; tc_location_string := None;
     tc_list_online := Some true; tc_circular_street := None;
     tc_bm_fm_id := None; tc_deleted := Some false |}.

(** The key an auto-increment column hands out next. *)
Definition next_pk (ids : list (option Z)) : Z :=
  1 + foldr Z.max 0 (omap id ids).

(** [obj.save()]: UPDATE the row with the object's key when there is one,
    INSERT otherwise (a new object receives its key). [year] is a NOT NULL
    foreign key; the other NOT NULL columns are always set on the paths
    below. Returns the object as it is after the call. *)
Definition PlayaEvent_save (obj : PlayaEvent) : Handler PlayaEvent := λ db,
  match pe_year obj with
  | None => (Throw IntegrityError, db)
  | Some _ =>
      match pe_id obj with
      | Some k =>
          if bool_decide (Exists (λ r, pe_id r = Some k) (playa_events db))
          then (Next obj,
                set_playa_events
                  ((λ r, if decide (pe_id r = Some k) then obj else r)
                     <$> playa_events db) db)
          else (Next obj, set_playa_events (playa_events db ++ [obj]) db)
      | None =>
          let obj' := set_pe_id (Some (next_pk (pe_id <$> playa_events db))) obj in
          (Next obj', set_playa_events (playa_events db ++ [obj']) db)
      end
  end.

Definition ThemeCamp_save (obj : ThemeCamp) : Handler ThemeCamp := λ db,
  match tc_year obj with
  | None => (Throw IntegrityError, db)
  | Some _ =>
      match tc_id obj with
      | Some k =>
          if bool_decide (Exists (λ r, tc_id r = Some k) (theme_camps db))
          then (Next obj,
                set_theme_camps
                  ((λ r, if decide (tc_id r = Some k) then obj else r)
                     <$> theme_camps db) db)
          else (Next obj, set_theme_camps (theme_camps db ++ [obj]) db)
      | None =>
          let obj' := set_tc_id (Some (next_pk (tc_id <$> theme_camps db))) obj in
          (Next obj', set_theme_camps (theme_camps db ++ [obj']) db)
      end
  end.

(** [try: x = M.objects.get(...) except M.DoesNotExist: return resp] *)
Definition get_or_return {A} (q : DB → GetResult A) (resp : HttpResponse)
  : Handler A :=
  (r <- query q ;;
   match r with
   | Found a => pure a
   | DoesNotExist => return_ resp
   | GetError e => raise e
   end)%handler.

(** [x = M.objects.get(...)] outside any [try]. *)
Definition get_or_raise {A} (q : DB → GetResult A) : Handler A :=
  (r <- query q ;;
   match r with
   | Found a => pure a
   | DoesNotExist => raise ObjectDoesNotExist
   | GetError e => raise e
   end)%handler.

(** [setattr(obj, key, val)] for the text fields the handlers copy. *)
Definition PlayaEvent_setattr (key val : string) (obj : PlayaEvent)
  : PlayaEvent :=
  if decide (key = "print_description") then set_pe_print_description val obj
  else if decide (key = "url") then set_pe_url (Some val) obj
  else if decide (key = "contact_email") then set_pe_contact_email (Some val) obj
  else if decide (key = "other_location") then set_pe_other_location (Some val) obj
  else if decide (key = "slug") then set_pe_slug val obj
  else obj.

Definition ThemeCamp_setattr (key val : string) (obj : ThemeCamp)
  : ThemeCamp :=
  if decide (key = "name") then set_tc_name val obj
  else if decide (key = "description") then set_tc_description (Some val) obj
  else if decide (key = "url") then set_tc_url (Some val) obj
  else if decide (key = "hometown") then set_tc_hometown (Some val) obj
  else if decide (key = "location_string") then set_tc_location_string (Some val) obj
  else if decide (key = "slug") then set_tc_slug (Some val) obj
  else obj.

(** [setattr(obj, key, val)] for the boolean fields. *)
Definition PlayaEvent_setattr_bool (key : string) (val : bool)
  (obj : PlayaEvent) : PlayaEvent :=
  if decide (key = "check_location") then set_pe_check_location (Some val) obj
  else if decide (key = "all_day") then set_pe_all_day (Some val) obj
  else if decide (key = "list_online") then set_pe_list_online (Some val) obj
  else if decide (key = "list_contact_online")
       then set_pe_list_contact_online (Some val) obj
  else obj.

Definition ThemeCamp_setattr_bool (key : string) (val : bool)
  (obj : ThemeCamp) : ThemeCamp :=
  if decide (key = "list_online") then set_tc_list_online (Some val) obj
  else obj.

(** [getattr(obj, key)] for the same boolean fields. *)
Definition PlayaEvent_getattr_bool (key : string) (obj : PlayaEvent)
  : option bool :=
  if decide (key = "check_location") then pe_check_location obj
  else if decide (key = "all_day") then pe_all_day obj
  else if decide (key = "list_online") then pe_list_online obj
  else if decide (key = "list_contact_online") then pe_list_contact_online obj
  else None.

Definition ThemeCamp_getattr_bool (key : string) (obj : ThemeCamp)
  : option bool :=
  if decide (key = "list_online") then tc_list_online obj else None.

(** Truth values of [data] (a QueryDict is true when it is not empty) and of
    [user] (an object without [__len__] or [__nonzero__] is always true). *)
Definition dict_truthy (data : gmap string string) : bool :=
  bool_decide (data ≠ ∅).
Definition object_truthy (u : User) : bool := true.

(** [val = data[key].upper(); val in ('1', 'T', 'Y', 'YES', 'TRUE', 'ON')] *)
Definition coerce_bool (val : string) : bool :=
  bool_decide (upper val ∈ ["1"; "T"; "Y"; "YES"; "TRUE"; "ON"]).

(** The key tuples of the [for key in (...)] loops. *)
Definition event_illegal_keys : list string := ["id"; "pk"].
Definition event_text_keys : list string :=
  ["print_description"; "url"; "contact_email"; "other_location"; "slug"].
Definition event_bool_keys : list string :=
  ["check_location"; "all_day"; "list_online"; "list_contact_online"].
Definition camp_illegal_keys : list string := ["id"; "pk"; "bm_fm_id"; "deleted"].
Definition camp_text_keys : list string :=
  ["name"; "description"; "url"; "hometown"; "location_string"; "slug"].
Definition camp_bool_keys : list string := ["list_online"].

(** [for key in keys: if key in data: del data[key]] *)
Definition strip_keys (keys : list string) (data : gmap string string)
  : gmap string string :=
  foldl (λ d key, delete key d) data keys.

(** [for key in keys: if key in data: setattr(obj, key, f(data[key]))] *)
Definition copy_fields {O V} (setattr : string → V → O → O)
  (f : string → V) (keys : list string) (data : gmap string string)
  (obj : O) : O :=
  foldl (λ o key, match data !! key with
                  | Some val => setattr key (f val) o
                  | None => o
                  end) obj keys.

(** ** The keyed cache (the [keyedcache] functions models.py imports)

    The cache maps a key to a value with the time at which it expires.
    [cache_get] raises [NotCachedError] (here: [None]) for a key that is
    absent or expired; [cache_set key value length] stores the value for
    [length] seconds. *)

Inductive Kwargs :=
| EventKwargs (kwargs : list EventLookup)
| CampKwargs (kwargs : list CampLookup).

(** [cache_key(kind, 'all', **kwargs)]: the key is made of the positional
    parts and the keyword pairs. *)
Record CacheKey := mkCacheKey {
  ck_parts : list string;
  ck_pairs : Kwargs;
}.

#[global] Instance Kwargs_eq_dec : EqDecision Kwargs.
Proof. solve_decision. Defined.
#[global] Instance CacheKey_eq_dec : EqDecision CacheKey.
Proof. solve_decision. Defined.

(** What a manager caches: a materialised list of rows. *)
Inductive Cached :=
| CachedEvents (rows : list PlayaEvent)
| CachedCamps (rows : list ThemeCamp).

Record CacheEntry := mkCacheEntry {
  ce_value : Cached;
  ce_expires : Z;
}.

Definition Cache : Type := list (CacheKey * CacheEntry).

Fixpoint cache_lookup (key : CacheKey) (cache : Cache) : option CacheEntry :=
  match cache with
  | [] => None
  | (k, entry) :: rest =>
      if decide (k = key) then Some entry else cache_lookup key rest
  end.

Definition cache_get (key : CacheKey) (now : Z) (cache : Cache)
  : option Cached :=
  match cache_lookup key cache with
  | Some entry =>
      if bool_decide (now < ce_expires entry) then Some (ce_value entry)
      else None
  | None => None
  end.

Definition cache_set (key : CacheKey) (value : Cached) (length : Z) (now : Z)
  (cache : Cache) : Cache :=
  (key, {| ce_value := value; ce_expires := now + length |}) :: cache.

Definition cache_key_events (kind : string) (kwargs : list EventLookup)
  : CacheKey :=
  {| ck_parts := [kind; "all"]; ck_pairs := EventKwargs kwargs |}.
Definition cache_key_camps (kind : string) (kwargs : list CampLookup)
  : CacheKey :=
  {| ck_parts := [kind; "all"]; ck_pairs := CampKwargs kwargs |}.

(** [length=60*60*24], "set for one day" *)
Definition one_day : Z := 60 * 60 * 24.

(** [ThemeCampManager.get_and_cache(self, **kwargs)], called at time [now];
    returns the results and the cache as the call leaves it. *)
Definition ThemeCampManager_get_and_cache (kwargs : list CampLookup)
  (now : Z) (db : DB) (cache : Cache) : Cached * Cache :=
  let key := cache_key_camps "ThemeCamp" kwargs in
  match cache_get key now cache with
  | Some results => (results, cache)
  | None =>
      let results :=
        if bool_decide (kwargs ≠ [])
        then filter_camps kwargs (ThemeCampManager_get_query_set db)
        else ThemeCampManager_get_query_set db in
      let results := CachedCamps results in
      (results, cache_set key results one_day now cache)
  end.

(** [ThemeCampAllManager.get_and_cache(self, **kwargs)] *)
Definition ThemeCampAllManager_get_and_cache (kwargs : list CampLookup)
  (now : Z) (db : DB) (cache : Cache) : Cached * Cache :=
  let key := cache_key_camps "ThemeCampAll" kwargs in
  match cache_get key now cache with
  | Some results => (results, cache)
  | None =>
      let results :=
        if bool_decide (kwargs ≠ [])
        then filter_camps kwargs (ThemeCamp_all_objects db)
        else ThemeCamp_all_objects db in
      let results := CachedCamps results in
      (results, cache_set key results one_day now cache)
  end.

(** [PlayaEventManager.get_and_cache(self, **kwargs)] *)
Definition PlayaEventManager_get_and_cache (kwargs : list EventLookup)
  (now : Z) (db : DB) (cache : Cache) : Cached * Cache :=
  let key := cache_key_events "PlayaEvent" kwargs in
  match cache_get key now cache with
  | Some results => (results, cache)
  | None =>
      let results :=
        if bool_decide (kwargs ≠ [])
        then filter_events kwargs (PlayaEvent_objects db)
        else PlayaEvent_objects db in
      let results := CachedEvents results in
      (results, cache_set key results one_day now cache)
  end.

(** Results of a read handler: a queryset, or an exception that escapes. *)
Inductive Result (A : Type) :=
| Ok (a : A)
| Raise (e : Exn).
Arguments Ok {A} a.
Arguments Raise {A} e.

(** ** A sample database

    The concrete years, camps, events and requests on which the properties
    below are exercised. *)
Module Sample.

(** A coercion in the way of Python's [int]: decimal digits. *)
Definition digit_of (c : ascii) : option Z :=
  let n := Z.of_nat (nat_of_ascii c) in
  if (48 <=? n) && (n <=? 57) then Some (n - 48) else None.

Fixpoint digits (s : string) (acc : Z) : option Z :=
  match s with
  | EmptyString => Some acc
  | String c s' =>
      match digit_of c with
      | Some d => digits s' (10 * acc + d)
      | None => None
      end
  end.

Definition decimal (s : string) : option Z :=
  if decide (s = "") then None else digits s 0.

(** A coercion for times written "YYYY-MM-DD HH:MM": the number its digits
    spell, which orders such texts as the times they denote. *)
Fixpoint timestamp_digits (s : string) (acc : Z) : option Z :=
  match s with
  | EmptyString => Some acc
  | String c s' =>
      match digit_of c with
      | Some d => timestamp_digits s' (10 * acc + d)
      | None =>
          if bool_decide (c ∈ ["-"; " "; ":"]%char)
          then timestamp_digits s' acc else None
      end
  end.

Definition timestamp (s : string) : option Z :=
  if decide (s = "") then None else timestamp_digits s 0.

Definition y2012 : Year := mkYear 1 "2012" "Black Rock City" None None None.
Definition y2011 : Year := mkYear 2 "2011" "Black Rock City" None None None.

(** An event with key [i] of the year with key [y]. *)
Definition event (i y : Z) (moderation : string) (list_online : bool)
  : PlayaEvent :=
  set_pe_id (Some i)
    (set_pe_year (Some y)
       (set_pe_moderation moderation
          (set_pe_list_online (Some list_online)
             (set_pe_creator (Some 1)
                (set_pe_event_type (Some 1) PlayaEvent_new))))).

(** A camp with key [i] of the year with key [y]. *)
Definition camp (i y : Z) (list_online : bool) : ThemeCamp :=
  set_tc_id (Some i)
    (set_tc_year (Some y) (set_tc_list_online (Some list_online) ThemeCamp_new)).

(** Two years; a listed and an unlisted camp of 2012; a rejected and an
    accepted event of 2012, an unmoderated, unlisted event of 2011; an
    occurrence of the last two (on 2012-08-28 and on 2011-08-30, from 10:00
    to 11:00). *)
Definition db0 : DB :=
  {| years := [y2012; y2011];
     event_types := [mkEventType 1 "WS" "Workshop"];
     circular_streets := [];
     time_streets := [];
     art_installations := [];
     theme_camps := [camp 3 1 true; camp 4 1 false];
     playa_events := [event 7 1 "R" true; event 8 1 "A" true;
                      event 9 2 "U" false];
     occurrences := [mkOccurrence 1 9 201108301000 201108301100;
                     mkOccurrence 2 8 201208281000 201208281100] |}.

Definition alice : User := mkUser 1 "alice" true.

(** A request of [alice] with the given method, query string and field map. *)
Definition request (method : string) (query data : gmap string string)
  : Request :=
  {| req_user := alice; req_method := method; req_GET := query;
     req_PUT := data; req_POST := data |}.

(** A query string giving both time bounds, and the times they denote. *)
Definition both_bounds : gmap string string :=
  {["start_time" := "2011-01-01 00:00"; "end_time" := "2012-12-31 23:59"]}.
Definition t_from : Z := 201101010000.
Definition t_to : Z := 201212312359.

End Sample.

(** The sample database with reference data: the streets and the art of both
    years, a second event type, and a user whose profile does not allow the
    API. *)
Module Reference.
Import Sample.

Definition esplanade : CircularStreet :=
  mkCircularStreet 1 1 "Esplanade" (Some 0) (Some 2500).
Definition anniversary : CircularStreet :=
  mkCircularStreet 2 2 "Anniversary" (Some 1) (Some 2900).
Definition esplanade_2011 : CircularStreet :=
  mkCircularStreet 3 2 "Esplanade" (Some 0) (Some 2500).
Definition six_2012 : TimeStreet := mkTimeStreet 1 1 6 0 "6:00".
Definition nine_2011 : TimeStreet := mkTimeStreet 2 2 9 0 "9:00".
Definition three_2012 : TimeStreet := mkTimeStreet 3 1 3 0 "3:00".
Definition the_man : ArtInstallation :=
  mkArtInstallation 5 1 "The Man" None None None None None None.
Definition temple_2011 : ArtInstallation :=
  mkArtInstallation 6 2 "Temple of Transition" None None None None None None.
Definition anemone : ArtInstallation :=
  mkArtInstallation 7 1 "Anemone" None None None None None None.

Definition db1 : DB :=
  {| years := years db0;
     event_types := [mkEventType 1 "WS" "Workshop"; mkEventType 2 "PTY" "Party"];
     circular_streets := [esplanade; anniversary; esplanade_2011];
     time_streets := [six_2012; nine_2011; three_2012];
     art_installations := [the_man; temple_2011; anemone];
     theme_camps := theme_camps db0;
     playa_events := playa_events db0;
     occurrences := occurrences db0 |}.

Definition bob : User := mkUser 2 "bob" false.

(** A request of [bob]. *)
Definition request_of_bob (method : string) (data : gmap string string)
  : Request :=
  {| req_user := bob; req_method := method; req_GET := ∅;
     req_PUT := data; req_POST := data |}.

(** A text match for the search: the text is the slug of the event. *)
Definition slug_is (searchtext : string) (e : PlayaEvent) : bool :=
  bool_decide (pe_slug e = searchtext).

End Reference.

(** ** The handlers (api/handlers.py) *)

Section Handlers.

(** The field coercions of the persistence engine: a key given as text is
    read as an integer ([None]: the ORM raises [ValueError]), a time given as
    text is read as a point in time ([None]: [ValidationError]). *)
Variable to_int : string → option Z.
Variable to_datetime : string → option Z.

(** [Model.objects.get(pk=key)] for a textual key. *)
Definition get_pk {A} (select : Z → list A) (key : string) : GetResult A :=
  match to_int key with
  | Some k => get (select k)
  | None => GetError ValueError
  end.

Definition PlayaEvent_objects_get_pk (key : string) (db : DB)
  : GetResult PlayaEvent :=
  get_pk (λ k, filter_events [pe_id_is k] (PlayaEvent_objects db)) key.
Definition ThemeCamp_objects_get_pk (key : string) (db : DB)
  : GetResult ThemeCamp :=
  get_pk (λ k, filter_camps [tc_id_is k] (ThemeCamp_objects db)) key.
Definition ThemeCamp_all_objects_get_pk (key : string) (db : DB)
  : GetResult ThemeCamp :=
  get_pk (λ k, filter_camps [tc_id_is k] (ThemeCamp_all_objects db)) key.
Definition ArtInstallation_objects_get_pk (key : string) (db : DB)
  : GetResult ArtInstallation :=
  get_pk (λ k, filter (λ a, art_id a = k) (art_installations db)) key.
Definition CircularStreet_objects_get_pk (key : string) (db : DB)
  : GetResult CircularStreet :=
  get_pk (λ k, filter (λ s, cs_id s = k) (circular_streets db)) key.
Definition TimeStreet_objects_get_pk (key : string) (db : DB)
  : GetResult TimeStreet :=
  get_pk (λ k, filter (λ s, ts_id s = k) (time_streets db)) key.

(** [Occurrence.objects.filter(...).values_list('event', flat=True)] followed
    by [PlayaEvent.objects.filter(id__in=event_list)]. *)
Definition events_of_occurrences (kwargs : list OccurrenceLookup) (db : DB)
  : list PlayaEvent :=
  let event_list := occ_event <$> filter_occurrences kwargs (occurrences db) in
  filter_events [pe_id__in event_list] (PlayaEvent_objects db).

(** [BasePlayaEventHandler.read] *)
Definition BasePlayaEventHandler_read (request : Request)
  (year_year playa_event_id : option string) (db : DB)
  : Result (list PlayaEvent) :=
  let base := filter_events [pe_moderation_is "A"; pe_list_online_is true]
                (PlayaEvent_objects db) in
  match truthy year_year with
  | Some yy =>
      match Year_objects_get yy db with
      | Found year =>
          match truthy playa_event_id with
          | Some pid =>
              match to_int pid with
              | Some k =>
                  Ok (filter_events [pe_year_is year; pe_id_is k; pe_list_online_is true]
                        (PlayaEvent_objects db))
              | None => Raise ValueError
              end
          | None =>
              match truthy (req_GET request !! "start_time"),
                    truthy (req_GET request !! "end_time") with
              | Some st, Some et =>
                  match to_datetime st, to_datetime et with
                  | Some t1, Some t2 =>
                      Ok (events_of_occurrences
                            [start_time__gte t1; end_time__lte t2] db)
                  | _, _ => Raise ValidationError
                  end
              | Some st, None =>
                  match to_datetime st with
                  | Some t1 => Ok (events_of_occurrences [start_time__gte t1] db)
                  | None => Raise ValidationError
                  end
              | None, Some et =>
                  match to_datetime et with
                  | Some t2 => Ok (events_of_occurrences [end_time__lte t2] db)
                  | None => Raise ValidationError
                  end
              | None, None =>
                  Ok (filter_events
                        [pe_year_is year; pe_moderation_is "A"; pe_list_online_is true]
                        (PlayaEvent_objects db))
              end
          end
      | DoesNotExist => Raise ObjectDoesNotExist
      | GetError e => Raise e
      end
  | None => Ok base
  end.

(** [AnonymousPlayaEventHandler.read] and [PlayaEventHandler.read] both
    delegate to the base class. *)
Definition AnonymousPlayaEventHandler_read := BasePlayaEventHandler_read.
Definition PlayaEventHandler_read := BasePlayaEventHandler_read.

(** [BaseThemeCampHandler.read] *)
Definition BaseThemeCampHandler_read (request : Request)
  (year_year camp_id : option string) (db : DB) : Result (list ThemeCamp) :=
  let base := filter_camps [tc_list_online_is true] (ThemeCamp_objects db) in
  match truthy year_year with
  | Some yy =>
      match Year_objects_get yy db with
      | Found year =>
          match truthy camp_id with
          | Some cid =>
              match to_int cid with
              | Some k =>
                  Ok (filter_camps [tc_year_is year; tc_id_is k; tc_list_online_is true]
                        (ThemeCamp_objects db))
              | None => Raise ValueError
              end
          | None =>
              Ok (filter_camps [tc_year_is year; tc_list_online_is true]
                    (ThemeCamp_objects db))
          end
      | DoesNotExist => Raise ObjectDoesNotExist
      | GetError e => Raise e
      end
  | None => Ok base
  end.

(** [ThemeCampHandler.read] delegates to the base class. *)
Definition ThemeCampHandler_read := BaseThemeCampHandler_read.

(** [AnonymousThemeCampHandler.read] is declared with the keyword
    [playa_event_id] and passes it on to the base [read], which only accepts
    [camp_id]: every call ends in a [TypeError]. *)
Definition AnonymousThemeCampHandler_read (request : Request)
  (year_year playa_event_id : option string) (db : DB)
  : Result (list ThemeCamp) :=
  Raise TypeError.

(** The first statements shared by both [_create_or_update] methods: the
    permission check, the choice of [data] by request method, the injection of
    the path year and the emptiness check. *)
Definition request_data (request : Request) (year_year : option string)
  : Handler (gmap string string) :=
  (let user := req_user request in
   if negb (api_allowed user)
   then return_ (rc_response BAD_REQUEST "User not permitted to use the API")
   else
   let method := req_method request in
   data <- (if decide (method = "PUT") then pure (req_PUT request)
            else if decide (method = "POST") then pure (req_POST request)
            else return_ (rc_response BAD_REQUEST
                            ("Bad request method: " +:+ method))) ;;
   let data := match truthy year_year with
               | Some yy => if decide (data !! "year" = None)
                            then <["year" := yy]> data else data
               | None => data
               end in
   if negb (dict_truthy data && object_truthy user)
   then return_ (rc_response BAD_REQUEST "Missing critical information")
   else pure data)%handler.

(** [if 'year' in data: ... obj.year = year], shared as well. *)
Definition resolve_year {O} (set_year : option Z → O → O)
  (data : gmap string string) (obj : O) : Handler O :=
  match data !! "year" with
  | Some label =>
      (year <- get_or_return (Year_objects_get label)
                 (rc_response NOT_HERE ("No such year: " +:+ label)) ;;
       pure (set_year (Some (y_id year)) obj))%handler
  | None => pure obj
  end.

(** The response after [obj.save()]: [rc.ALL_OK] for PUT, [rc.CREATED]
    otherwise, with [content = json.dumps({'pk' : obj.id})]. *)
Definition saved_response (method : string) (pk : option Z) : HttpResponse :=
  {| status := if decide (method = "PUT") then ALL_OK else CREATED;
     content := JsonPk pk |}.

(** [PlayaEventHandler._create_or_update] *)
Definition PlayaEventHandler__create_or_update (request : Request)
  (year_year playa_event_id : option string) : Handler HttpResponse :=
  (let user := req_user request in
   let method := req_method request in
   data <- request_data request year_year ;;
   od <- match truthy playa_event_id with
         | Some pid =>
             obj <- get_or_return (PlayaEvent_objects_get_pk pid)
                      (rc_response NOT_HERE ("Event not found #" +:+ pid)) ;;
             (* no updating the year! *)
             pure (obj, delete "year" data)
         | None =>
             let obj := set_pe_creator (Some (user_id user)) PlayaEvent_new in
             event_type <-
               match data !! "event_type" with
               | None => get_or_raise (EventType_objects_get_pk 1)
               | Some abbr =>
                   get_or_return (EventType_objects_get_abbr abbr)
                     (rc_response NOT_HERE ("No such EventType: " +:+ abbr))
               end ;;
             pure (set_pe_event_type (Some (et_id event_type)) obj, data)
         end ;;
   let obj := od.1 in
   let data := od.2 in
   (* get rid of illegal-to-update attributes *)
   let data := strip_keys event_illegal_keys data in
   obj <- resolve_year set_pe_year data obj ;;
   (* text fields *)
   let obj := copy_fields PlayaEvent_setattr id event_text_keys data obj in
   (* moderation *)
   let obj := match data !! "moderation" with
              | Some val =>
                  let modkey := upper val in
                  if bool_decide (modkey ∈ ["U"; "A"; "R"])
                  then set_pe_moderation modkey obj else obj
              | None => obj
              end in
   obj <- match data !! "hosted_by_camp" with
          | Some key =>
              camp <- get_or_return (ThemeCamp_objects_get_pk key)
                        (rc_response NOT_HERE ("No such camp: " +:+ key)) ;;
              pure (set_pe_hosted_by_camp (tc_id camp) obj)
          | None => pure obj
          end ;;
   obj <- match data !! "located_at_art" with
          | Some key =>
              art <- get_or_return (ArtInstallation_objects_get_pk key)
                       (rc_response NOT_HERE ("No such art: " +:+ key)) ;;
              pure (set_pe_located_at_art (Some (art_id art)) obj)
          | None => pure obj
          end ;;
   (* booleans *)
   let obj := copy_fields PlayaEvent_setattr_bool coerce_bool
                event_bool_keys data obj in
   obj <- PlayaEvent_save obj ;;
   pure (saved_response method (pe_id obj)))%handler.

(** [PlayaEventHandler.delete] *)
Definition PlayaEventHandler_delete (request : Request)
  (year_year playa_event_id : option string) : Handler HttpResponse :=
  (let user := req_user request in
   if negb (api_allowed user)
   then return_ (rc_response BAD_REQUEST "User not permitted to use the API")
   else
   match truthy playa_event_id with
   | Some pid =>
       obj <- get_or_return (PlayaEvent_objects_get_pk pid)
                (rc_response NOT_HERE ("Event not found #" +:+ pid)) ;;
       let obj := set_pe_moderation "R" obj in
       _ <- PlayaEvent_save obj ;;
       pure (rc_response DELETED ("Event rejected #" +:+ pid))
   | None => return_ (rc_response NOT_HERE "Event ID required")
   end)%handler.

(** [PlayaEventHandler.create] and [PlayaEventHandler.update] *)
Definition PlayaEventHandler_create := PlayaEventHandler__create_or_update.
Definition PlayaEventHandler_update := PlayaEventHandler__create_or_update.

(** [ThemeCampHandler._create_or_update]. The assignments [obj.creator] and
    [obj.time_street] set attributes that are no columns of ThemeCamp: the
    street is still looked up, and nothing of them reaches the row. *)
Definition ThemeCampHandler__create_or_update (request : Request)
  (year_year camp_id : option string) : Handler HttpResponse :=
  (let user := req_user request in
   let method := req_method request in
   data <- request_data request year_year ;;
   od <- match truthy camp_id with
         | Some cid =>
             obj <- get_or_return (ThemeCamp_objects_get_pk cid)
                      (rc_response NOT_HERE ("ThemeCamp not found #" +:+ cid)) ;;
             (* no updating the year! *)
             pure (obj, delete "year" data)
         | None => pure (ThemeCamp_new, data)
         end ;;
   let obj := od.1 in
   let data := od.2 in
   (* get rid of illegal-to-update attributes *)
   let data := strip_keys camp_illegal_keys data in
   obj <- resolve_year set_tc_year data obj ;;
   obj <- match data !! "circular_street" with
          | Some key =>
              street <- get_or_return (CircularStreet_objects_get_pk key)
                          (rc_response NOT_HERE
                             ("No such CircularStreet: " +:+ key)) ;;
              pure (set_tc_circular_street (Some (cs_id street)) obj)
          | None => pure obj
          end ;;
   obj <- match data !! "time_street" with
          | Some key =>
              street <- get_or_return (TimeStreet_objects_get_pk key)
                          (rc_response NOT_HERE ("No such TimeStreet: " +:+ key)) ;;
              pure obj
          | None => pure obj
          end ;;
   (* text fields *)
   let obj := copy_fields ThemeCamp_setattr id camp_text_keys data obj in
   (* booleans *)
   let obj := copy_fields ThemeCamp_setattr_bool coerce_bool
                camp_bool_keys data obj in
   obj <- ThemeCamp_save obj ;;
   pure (saved_response method (tc_id obj)))%handler.

(** [ThemeCampHandler.delete] *)
Definition ThemeCampHandler_delete (request : Request)
  (year_year camp_id : option string) : Handler HttpResponse :=
  (let user := req_user request in
   if negb (api_allowed user)
   then return_ (rc_response BAD_REQUEST "User not permitted to use the API")
   else
   match truthy camp_id with
   | Some cid =>
       obj <- get_or_return (ThemeCamp_objects_get_pk cid)
                (rc_response NOT_HERE ("Camp not found #" +:+ cid)) ;;
       let obj := set_tc_deleted (Some true) obj in
       _ <- ThemeCamp_save obj ;;
       pure (rc_response DELETED ("Camp deleted #" +:+ cid))
   | None => return_ (rc_response NOT_HERE "Camp ID required")
   end)%handler.

(** [ThemeCampHandler.create] and [ThemeCampHandler.update] *)
Definition ThemeCampHandler_create := ThemeCampHandler__create_or_update.
Definition ThemeCampHandler_update := ThemeCampHandler__create_or_update.

(** ** The reference data: art, streets, years *)

(** The comparisons of the database that the default orderings use: the
    collation of text, and whether NULL sorts before the numbers (SQLite,
    MySQL) or after them (PostgreSQL). *)
Variable text_le : string → string → bool.
Variable nulls_first : bool.

(** A default ordering [('year', key)]: by the label of the year, then by
    [key]. The rows come with the label they were sorted on. *)
Definition ordered_by_year {A K} (year_of : A → Z) (le : K → K → bool)
  (key : A → K) (db : DB) (rows : list A) : list (string * A) :=
  order_by (then_by text_le le) (λ p, (p.1, key p.2))
    (join_year year_of db rows).

(** [ArtInstallation.Meta.ordering = ('year','name',)] *)
Definition ArtInstallation_Meta_ordering (db : DB)
  (qs : list ArtInstallation) : list ArtInstallation :=
  (ordered_by_year art_year text_le art_name db qs).*2.

(** [CircularStreet.Meta.ordering = ('year','order',)] *)
Definition CircularStreet_Meta_ordering (db : DB)
  (qs : list CircularStreet) : list CircularStreet :=
  (ordered_by_year cs_year (nullable_le nulls_first) cs_order db qs).*2.

(** [TimeStreet.Meta.ordering = ('year','name',)] *)
Definition TimeStreet_Meta_ordering (db : DB)
  (qs : list TimeStreet) : list TimeStreet :=
  (ordered_by_year ts_year text_le ts_name db qs).*2.

(** [BaseArtHandler.read]; [AnonymousArtInstallationHandler.read] and
    [ArtInstallationHandler.read] delegate to it. *)
Definition BaseArtHandler_read (request : Request)
  (year_year art_id_ : option string) (db : DB)
  : Result (list ArtInstallation) :=
  let base := ArtInstallation_Meta_ordering db (art_installations db) in
  match truthy year_year with
  | Some yy =>
      match Year_objects_get yy db with
      | Found year =>
          match truthy art_id_ with
          | Some aid =>
              match to_int aid with
              | Some k =>
                  Ok (ArtInstallation_Meta_ordering db
                        (filter (λ a, art_year a = y_id year ∧ art_id a = k)
                           (art_installations db)))
              | None => Raise ValueError
              end
          | None =>
              Ok (ArtInstallation_Meta_ordering db
                    (filter (λ a, art_year a = y_id year)
                       (art_installations db)))
          end
      | DoesNotExist => Raise ObjectDoesNotExist
      | GetError e => Raise e
      end
  | None => Ok base
  end.

Definition AnonymousArtInstallationHandler_read := BaseArtHandler_read.
Definition ArtInstallationHandler_read := BaseArtHandler_read.

(** [AnonymousCircularStreetHandler.read] *)
Definition AnonymousCircularStreetHandler_read (request : Request)
  (year_year : option string) (db : DB) : Result (list CircularStreet) :=
  let base := CircularStreet_Meta_ordering db (circular_streets db) in
  match truthy year_year with
  | Some yy =>
      match Year_objects_get yy db with
      | Found year =>
          Ok (CircularStreet_Meta_ordering db
                (filter (λ s, cs_year s = y_id year) (circular_streets db)))
      | DoesNotExist => Raise ObjectDoesNotExist
      | GetError e => Raise e
      end
  | None => Ok base
  end.

(** [AnonymousTimeStreetHandler.read] *)
Definition AnonymousTimeStreetHandler_read (request : Request)
  (year_year : option string) (db : DB) : Result (list TimeStreet) :=
  let base := TimeStreet_Meta_ordering db (time_streets db) in
  match truthy year_year with
  | Some yy =>
      match Year_objects_get yy db with
      | Found year =>
          Ok (TimeStreet_Meta_ordering db
                (filter (λ s, ts_year s = y_id year) (time_streets db)))
      | DoesNotExist => Raise ObjectDoesNotExist
      | GetError e => Raise e
      end
  | None => Ok base
  end.

(** [Year.daterange]: "a list of datetime objects for every day of the
    event". The columns [event_start] and [event_end] are dates, here the
    number of their day ([date.toordinal]); a date is always true, so the test
    is on [None] alone. [range(0, numdays)] is empty when [numdays] is not
    positive. *)
Definition Year_daterange (event_start event_end : option Z) : list Z :=
  match event_start, event_end with
  | Some start, Some end_ =>
      let numdays := (end_ - start) + 1 in
      (λ x, start + x) <$> seqZ 0 numdays
  | _, _ => []
  end.

(** The text match of [PlayaEventManager.search]:
    [se.search_tsv @@ plainto_tsquery(%s) or pe.search_tsv @@ plainto_tsquery(%s)],
    decided by the database's text search. *)
Variable search_tsv_match : string → PlayaEvent → bool.

(** [PlayaEventManager.search]: the rows of the raw query. With a year other
    than 'all' the events are joined with their year row and the label is
    compared; the join with swingtime's event row is one to one. *)
Definition PlayaEventManager_search (searchtext : string)
  (year : option string) (db : DB) : list PlayaEvent :=
  let restricted :=
    match truthy year with
    | Some y => if decide (y ≠ "all") then Some y else None
    | None => None
    end in
  match restricted with
  | Some label =>
      pe ← playa_events db;
      y ← years db;
      if bool_decide (pe_year pe = Some (y_id y))
         && search_tsv_match searchtext pe
         && bool_decide (y_year y = label)
         && bool_decide (pe_moderation pe = "A")
         && bool_decide (pe_list_online pe = Some true)
      then [pe] else []
  | None =>
      pe ← playa_events db;
      if search_tsv_match searchtext pe
         && bool_decide (pe_moderation pe = "A")
         && bool_decide (pe_list_online pe = Some true)
      then [pe] else []
  end.

(** ** Vocabulary of the properties *)

(** The field map of a request: [request.PUT] for PUT, [request.POST] for
    POST; other methods carry none. *)
Definition payload (request : Request) : option (gmap string string) :=
  if decide (req_method request = "PUT") then Some (req_PUT request)
  else if decide (req_method request = "POST") then Some (req_POST request)
  else None.

(** The field map after the year of the path has been injected. *)
Definition with_path_year (year_year : option string)
  (data : gmap string string) : gmap string string :=
  match truthy year_year with
  | Some yy => if decide (data !! "year" = None)
               then <["year" := yy]> data else data
  | None => data
  end.

(** The moderation state a field map asks for, given the current one: one of
    the letters U, A, R in either case, and otherwise no change. *)
Definition moderation_of (data : gmap string string) (current : string)
  : string :=
  match data !! "moderation" with
  | Some val => if bool_decide (upper val ∈ ["U"; "A"; "R"])
                then upper val else current
  | None => current
  end.

(** The request with one field taken out of its field maps. *)
Definition drop_field (key : string) (request : Request) : Request :=
  {| req_user := req_user request;
     req_method := req_method request;
     req_GET := req_GET request;
     req_PUT := delete key (req_PUT request);
     req_POST := delete key (req_POST request) |}.

(** When the entry that answers [key] after a call at time [now] expires:
    the expiry of the live entry on a hit, one day from [now] on a miss. *)
Definition entry_expiry (key : CacheKey) (now : Z) (cache : Cache) : Z :=
  match cache_lookup key cache with
  | Some entry => if bool_decide (now < ce_expires entry)
                  then ce_expires entry else now + one_day
  | None => now + one_day
  end.

(** A time bound of an Event read: [Some None] when the query parameter is
    not given (absent or empty), [Some (Some t)] when it is given and reads as
    the time [t], [None] when it is given and is no time at all. *)
Definition bound (name : string) (request : Request) : option (option Z) :=
  match truthy (req_GET request !! name) with
  | Some raw => match to_datetime raw with
                | Some t => Some (Some t)
                | None => None
                end
  | None => Some None
  end.

(** An occurrence lies within the bounds that are given. *)
Definition in_range (start_time end_time : option Z) (o : Occurrence) : bool :=
  match start_time with
  | Some t => bool_decide (t ≤ occ_start_time o)
  | None => true
  end
  && match end_time with
     | Some t => bool_decide (occ_end_time o ≤ t)
     | None => true
     end.

(** The events that own an occurrence satisfying [P]. *)
Definition owns_occurrence (db : DB) (P : Occurrence → bool) (e : PlayaEvent)
  : Prop :=
  Exists (λ o, pe_id e = Some (occ_event o) ∧ P o = true) (occurrences db).

Definition events_owning (db : DB) (P : Occurrence → bool) : list PlayaEvent :=
  filter (owns_occurrence db P) (playa_events db).

(** The attribute assignments of [PlayaEventHandler._create_or_update] in
    their order, once the year, the camp and the art installation that the
    field map names have been resolved. *)
Definition PlayaEvent_assign (data : gmap string string) (year : option Year)
  (camp : option ThemeCamp) (art : option ArtInstallation) (obj : PlayaEvent)
  : PlayaEvent :=
  let obj := match year with
             | Some y => set_pe_year (Some (y_id y)) obj
             | None => obj
             end in
  let obj := copy_fields PlayaEvent_setattr id event_text_keys data obj in
  let obj := match data !! "moderation" with
             | Some val =>
                 let modkey := upper val in
                 if bool_decide (modkey ∈ ["U"; "A"; "R"])
                 then set_pe_moderation modkey obj else obj
             | None => obj
             end in
  let obj := match camp with
             | Some c => set_pe_hosted_by_camp (tc_id c) obj
             | None => obj
             end in
  let obj := match art with
             | Some a => set_pe_located_at_art (Some (art_id a)) obj
             | None => obj
             end in
  copy_fields PlayaEvent_setattr_bool coerce_bool event_bool_keys data obj.

(** The same for [ThemeCampHandler._create_or_update]. *)
Definition ThemeCamp_assign (data : gmap string string) (year : option Year)
  (street : option CircularStreet) (obj : ThemeCamp) : ThemeCamp :=
  let obj := match year with
             | Some y => set_tc_year (Some (y_id y)) obj
             | None => obj
             end in
  let obj := match street with
             | Some s => set_tc_circular_street (Some (cs_id s)) obj
             | None => obj
             end in
  let obj := copy_fields ThemeCamp_setattr id camp_text_keys data obj in
  copy_fields ThemeCamp_setattr_bool coerce_bool camp_bool_keys data obj.

(** [getattr(obj, key)] for the text fields the handlers copy. *)
Definition PlayaEvent_getattr (key : string) (obj : PlayaEvent)
  : option string :=
  if decide (key = "print_description") then Some (pe_print_description obj)
  else if decide (key = "url") then pe_url obj
  else if decide (key = "contact_email") then pe_contact_email obj
  else if decide (key = "other_location") then pe_other_location obj
  else if decide (key = "slug") then Some (pe_slug obj)
  else None.

Definition ThemeCamp_getattr (key : string) (obj : ThemeCamp)
  : option string :=
  if decide (key = "name") then Some (tc_name obj)
  else if decide (key = "description") then tc_description obj
  else if decide (key = "url") then tc_url obj
  else if decide (key = "hometown") then tc_hometown obj
  else if decide (key = "location_string") then tc_location_string obj
  else if decide (key = "slug") then tc_slug obj
  else None.

(** The columns of an Event that no assignment of the handler writes. *)
Definition PlayaEvent_unwritten (e : PlayaEvent) :=
  (pe_title e, pe_description e, pe_speaker_series e, pe_password_hint e,
   pe_password e).

(** The columns of a ThemeCamp that no assignment of the handler writes. *)
Definition ThemeCamp_unwritten (c : ThemeCamp) :=
  (tc_contact_email c, tc_bm_fm_id c, tc_deleted c).

(** What a key of the field map resolves to: nothing when the key is absent,
    the row that [get] finds otherwise. *)
Definition resolved {A} (key : option string)
  (get : string → DB → GetResult A) (db : DB) (row : option A) : Prop :=
  match key with
  | Some k => ∃ a, get k db = Found a ∧ row = Some a
  | None => row = None
  end.

(** The field map as the assignments of a create/update read it: the map of
    the request with the year of the path injected, without [year] when a
    target is updated, without the keys that are illegal to update. *)
Definition fields_read (illegal_keys : list string)
  (year_year entity_id : option string) (d0 : gmap string string)
  : gmap string string :=
  strip_keys illegal_keys
    (match truthy entity_id with
     | Some _ => delete "year" (with_path_year year_year d0)
     | None => with_path_year year_year d0
     end).

(** The object an Event create/update starts from: the row found by key, or
    a new object with the requesting user as creator and the event type the
    field map names (the type with key 1 when it names none). *)
Definition PlayaEvent_target (request : Request)
  (playa_event_id : option string) (db : DB) (d0 : gmap string string)
  (obj0 : PlayaEvent) : Prop :=
  match truthy playa_event_id with
  | Some pid => PlayaEvent_objects_get_pk pid db = Found obj0
  | None =>
      ∃ t, match d0 !! "event_type" with
           | Some abbr => EventType_objects_get_abbr abbr db = Found t
           | None => EventType_objects_get_pk 1 db = Found t
           end
           ∧ obj0 = set_pe_event_type (Some (et_id t))
                      (set_pe_creator (Some (user_id (req_user request)))
                         PlayaEvent_new)
  end.

(** The object a ThemeCamp create/update starts from. *)
Definition ThemeCamp_target (camp_id : option string) (db : DB)
  (obj0 : ThemeCamp) : Prop :=
  match truthy camp_id with
  | Some cid => ThemeCamp_objects_get_pk cid db = Found obj0
  | None => obj0 = ThemeCamp_new
  end.

(** The responses that report a failure. *)
Definition error_response (r : HttpResponse) : Prop :=
  status r = BAD_REQUEST ∨ status r = NOT_HERE.

(** The responses that report a completed create or update. *)
Definition success_response (r : HttpResponse) : Prop :=
  status r = ALL_OK ∨ status r = CREATED.

(** Two steps that end alike, or fall through with related values. *)
Definition step_rel {A} (R : A → A → Prop) (x1 x2 : Step A * DB) : Prop :=
  x1.2 = x2.2
  ∧ match x1.1, x2.1 with
    | Next a1, Next a2 => R a1 a2
    | Return r1, Return r2 => r1 = r2
    | Throw e1, Throw e2 => e1 = e2
    | _, _ => False
    end.

(** A checking step: it only reads the database, and a response it returns
    early reports a failure. *)
Definition check_step {A} (h : Handler A) : Prop :=
  ∀ db, match h db with
        | (Next _, db') => db' = db
        | (Return r, db') => db' = db ∧ error_response r
        | (Throw _, db') => db' = db
        end.

(** ** Reasoning about handler computations *)

Lemma check_step_pure {A} (a : A) : check_step (pure a).
Proof. by intros db. Qed.

Lemma check_step_return {A} code msg :
  code = BAD_REQUEST ∨ code = NOT_HERE →
  check_step (@return_ A (rc_response code msg)).
Proof. by intros H db. Qed.

Lemma check_step_raise {A} e : check_step (@raise A e).
Proof. by intros db. Qed.

Lemma check_step_bind {A B} (m : Handler A) (k : A → Handler B) :
  check_step m → (∀ a, check_step (k a)) → check_step (bind m k).
Proof.
  intros Hm Hk db. unfold bind. specialize (Hm db).
  destruct (m db) as [[a|r|e] db1]; simpl in *; [subst|done..].
  apply Hk.
Qed.

Lemma check_step_get_or_return {A} (q : DB → GetResult A) code msg :
  code = BAD_REQUEST ∨ code = NOT_HERE →
  check_step (get_or_return q (rc_response code msg)).
Proof.
  intros H db. unfold get_or_return, bind, query. by destruct (q db).
Qed.

Lemma check_step_get_or_raise {A} (q : DB → GetResult A) :
  check_step (get_or_raise q).
Proof.
  intros db. unfold get_or_raise, bind, query. by destruct (q db).
Qed.

Lemma check_step_resolve_year {O} (set_year : option Z → O → O) data obj :
  check_step (resolve_year set_year data obj).
Proof.
  unfold resolve_year. destruct (data !! "year").
  - apply check_step_bind; [apply check_step_get_or_return; by right|].
    intros; apply check_step_pure.
  - apply check_step_pure.
Qed.

(** Running [bind m k] when [m] is a checking step: either [m] falls through
    and [k] takes over on the same database, or [m] ends the handler there,
    by an error response or an exception, with the database as it was. *)
Lemma bind_check_step_inv {A B} (m : Handler A) (k : A → Handler B) db s db' :
  check_step m →
  bind m k db = (s, db') →
  (∃ a, m db = (Next a, db) ∧ k a db = (s, db'))
  ∨ (db' = db ∧ match s with
                | Next _ => False
                | Return r => error_response r
                | Throw _ => True
                end).
Proof.
  intros Hm. specialize (Hm db). unfold bind.
  destruct (m db) as [[a|r|e] db1]; simpl in Hm; intros H.
  - subst db1. left. eauto.
  - right. destruct Hm. by simplify_eq.
  - right. by simplify_eq.
Qed.

Lemma get_or_return_Next {A} (q : DB → GetResult A) resp db a db' :
  get_or_return q resp db = (Next a, db') → q db = Found a ∧ db' = db.
Proof.
  unfold get_or_return, bind, query, pure, return_, raise.
  destruct (q db); intros; by simplify_eq.
Qed.

Lemma get_or_raise_Next {A} (q : DB → GetResult A) db a db' :
  get_or_raise q db = (Next a, db') → q db = Found a ∧ db' = db.
Proof.
  unfold get_or_raise, bind, query, pure, return_, raise.
  destruct (q db); intros; by simplify_eq.
Qed.

Lemma get_or_return_Found {A} (q : DB → GetResult A) resp db a :
  q db = Found a → get_or_return q resp db = (Next a, db).
Proof. intros H. unfold get_or_return, bind, query, pure. by rewrite H. Qed.

Lemma get_or_return_DoesNotExist {A} (q : DB → GetResult A) resp db :
  q db = DoesNotExist → get_or_return q resp db = (@Return A resp, db).
Proof. intros H. unfold get_or_return, bind, query, return_. by rewrite H. Qed.

Lemma request_data_unfold request year_year db :
  request_data request year_year db =
  if api_allowed (req_user request) then
    match payload request with
    | Some d0 =>
        if dict_truthy (with_path_year year_year d0)
        then (Next (with_path_year year_year d0), db)
        else (Return (rc_response BAD_REQUEST "Missing critical information"), db)
    | None =>
        (Return (rc_response BAD_REQUEST
                   ("Bad request method: " +:+ req_method request)), db)
    end
  else (Return (rc_response BAD_REQUEST "User not permitted to use the API"), db).
Proof.
  unfold request_data, payload, object_truthy.
  destruct (api_allowed _); simpl; [|done].
  unfold bind, pure, return_.
  destruct (decide (req_method request = "PUT")); simpl.
  - fold (with_path_year year_year (req_PUT request)).
    rewrite andb_true_r. by destruct (dict_truthy _).
  - destruct (decide (req_method request = "POST")); simpl; [|done].
    fold (with_path_year year_year (req_POST request)).
    rewrite andb_true_r. by destruct (dict_truthy _).
Qed.

Lemma request_data_Next request year_year db data db' :
  request_data request year_year db = (Next data, db') →
  api_allowed (req_user request) = true
  ∧ (∃ d0, payload request = Some d0 ∧ data = with_path_year year_year d0)
  ∧ data ≠ ∅ ∧ db' = db.
Proof.
  rewrite request_data_unfold.
  destruct (api_allowed _); [|done].
  destruct (payload request) as [d0|]; [|done].
  unfold dict_truthy. case_bool_decide; [|done].
  intros; simplify_eq. split; [done|]. split; [eauto|]. done.
Qed.

Lemma request_data_Return request year_year db r db' :
  request_data request year_year db = (Return r, db') →
  status r = BAD_REQUEST ∧ db' = db.
Proof.
  rewrite request_data_unfold.
  repeat case_match; intros; by simplify_eq.
Qed.

Lemma request_data_Throw request year_year db e db' :
  request_data request year_year db ≠ (Throw e, db').
Proof.
  rewrite request_data_unfold. repeat case_match; done.
Qed.

Lemma request_data_ok request year_year db d0 :
  api_allowed (req_user request) = true →
  payload request = Some d0 →
  with_path_year year_year d0 ≠ ∅ →
  request_data request year_year db = (Next (with_path_year year_year d0), db).
Proof.
  intros Ha Hp Hne. rewrite request_data_unfold, Ha, Hp.
  unfold dict_truthy. by rewrite bool_decide_true.
Qed.

Lemma check_step_request_data request year_year :
  check_step (request_data request year_year).
Proof.
  intros db. rewrite request_data_unfold.
  unfold error_response. repeat case_match; simplify_eq; simpl; auto.
Qed.

Ltac solve_check_step :=
  repeat first
    [ apply check_step_pure
    | (apply check_step_return; solve [auto])
    | apply check_step_raise
    | (apply check_step_get_or_return; solve [auto])
    | apply check_step_get_or_raise | apply check_step_resolve_year
    | apply check_step_request_data
    | (apply check_step_bind; [|intros ?])
    | case_match ].

(** One statement of symbolic execution: split [H : bind m k db = (s, db')]
    into the fall-through case and the case where [m] ended the handler. *)
Ltac exec_bind H a Ha :=
  apply bind_check_step_inv in H;
  [ destruct H as [(a & Ha & H) | (? & H)]; [|try subst]
  | solve_check_step ].

(** *** Field maps *)

Lemma lookup_strip_keys keys (data : gmap string string) k :
  strip_keys keys data !! k = if decide (k ∈ keys) then None else data !! k.
Proof.
  unfold strip_keys. revert data.
  induction keys as [|key keys IH]; intros data.
  - case_decide as Hin; [by apply elem_of_nil in Hin|done].
  - change (foldl _ data (key :: keys))
      with (foldl (λ d key, delete key d) (delete key data) keys).
    rewrite IH. destruct (decide (k = key)) as [->|Hne].
    + rewrite lookup_delete_eq. rewrite (decide_True (P := key ∈ key :: keys)) by left.
      by case_decide.
    + rewrite lookup_delete_ne by done.
      destruct (decide (k ∈ keys)) as [Hin|Hnin].
      * rewrite decide_True; [done|by right].
      * rewrite decide_False; [done|]. by intros [?|?]%elem_of_cons.
Qed.

Lemma lookup_with_path_year year_year (data : gmap string string) k :
  k ≠ "year" → with_path_year year_year data !! k = data !! k.
Proof.
  intros Hk. unfold with_path_year.
  destruct (truthy year_year); [|done].
  case_decide; [|done]. by rewrite lookup_insert_ne.
Qed.

(** *** Attribute assignment *)

Lemma copy_fields_proj {O V X} (proj : O → X) (setattr : string → V → O → O)
    (f : string → V) keys (data : gmap string string) obj :
  (∀ key v o, proj (setattr key v o) = proj o) →
  proj (copy_fields setattr f keys data obj) = proj obj.
Proof.
  intros Hset. unfold copy_fields. revert obj.
  induction keys as [|key keys IH]; intros obj; simpl; [done|].
  rewrite IH. destruct (data !! key); [apply Hset|done].
Qed.

Ltac solve_setattr :=
  intros key v [];
  unfold PlayaEvent_setattr, PlayaEvent_setattr_bool,
    ThemeCamp_setattr, ThemeCamp_setattr_bool;
  repeat case_decide; reflexivity.

Lemma PlayaEvent_setattr_id key v o : pe_id (PlayaEvent_setattr key v o) = pe_id o.
Proof. revert key v o. solve_setattr. Qed.
Lemma PlayaEvent_setattr_year key v o :
  pe_year (PlayaEvent_setattr key v o) = pe_year o.
Proof. revert key v o. solve_setattr. Qed.
Lemma PlayaEvent_setattr_moderation key v o :
  pe_moderation (PlayaEvent_setattr key v o) = pe_moderation o.
Proof. revert key v o. solve_setattr. Qed.
Lemma PlayaEvent_setattr_getattr_bool key v k o :
  PlayaEvent_getattr_bool k (PlayaEvent_setattr key v o)
  = PlayaEvent_getattr_bool k o.
Proof.
  destruct o. unfold PlayaEvent_setattr, PlayaEvent_getattr_bool.
  repeat case_decide; reflexivity.
Qed.
Lemma PlayaEvent_setattr_bool_id key v o :
  pe_id (PlayaEvent_setattr_bool key v o) = pe_id o.
Proof. revert key v o. solve_setattr. Qed.
Lemma PlayaEvent_setattr_bool_year key v o :
  pe_year (PlayaEvent_setattr_bool key v o) = pe_year o.
Proof. revert key v o. solve_setattr. Qed.
Lemma PlayaEvent_setattr_bool_moderation key v o :
  pe_moderation (PlayaEvent_setattr_bool key v o) = pe_moderation o.
Proof. revert key v o. solve_setattr. Qed.

Lemma ThemeCamp_setattr_id key v o : tc_id (ThemeCamp_setattr key v o) = tc_id o.
Proof. revert key v o. solve_setattr. Qed.
Lemma ThemeCamp_setattr_year key v o :
  tc_year (ThemeCamp_setattr key v o) = tc_year o.
Proof. revert key v o. solve_setattr. Qed.
Lemma ThemeCamp_setattr_getattr_bool key v k o :
  ThemeCamp_getattr_bool k (ThemeCamp_setattr key v o)
  = ThemeCamp_getattr_bool k o.
Proof.
  destruct o. unfold ThemeCamp_setattr, ThemeCamp_getattr_bool.
  repeat case_decide; reflexivity.
Qed.
Lemma ThemeCamp_setattr_bool_id key v o :
  tc_id (ThemeCamp_setattr_bool key v o) = tc_id o.
Proof. revert key v o. solve_setattr. Qed.
Lemma ThemeCamp_setattr_bool_year key v o :
  tc_year (ThemeCamp_setattr_bool key v o) = tc_year o.
Proof. revert key v o. solve_setattr. Qed.

(** The boolean loop: a key of the tuple that is in the field map is stored
    coerced, a key that is not keeps the attribute. *)
Lemma PlayaEvent_copy_bools key (data : gmap string string) obj :
  key ∈ event_bool_keys →
  PlayaEvent_getattr_bool key
    (copy_fields PlayaEvent_setattr_bool coerce_bool event_bool_keys data obj)
  = match data !! key with
    | Some val => Some (coerce_bool val)
    | None => PlayaEvent_getattr_bool key obj
    end.
Proof.
  unfold event_bool_keys, copy_fields. intros Hkey. simpl.
  destruct obj.
  destruct (data !! "check_location") eqn:E1, (data !! "all_day") eqn:E2,
    (data !! "list_online") eqn:E3, (data !! "list_contact_online") eqn:E4;
    set_unfold; destruct Hkey as [->|[->|[->|[->|[]]]]];
    rewrite ?E1, ?E2, ?E3, ?E4; reflexivity.
Qed.

Lemma ThemeCamp_copy_bools key (data : gmap string string) obj :
  key ∈ camp_bool_keys →
  ThemeCamp_getattr_bool key
    (copy_fields ThemeCamp_setattr_bool coerce_bool camp_bool_keys data obj)
  = match data !! key with
    | Some val => Some (coerce_bool val)
    | None => ThemeCamp_getattr_bool key obj
    end.
Proof.
  unfold camp_bool_keys, copy_fields. intros Hkey. simpl. destruct obj.
  set_unfold; destruct Hkey as [->|[]].
  destruct (data !! "list_online"); reflexivity.
Qed.

(** *** Saving *)

Lemma next_pk_fresh (ids : list (option Z)) k :
  Some k ∈ ids → k < next_pk ids.
Proof.
  unfold next_pk, omap. induction ids as [|i ids IH]; intros Hin.
  - by apply elem_of_nil in Hin.
  - apply elem_of_cons in Hin as [<-|Hin]; simpl.
    + lia.
    + specialize (IH Hin). destruct i; simpl; lia.
Qed.

Lemma tables_set_playa_events v db :
  playa_events (set_playa_events v db) = v
  ∧ theme_camps (set_playa_events v db) = theme_camps db
  ∧ years (set_playa_events v db) = years db
  ∧ occurrences (set_playa_events v db) = occurrences db.
Proof. by destruct db. Qed.

Lemma tables_set_theme_camps v db :
  theme_camps (set_theme_camps v db) = v
  ∧ playa_events (set_theme_camps v db) = playa_events db
  ∧ years (set_theme_camps v db) = years db
  ∧ occurrences (set_theme_camps v db) = occurrences db.
Proof. by destruct db. Qed.

Lemma set_playa_events_id db : set_playa_events (playa_events db) db = db.
Proof. by destruct db. Qed.

Lemma set_theme_camps_id db : set_theme_camps (theme_camps db) db = db.
Proof. by destruct db. Qed.

Lemma pe_id_set_pe_id v e : pe_id (set_pe_id v e) = v.
Proof. by destruct e. Qed.
Lemma tc_id_set_tc_id v c : tc_id (set_tc_id v c) = v.
Proof. by destruct c. Qed.

(** [save] either raises and leaves the database alone, or stores the object:
    afterwards the table holds it, every row with its key is that object, and
    every other row was there before. *)
Lemma PlayaEvent_save_inv obj db s db' :
  PlayaEvent_save obj db = (s, db') →
  (s = Throw IntegrityError ∧ db' = db)
  ∨ ∃ saved,
      s = Next saved
      ∧ saved = match pe_id obj with
                | Some _ => obj
                | None => set_pe_id (Some (next_pk (pe_id <$> playa_events db))) obj
                end
      ∧ is_Some (pe_id saved)
      ∧ saved ∈ playa_events db'
      ∧ (∀ r, r ∈ playa_events db' → pe_id r = pe_id saved → r = saved)
      ∧ (∀ r, r ∈ playa_events db' → r = saved ∨ r ∈ playa_events db)
      ∧ theme_camps db' = theme_camps db.
Proof.
  unfold PlayaEvent_save. destruct (pe_year obj); [|intros; simplify_eq; by left].
  destruct (pe_id obj) as [k|] eqn:Hid.
  - case_bool_decide as Hex; intros; simplify_eq; right; eexists;
      (split; [done|]); (split; [done|]);
      rewrite Hid; (split; [done|]);
      destruct (tables_set_playa_events
                  ((λ r, if decide (pe_id r = Some k) then obj else r)
                     <$> playa_events db) db) as (E1 & E2 & _);
      destruct (tables_set_playa_events (playa_events db ++ [obj]) db)
        as (E3 & E4 & _).
    + rewrite E1, E2. split_and!; [| | |done].
      * apply Exists_exists in Hex as (r & Hr & Hrk).
        apply list_elem_of_fmap. exists r. by rewrite decide_True.
      * intros r (r0 & -> & Hr0)%list_elem_of_fmap. case_decide; [done|].
        intros; congruence.
      * intros r (r0 & -> & Hr0)%list_elem_of_fmap. case_decide; auto.
    + rewrite E3, E4. split_and!; [| | |done].
      * apply elem_of_app. right. by apply list_elem_of_singleton.
      * intros r [Hr| ->%list_elem_of_singleton]%elem_of_app; [|done].
        intros Hrk. exfalso. apply Hex, Exists_exists. eauto.
      * intros r [Hr| ->%list_elem_of_singleton]%elem_of_app; auto.
  - intros; simplify_eq; right; eexists; (split; [done|]); (split; [done|]).
    rewrite pe_id_set_pe_id.
    destruct (tables_set_playa_events
                (playa_events db ++
                   [set_pe_id (Some (next_pk (pe_id <$> playa_events db))) obj]) db)
      as (E3 & E4 & _).
    rewrite E3, E4. split_and!; [done| | | |done].
    + apply elem_of_app. right. by apply list_elem_of_singleton.
    + intros r [Hr| ->%list_elem_of_singleton]%elem_of_app; [|done].
      intros Hrk. exfalso.
      assert (Some (next_pk (pe_id <$> playa_events db)) ∈ pe_id <$> playa_events db) as Hin.
      { apply list_elem_of_fmap. eauto. }
      apply next_pk_fresh in Hin. lia.
    + intros r [Hr| ->%list_elem_of_singleton]%elem_of_app; auto.
Qed.

Lemma ThemeCamp_save_inv obj db s db' :
  ThemeCamp_save obj db = (s, db') →
  (s = Throw IntegrityError ∧ db' = db)
  ∨ ∃ saved,
      s = Next saved
      ∧ saved = match tc_id obj with
                | Some _ => obj
                | None => set_tc_id (Some (next_pk (tc_id <$> theme_camps db))) obj
                end
      ∧ is_Some (tc_id saved)
      ∧ saved ∈ theme_camps db'
      ∧ (∀ r, r ∈ theme_camps db' → tc_id r = tc_id saved → r = saved)
      ∧ (∀ r, r ∈ theme_camps db' → r = saved ∨ r ∈ theme_camps db)
      ∧ playa_events db' = playa_events db.
Proof.
  unfold ThemeCamp_save. destruct (tc_year obj); [|intros; simplify_eq; by left].
  destruct (tc_id obj) as [k|] eqn:Hid.
  - case_bool_decide as Hex; intros; simplify_eq; right; eexists;
      (split; [done|]); (split; [done|]);
      rewrite Hid; (split; [done|]);
      destruct (tables_set_theme_camps
                  ((λ r, if decide (tc_id r = Some k) then obj else r)
                     <$> theme_camps db) db) as (E1 & E2 & _);
      destruct (tables_set_theme_camps (theme_camps db ++ [obj]) db)
        as (E3 & E4 & _).
    + rewrite E1, E2. split_and!; [| | |done].
      * apply Exists_exists in Hex as (r & Hr & Hrk).
        apply list_elem_of_fmap. exists r. by rewrite decide_True.
      * intros r (r0 & -> & Hr0)%list_elem_of_fmap. case_decide; [done|].
        intros; congruence.
      * intros r (r0 & -> & Hr0)%list_elem_of_fmap. case_decide; auto.
    + rewrite E3, E4. split_and!; [| | |done].
      * apply elem_of_app. right. by apply list_elem_of_singleton.
      * intros r [Hr| ->%list_elem_of_singleton]%elem_of_app; [|done].
        intros Hrk. exfalso. apply Hex, Exists_exists. eauto.
      * intros r [Hr| ->%list_elem_of_singleton]%elem_of_app; auto.
  - intros; simplify_eq; right; eexists; (split; [done|]); (split; [done|]).
    rewrite tc_id_set_tc_id.
    destruct (tables_set_theme_camps
                (theme_camps db ++
                   [set_tc_id (Some (next_pk (tc_id <$> theme_camps db))) obj]) db)
      as (E3 & E4 & _).
    rewrite E3, E4. split_and!; [done| | | |done].
    + apply elem_of_app. right. by apply list_elem_of_singleton.
    + intros r [Hr| ->%list_elem_of_singleton]%elem_of_app; [|done].
      intros Hrk. exfalso.
      assert (Some (next_pk (tc_id <$> theme_camps db)) ∈ tc_id <$> theme_camps db) as Hin.
      { apply list_elem_of_fmap. eauto. }
      apply next_pk_fresh in Hin. lia.
    + intros r [Hr| ->%list_elem_of_singleton]%elem_of_app; auto.
Qed.

(** *** The shape of every run of [_create_or_update] *)

(** [p (setter v e) = p e] for a projection [p] the setter does not touch. *)
Ltac strip_setters :=
  repeat match goal with
    | |- context [?p (?s ?v ?e)] =>
        let H := fresh in
        assert (H : p (s v e) = p e) by (destruct e; reflexivity);
        rewrite H; clear H
    end.

Ltac strip_copy_fields p :=
  rewrite ?(copy_fields_proj p)
    by (intros ? ? [];
        unfold PlayaEvent_setattr, PlayaEvent_setattr_bool,
          PlayaEvent_getattr_bool, ThemeCamp_setattr, ThemeCamp_setattr_bool,
          ThemeCamp_getattr_bool;
        repeat case_decide; reflexivity).

Lemma resolve_year_Next {O} (set_year : option Z → O → O) data obj db obj' db' :
  resolve_year set_year data obj db = (Next obj', db') →
  match data !! "year" with
  | Some label => ∃ y, Year_objects_get label db = Found y
                       ∧ obj' = set_year (Some (y_id y)) obj
  | None => obj' = obj
  end.
Proof.
  unfold resolve_year. destruct (data !! "year") as [label|].
  - unfold bind. destruct (get_or_return _ _ db) as [[y|r|e] db1] eqn:Hy;
      [|intros; simplify_eq..].
    apply get_or_return_Next in Hy as (Hy & ->).
    unfold pure. intros; simplify_eq. eauto.
  - unfold pure. intros; by simplify_eq.
Qed.

(** What the field map still holds when the loops read it: the keys other
    than the stripped ones are those of the request. *)
Lemma lookup_processed keys year_year (d0 : gmap string string) k :
  k ≠ "year" → k ∉ keys →
  strip_keys keys (with_path_year year_year d0) !! k = d0 !! k
  ∧ strip_keys keys (delete "year" (with_path_year year_year d0)) !! k = d0 !! k.
Proof.
  intros Hk Hin. rewrite !lookup_strip_keys, !decide_False by done.
  rewrite lookup_delete_ne by done.
  by rewrite lookup_with_path_year.
Qed.

Lemma lookup_processed_year keys (data : gmap string string) :
  strip_keys keys (delete "year" data) !! "year" = None.
Proof.
  rewrite lookup_strip_keys. case_decide; [done|]. apply lookup_delete_eq.
Qed.

(** A run of the Event handler either reaches [obj.save()], with an object
    built from the resolved target [obj0] and the field map, or ends before
    it, by an error response or an exception, on an untouched database. *)
Lemma PlayaEvent_create_or_update_inv request year_year playa_event_id db s db' :
  PlayaEventHandler__create_or_update request year_year playa_event_id db
    = (s, db') →
  match s with
  | Next r =>
      ∃ d0 obj0 obj saved,
        api_allowed (req_user request) = true
        ∧ payload request = Some d0
        ∧ match truthy playa_event_id with
          | Some pid => PlayaEvent_objects_get_pk pid db = Found obj0
          | None =>
              ∃ t, obj0 = set_pe_event_type (Some t)
                            (set_pe_creator (Some (user_id (req_user request)))
                               PlayaEvent_new)
          end
        ∧ pe_id obj = pe_id obj0
        ∧ (is_Some (truthy playa_event_id) → pe_year obj = pe_year obj0)
        ∧ pe_moderation obj = moderation_of d0 (pe_moderation obj0)
        ∧ (∀ key, key ∈ event_bool_keys →
             PlayaEvent_getattr_bool key obj
             = match d0 !! key with
               | Some val => Some (coerce_bool val)
               | None => PlayaEvent_getattr_bool key obj0
               end)
        ∧ PlayaEvent_save obj db = (Next saved, db')
        ∧ r = saved_response (req_method request) (pe_id saved)
  | Return r => error_response r ∧ db' = db
  | Throw e => db' = db
  end.
Proof.
  unfold PlayaEventHandler__create_or_update. intros H.
  exec_bind H data Hdata; [|by destruct s].
  apply request_data_Next in Hdata as (Hallowed & (d0 & Hd0 & ->) & Hne & _).
  exec_bind H od Hod; [|by destruct s].
  cbv zeta in H.
  exec_bind H obj1 Hobj1; [|by destruct s].
  exec_bind H obj2 Hobj2; [|by destruct s].
  exec_bind H obj3 Hobj3; [|by destruct s].
  unfold bind in H.
  destruct (PlayaEvent_save _ db) as [s1 db1] eqn:Hsave.
  apply PlayaEvent_save_inv in Hsave as Hinv.
  destruct Hinv as [(-> & ->)|(saved & -> & _)]; [by simplify_eq|].
  unfold pure in H. simplify_eq.
  destruct od as [obj0 data]. cbn [fst snd] in *.
  set (data' := strip_keys event_illegal_keys data) in *.
  (* the target and the field map after the first branch *)
  assert (Htarget :
    match truthy playa_event_id with
    | Some pid => PlayaEvent_objects_get_pk pid db = Found obj0
                  ∧ data = delete "year" (with_path_year year_year d0)
    | None => (∃ t, obj0 = set_pe_event_type (Some t)
                             (set_pe_creator (Some (user_id (req_user request)))
                                PlayaEvent_new))
              ∧ data = with_path_year year_year d0
    end).
  { destruct (truthy playa_event_id).
    - exec_bind Hod o Ho; [|done]. unfold pure in Hod. simplify_eq.
      by apply get_or_return_Next in Ho as [? _].
    - exec_bind Hod o Ho; [|done]. unfold pure in Hod. simplify_eq. eauto. }
  clear Hod.
  assert (Hlook : ∀ key, key ≠ "year" → key ∉ event_illegal_keys →
                         data' !! key = d0 !! key).
  { intros key Hk1 Hk2. unfold data'.
    destruct (lookup_processed event_illegal_keys year_year d0 key Hk1 Hk2).
    destruct (truthy playa_event_id); destruct Htarget as [_ ->]; done. }
  assert (Hyear : is_Some (truthy playa_event_id) → obj1 = obj0).
  { intros [pid Hpid]. rewrite Hpid in Htarget. destruct Htarget as [_ ->].
    apply resolve_year_Next in Hobj1. unfold data' in Hobj1.
    by rewrite lookup_processed_year in Hobj1. }
  assert (H1 : pe_id obj1 = pe_id obj0
               ∧ pe_moderation obj1 = pe_moderation obj0
               ∧ ∀ key, PlayaEvent_getattr_bool key obj1
                        = PlayaEvent_getattr_bool key obj0).
  { apply resolve_year_Next in Hobj1.
    destruct (data' !! "year"); [destruct Hobj1 as (y & _ & ->)|by subst].
    by destruct obj0. }
  destruct H1 as (Hid1 & Hmod1 & Hbool1).
  set (objm := match data' !! "moderation" with
               | Some val =>
                   if bool_decide (upper val ∈ ["U"; "A"; "R"])
                   then set_pe_moderation (upper val)
                          (copy_fields PlayaEvent_setattr id event_text_keys
                             data' obj1)
                   else copy_fields PlayaEvent_setattr id event_text_keys
                          data' obj1
               | None => copy_fields PlayaEvent_setattr id event_text_keys
                           data' obj1
               end) in *.
  assert (Hm : pe_id objm = pe_id obj1 ∧ pe_year objm = pe_year obj1
               ∧ pe_moderation objm = moderation_of d0 (pe_moderation obj1)
               ∧ ∀ key, PlayaEvent_getattr_bool key objm
                        = PlayaEvent_getattr_bool key obj1).
  { unfold objm, moderation_of.
    rewrite (Hlook "moderation") by compute_done.
    destruct (d0 !! "moderation") as [val|]; [case_bool_decide|];
      split_and!; intros; strip_setters;
      strip_copy_fields pe_id; strip_copy_fields pe_year;
      strip_copy_fields pe_moderation;
      try (by destruct (copy_fields PlayaEvent_setattr id event_text_keys data' obj1));
      try done;
      apply (copy_fields_proj (PlayaEvent_getattr_bool key));
      intros; apply PlayaEvent_setattr_getattr_bool. }
  destruct Hm as (Hidm & Hyearm & Hmodm & Hboolm).
  assert (H2 : pe_id obj2 = pe_id objm ∧ pe_year obj2 = pe_year objm
               ∧ pe_moderation obj2 = pe_moderation objm
               ∧ ∀ key, PlayaEvent_getattr_bool key obj2
                        = PlayaEvent_getattr_bool key objm).
  { destruct (data' !! "hosted_by_camp").
    - exec_bind Hobj2 camp Hcamp; [|done]. unfold pure in Hobj2. simplify_eq.
      by destruct objm.
    - unfold pure in Hobj2. by simplify_eq. }
  destruct H2 as (Hid2 & Hyear2 & Hmod2 & Hbool2).
  assert (H3 : pe_id obj3 = pe_id obj2 ∧ pe_year obj3 = pe_year obj2
               ∧ pe_moderation obj3 = pe_moderation obj2
               ∧ ∀ key, PlayaEvent_getattr_bool key obj3
                        = PlayaEvent_getattr_bool key obj2).
  { destruct (data' !! "located_at_art").
    - exec_bind Hobj3 art Hart; [|done]. unfold pure in Hobj3. simplify_eq.
      by destruct obj2.
    - unfold pure in Hobj3. by simplify_eq. }
  destruct H3 as (Hid3 & Hyear3 & Hmod3 & Hbool3).
  exists d0, obj0; eexists; exists saved.
  split; [done|]. split; [done|].
  split; [destruct (truthy playa_event_id); by destruct Htarget|].
  split; [|split; [|split; [|split; [|split; [exact Hsave|done]]]]].
  - strip_copy_fields pe_id. congruence.
  - intros Hupd. strip_copy_fields pe_year.
    by rewrite Hyear3, Hyear2, Hyearm, (Hyear Hupd).
  - strip_copy_fields pe_moderation. congruence.
  - intros key Hkey. rewrite PlayaEvent_copy_bools by done.
    rewrite Hlook.
    + destruct (d0 !! key); [done|].
      by rewrite Hbool3, Hbool2, Hboolm, Hbool1.
    + intros ->. revert Hkey. compute_done.
    + intros Hin. unfold event_bool_keys, event_illegal_keys in *.
      repeat (apply elem_of_cons in Hkey as [->|Hkey]; [revert Hin; compute_done|]).
      by apply elem_of_nil in Hkey.
Qed.

(** The same for the ThemeCamp handler. *)
Lemma ThemeCamp_create_or_update_inv request year_year camp_id db s db' :
  ThemeCampHandler__create_or_update request year_year camp_id db = (s, db') →
  match s with
  | Next r =>
      ∃ d0 obj0 obj saved,
        api_allowed (req_user request) = true
        ∧ payload request = Some d0
        ∧ match truthy camp_id with
          | Some cid => ThemeCamp_objects_get_pk cid db = Found obj0
          | None => obj0 = ThemeCamp_new
          end
        ∧ tc_id obj = tc_id obj0
        ∧ (is_Some (truthy camp_id) → tc_year obj = tc_year obj0)
        ∧ (∀ key, key ∈ camp_bool_keys →
             ThemeCamp_getattr_bool key obj
             = match d0 !! key with
               | Some val => Some (coerce_bool val)
               | None => ThemeCamp_getattr_bool key obj0
               end)
        ∧ ThemeCamp_save obj db = (Next saved, db')
        ∧ r = saved_response (req_method request) (tc_id saved)
  | Return r => error_response r ∧ db' = db
  | Throw e => db' = db
  end.
Proof.
  unfold ThemeCampHandler__create_or_update. intros H.
  exec_bind H data Hdata; [|by destruct s].
  apply request_data_Next in Hdata as (Hallowed & (d0 & Hd0 & ->) & Hne & _).
  exec_bind H od Hod; [|by destruct s].
  cbv zeta in H.
  exec_bind H obj1 Hobj1; [|by destruct s].
  exec_bind H obj2 Hobj2; [|by destruct s].
  exec_bind H obj3 Hobj3; [|by destruct s].
  unfold bind in H.
  destruct (ThemeCamp_save _ db) as [s1 db1] eqn:Hsave.
  apply ThemeCamp_save_inv in Hsave as Hinv.
  destruct Hinv as [(-> & ->)|(saved & -> & _)]; [by simplify_eq|].
  unfold pure in H. simplify_eq.
  destruct od as [obj0 data]. cbn [fst snd] in *.
  set (data' := strip_keys camp_illegal_keys data) in *.
  assert (Htarget :
    match truthy camp_id with
    | Some cid => ThemeCamp_objects_get_pk cid db = Found obj0
                  ∧ data = delete "year" (with_path_year year_year d0)
    | None => obj0 = ThemeCamp_new ∧ data = with_path_year year_year d0
    end).
  { destruct (truthy camp_id).
    - exec_bind Hod o Ho; [|done]. unfold pure in Hod. simplify_eq.
      by apply get_or_return_Next in Ho as [? _].
    - unfold pure in Hod. by simplify_eq. }
  clear Hod.
  assert (Hlook : ∀ key, key ≠ "year" → key ∉ camp_illegal_keys →
                         data' !! key = d0 !! key).
  { intros key Hk1 Hk2. unfold data'.
    destruct (lookup_processed camp_illegal_keys year_year d0 key Hk1 Hk2).
    destruct (truthy camp_id); destruct Htarget as [_ ->]; done. }
  assert (Hyear : is_Some (truthy camp_id) → obj1 = obj0).
  { intros [cid Hcid]. rewrite Hcid in Htarget. destruct Htarget as [_ ->].
    apply resolve_year_Next in Hobj1. unfold data' in Hobj1.
    by rewrite lookup_processed_year in Hobj1. }
  assert (H1 : tc_id obj1 = tc_id obj0
               ∧ ∀ key, ThemeCamp_getattr_bool key obj1
                        = ThemeCamp_getattr_bool key obj0).
  { apply resolve_year_Next in Hobj1.
    destruct (data' !! "year"); [destruct Hobj1 as (y & _ & ->)|by subst].
    by destruct obj0. }
  destruct H1 as (Hid1 & Hbool1).
  assert (H2 : tc_id obj2 = tc_id obj1 ∧ tc_year obj2 = tc_year obj1
               ∧ ∀ key, ThemeCamp_getattr_bool key obj2
                        = ThemeCamp_getattr_bool key obj1).
  { destruct (data' !! "circular_street").
    - exec_bind Hobj2 street Hstreet; [|done]. unfold pure in Hobj2.
      simplify_eq. by destruct obj1.
    - unfold pure in Hobj2. by simplify_eq. }
  destruct H2 as (Hid2 & Hyear2 & Hbool2).
  assert (H3 : obj3 = obj2).
  { destruct (data' !! "time_street").
    - exec_bind Hobj3 street Hstreet; [|done]. unfold pure in Hobj3.
      by simplify_eq.
    - unfold pure in Hobj3. by simplify_eq. }
  subst obj3.
  exists d0, obj0; eexists; exists saved.
  split; [done|]. split; [done|].
  split; [destruct (truthy camp_id); by destruct Htarget|].
  split; [|split; [|split; [|split; [exact Hsave|done]]]].
  - strip_copy_fields tc_id. congruence.
  - intros Hupd. strip_copy_fields tc_year.
    by rewrite Hyear2, (Hyear Hupd).
  - intros key Hkey. rewrite ThemeCamp_copy_bools by done.
    rewrite Hlook.
    + destruct (d0 !! key); [done|].
      rewrite (copy_fields_proj (ThemeCamp_getattr_bool key))
        by (intros; apply ThemeCamp_setattr_getattr_bool).
      by rewrite Hbool2, Hbool1.
    + intros ->. revert Hkey. compute_done.
    + intros Hin. unfold camp_bool_keys, camp_illegal_keys in *.
      repeat (apply elem_of_cons in Hkey as [->|Hkey]; [revert Hin; compute_done|]).
      by apply elem_of_nil in Hkey.
Qed.

(** *** Querysets *)

Lemma elem_of_filter_events kwargs qs e :
  e ∈ filter_events kwargs qs
  ↔ e ∈ qs ∧ ∀ kw, kw ∈ kwargs → event_matches e kw = true.
Proof.
  unfold filter_events. rewrite list_elem_of_filter.
  rewrite Is_true_true, forallb_forall.
  setoid_rewrite <- list_elem_of_In. tauto.
Qed.

Lemma elem_of_filter_camps kwargs qs c :
  c ∈ filter_camps kwargs qs
  ↔ c ∈ qs ∧ ∀ kw, kw ∈ kwargs → camp_matches c kw = true.
Proof.
  unfold filter_camps. rewrite list_elem_of_filter.
  rewrite Is_true_true, forallb_forall.
  setoid_rewrite <- list_elem_of_In. tauto.
Qed.

Lemma get_Found {A} (qs : list A) a : get qs = Found a ↔ qs = [a].
Proof.
  unfold get. destruct qs as [|x [|y qs]]; split; intros; by simplify_eq.
Qed.

Lemma get_pk_Found {A} (select : Z → list A) key a :
  get_pk select key = Found a ↔ ∃ k, to_int key = Some k ∧ select k = [a].
Proof.
  unfold get_pk. destruct (to_int key) as [k|].
  - rewrite get_Found. split; [eauto|]. by intros (? & ? & ?); simplify_eq.
  - split; [done|]. by intros (? & ? & ?).
Qed.

Lemma elem_of_filter_events_id k qs e :
  e ∈ filter_events [pe_id_is k] qs ↔ e ∈ qs ∧ pe_id e = Some k.
Proof.
  rewrite elem_of_filter_events. apply and_iff_compat_l. split.
  - intros Hr. eapply bool_decide_eq_true_1, (Hr (pe_id_is k)).
    by apply list_elem_of_singleton.
  - intros Hr kw ->%list_elem_of_singleton. by apply bool_decide_eq_true_2.
Qed.

Lemma elem_of_filter_camps_id k qs c :
  c ∈ filter_camps [tc_id_is k] qs ↔ c ∈ qs ∧ tc_id c = Some k.
Proof.
  rewrite elem_of_filter_camps. apply and_iff_compat_l. split.
  - intros Hr. eapply bool_decide_eq_true_1, (Hr (tc_id_is k)).
    by apply list_elem_of_singleton.
  - intros Hr kw ->%list_elem_of_singleton. by apply bool_decide_eq_true_2.
Qed.

Lemma elem_of_filter_camps_list_online b qs c :
  c ∈ filter_camps [tc_list_online_is b] qs
  ↔ c ∈ qs ∧ tc_list_online c = Some b.
Proof.
  rewrite elem_of_filter_camps. apply and_iff_compat_l. split.
  - intros Hr. eapply bool_decide_eq_true_1, (Hr (tc_list_online_is b)).
    by apply list_elem_of_singleton.
  - intros Hr kw ->%list_elem_of_singleton. by apply bool_decide_eq_true_2.
Qed.

(** The row [get(pk=...)] finds carries the key it was asked for. *)
Lemma PlayaEvent_get_pk_Found key db e :
  PlayaEvent_objects_get_pk key db = Found e →
  ∃ k, to_int key = Some k ∧ pe_id e = Some k ∧ e ∈ playa_events db
       ∧ ∀ r, r ∈ playa_events db → pe_id r = Some k → r = e.
Proof.
  unfold PlayaEvent_objects_get_pk, PlayaEvent_objects.
  intros (k & Hk & Hsel)%get_pk_Found. exists k. split; [done|].
  assert (Hin : ∀ r, r ∈ playa_events db ∧ pe_id r = Some k ↔ r = e).
  { intros r.
    by rewrite <- (list_elem_of_singleton r e), <- Hsel, elem_of_filter_events_id. }
  destruct (proj2 (Hin e) eq_refl). split_and!; [done..|].
  intros r ? ?. by apply Hin.
Qed.

Lemma ThemeCamp_get_pk_Found key db c :
  ThemeCamp_objects_get_pk key db = Found c →
  ∃ k, to_int key = Some k ∧ tc_id c = Some k ∧ c ∈ theme_camps db
       ∧ tc_list_online c = Some true
       ∧ ∀ r, r ∈ theme_camps db → tc_id r = Some k →
              tc_list_online r = Some true → r = c.
Proof.
  unfold ThemeCamp_objects_get_pk, ThemeCamp_objects,
    ThemeCampManager_get_query_set.
  intros (k & Hk & Hsel)%get_pk_Found. exists k. split; [done|].
  assert (Hin : ∀ r, (r ∈ theme_camps db ∧ tc_list_online r = Some true)
                     ∧ tc_id r = Some k ↔ r = c).
  { intros r. rewrite <- (list_elem_of_singleton r c), <- Hsel.
    by rewrite elem_of_filter_camps_id, elem_of_filter_camps_list_online. }
  destruct (proj2 (Hin c) eq_refl) as [[? ?] ?]. split_and!; [done..|].
  intros r ? ? ?. by apply Hin.
Qed.

Lemma ThemeCamp_all_get_pk_Found key db c :
  ThemeCamp_all_objects_get_pk key db = Found c →
  ∃ k, to_int key = Some k ∧ tc_id c = Some k ∧ c ∈ theme_camps db
       ∧ ∀ r, r ∈ theme_camps db → tc_id r = Some k → r = c.
Proof.
  unfold ThemeCamp_all_objects_get_pk, ThemeCamp_all_objects.
  intros (k & Hk & Hsel)%get_pk_Found. exists k. split; [done|].
  assert (Hin : ∀ r, r ∈ theme_camps db ∧ tc_id r = Some k ↔ r = c).
  { intros r.
    by rewrite <- (list_elem_of_singleton r c), <- Hsel, elem_of_filter_camps_id. }
  destruct (proj2 (Hin c) eq_refl). split_and!; [done..|].
  intros r ? ?. by apply Hin.
Qed.

(** *** Updating a row in place *)

Lemma NoDup_fmap_elem_inj {A B} (f : A → B) (l : list A) x y :
  NoDup (f <$> l) → x ∈ l → y ∈ l → f x = f y → x = y.
Proof.
  induction l as [|a l IH]; intros Hnd Hx Hy Hf; [by apply elem_of_nil in Hx|].
  rewrite fmap_cons in Hnd. apply NoDup_cons in Hnd as [Hnotin Hnd].
  apply elem_of_cons in Hx as [->|Hx]; apply elem_of_cons in Hy as [->|Hy];
    [done| | |by apply IH].
  - exfalso. apply Hnotin. rewrite Hf. by apply list_elem_of_fmap_2.
  - exfalso. apply Hnotin. rewrite <- Hf. by apply list_elem_of_fmap_2.
Qed.

(** Saving over the only row with the object's key keeps every row's key and
    year, provided the object still has the year of that row. *)
Lemma PlayaEvent_save_keeps_year obj0 obj k db saved db' :
  pe_id obj0 = Some k → obj0 ∈ playa_events db →
  (∀ r, r ∈ playa_events db → pe_id r = Some k → r = obj0) →
  pe_id obj = pe_id obj0 → pe_year obj = pe_year obj0 →
  PlayaEvent_save obj db = (Next saved, db') →
  (λ e, (pe_id e, pe_year e)) <$> playa_events db'
  = (λ e, (pe_id e, pe_year e)) <$> playa_events db.
Proof.
  intros Hk Hin Huniq Hid Hyear. unfold PlayaEvent_save.
  destruct (pe_year obj) eqn:Hy; [|done]. rewrite Hid, Hk.
  rewrite bool_decide_true by (apply Exists_exists; eauto).
  intros; simplify_eq.
  destruct (tables_set_playa_events
              ((λ r, if decide (pe_id r = Some k) then saved else r)
                 <$> playa_events db) db) as (-> & _).
  rewrite <- list_fmap_compose. apply Forall_fmap_ext, Forall_forall.
  intros r Hr. simpl. case_decide as Hrk; [|done].
  rewrite (Huniq r Hr Hrk). congruence.
Qed.

Lemma ThemeCamp_save_keeps_year obj0 obj k db saved db' :
  tc_id obj0 = Some k → obj0 ∈ theme_camps db →
  (∀ r, r ∈ theme_camps db → tc_id r = Some k → r = obj0) →
  tc_id obj = tc_id obj0 → tc_year obj = tc_year obj0 →
  ThemeCamp_save obj db = (Next saved, db') →
  (λ c, (tc_id c, tc_year c)) <$> theme_camps db'
  = (λ c, (tc_id c, tc_year c)) <$> theme_camps db.
Proof.
  intros Hk Hin Huniq Hid Hyear. unfold ThemeCamp_save.
  destruct (tc_year obj) eqn:Hy; [|done]. rewrite Hid, Hk.
  rewrite bool_decide_true by (apply Exists_exists; eauto).
  intros; simplify_eq.
  destruct (tables_set_theme_camps
              ((λ r, if decide (tc_id r = Some k) then saved else r)
                 <$> theme_camps db) db) as (-> & _).
  rewrite <- list_fmap_compose. apply Forall_fmap_ext, Forall_forall.
  intros r Hr. simpl. case_decide as Hrk; [|done].
  rewrite (Huniq r Hr Hrk). congruence.
Qed.

(** ** The claims *)

(** C4. Year is immutable after creation: for every update of an Event or a
    ThemeCamp (a create/update call that carries an entity id), whatever the
    field map holds under [year] and whatever year the path carries, every
    row has the same key and the same year after the call as before it. For
    ThemeCamp, whose update goes through the filtered manager, this needs the
    keys of the table to be unique, as they are in a database. *)
Theorem C4_update_keeps_year request year_year entity_id db out db' :
  is_Some (truthy entity_id) →
  (run (PlayaEventHandler__create_or_update request year_year entity_id) db
     = (out, db') →
   (λ e, (pe_id e, pe_year e)) <$> playa_events db'
   = (λ e, (pe_id e, pe_year e)) <$> playa_events db)
  ∧ (NoDup (tc_id <$> theme_camps db) →
     run (ThemeCampHandler__create_or_update request year_year entity_id) db
       = (out, db') →
     (λ c, (tc_id c, tc_year c)) <$> theme_camps db'
     = (λ c, (tc_id c, tc_year c)) <$> theme_camps db).
Proof.
  intros Hupd. split.
  - unfold run.
    destruct (PlayaEventHandler__create_or_update _ _ _ db) as [s db1] eqn:H.
    apply PlayaEvent_create_or_update_inv in H.
    destruct s as [r|r|e]; intros; simplify_eq;
      [|by destruct H as [_ ->]|done].
    destruct H as (d0 & obj0 & obj & saved & _ & _ & Htarget & Hid & Hyear
                   & _ & _ & Hsave & _).
    destruct Hupd as [pid Hpid]. rewrite Hpid in Htarget.
    apply PlayaEvent_get_pk_Found in Htarget as (k & _ & Hk & Hin & Huniq).
    eapply PlayaEvent_save_keeps_year; eauto.
  - intros Hnodup. unfold run.
    destruct (ThemeCampHandler__create_or_update _ _ _ db) as [s db1] eqn:H.
    apply ThemeCamp_create_or_update_inv in H.
    destruct s as [r|r|e]; intros; simplify_eq;
      [|by destruct H as [_ ->]|done].
    destruct H as (d0 & obj0 & obj & saved & _ & _ & Htarget & Hid & Hyear
                   & _ & Hsave & _).
    destruct Hupd as [pid Hpid]. rewrite Hpid in Htarget.
    apply ThemeCamp_get_pk_Found in Htarget as (k & _ & Hk & Hin & _).
    eapply ThemeCamp_save_keeps_year; eauto.
    intros c Hc Hck. apply (NoDup_fmap_elem_inj tc_id (theme_camps db)); auto.
    congruence.
Qed.

(** C5. A create/update call that answers with an error response (bad
    request or not found: permission denied, bad verb, empty payload, or a
    year, event type, camp, art or street that is not found) leaves the
    database exactly as it was: [save] is the last step. *)
Theorem C5_error_response_no_change request year_year entity_id db r db' :
  error_response r →
  (run (PlayaEventHandler__create_or_update request year_year entity_id) db
     = (Returned r, db') → db' = db)
  ∧ (run (ThemeCampHandler__create_or_update request year_year entity_id) db
       = (Returned r, db') → db' = db).
Proof.
  intros Herr.
  assert (Hsaved : ∀ m pk, r = saved_response m pk → False).
  { intros m pk ->. unfold saved_response, error_response in Herr. simpl in Herr.
    by case_decide; destruct Herr. }
  split; unfold run.
  - destruct (PlayaEventHandler__create_or_update _ _ _ db) as [s db1] eqn:H.
    apply PlayaEvent_create_or_update_inv in H.
    destruct s as [r0|r0|e]; intros; simplify_eq; [|by destruct H].
    destruct H as (? & ? & ? & ? & H). exfalso.
    eapply Hsaved. apply H.
  - destruct (ThemeCampHandler__create_or_update _ _ _ db) as [s db1] eqn:H.
    apply ThemeCamp_create_or_update_inv in H.
    destruct s as [r0|r0|e]; intros; simplify_eq; [|by destruct H].
    destruct H as (? & ? & ? & ? & H). exfalso.
    eapply Hsaved. apply H.
Qed.

Lemma success_not_error r : success_response r → error_response r → False.
Proof. unfold success_response, error_response. intros [?|?] [?|?]; congruence. Qed.


(** *** Runs on field maps that agree *)

Lemma copy_fields_ext {O V} (setattr : string → V → O → O) (f : string → V)
    keys (d1 d2 : gmap string string) obj :
  (∀ key, key ∈ keys → d1 !! key = d2 !! key) →
  copy_fields setattr f keys d1 obj = copy_fields setattr f keys d2 obj.
Proof.
  unfold copy_fields. revert obj.
  induction keys as [|key keys IH]; intros obj Hkeys; [done|].
  simpl. rewrite (Hkeys key) by left. apply IH.
  intros k Hk. apply Hkeys. by right.
Qed.

Lemma bind_ext {A B} (m1 m2 : Handler A) (k1 k2 : A → Handler B) db :
  m1 db = m2 db → (∀ a db1, k1 a db1 = k2 a db1) →
  bind m1 k1 db = bind m2 k2 db.
Proof.
  intros Hm Hk. unfold bind. rewrite Hm.
  destruct (m2 db) as [[a|r|e] db1]; auto.
Qed.

Lemma bind_rel {A B} (R : A → A → Prop) (m1 m2 : Handler A)
    (k1 k2 : A → Handler B) db :
  step_rel R (m1 db) (m2 db) →
  (∀ a1 a2 db1, R a1 a2 → k1 a1 db1 = k2 a2 db1) →
  bind m1 k1 db = bind m2 k2 db.
Proof.
  unfold bind, step_rel. intros [Hdb Hm] Hk.
  destruct (m1 db) as [[a1|r1|e1] db1], (m2 db) as [[a2|r2|e2] db2];
    simpl in *; subst; try done. by apply Hk.
Qed.

Lemma payload_drop_field key request :
  payload (drop_field key request) = delete key <$> payload request.
Proof. unfold payload, drop_field. simpl. by repeat case_decide. Qed.

Lemma lookup_with_path_year_delete year_year (d0 : gmap string string) k key :
  key ≠ k → k ≠ "year" →
  with_path_year year_year (delete k d0) !! key
  = with_path_year year_year d0 !! key.
Proof.
  intros Hne Hk. unfold with_path_year.
  destruct (truthy year_year) as [yy|]; [|by rewrite lookup_delete_ne].
  rewrite lookup_delete_ne by done.
  case_decide.
  - destruct (decide (key = "year")) as [->|].
    + by rewrite !lookup_insert_eq.
    + rewrite !lookup_insert_ne by done. by rewrite lookup_delete_ne.
  - by rewrite lookup_delete_ne.
Qed.

Lemma bind_Next {A B} (m : Handler A) (k : A → Handler B) db a db1 :
  m db = (Next a, db1) → bind m k db = k a db1.
Proof. intros H. unfold bind. by rewrite H. Qed.

Lemma bind_Return {A B} (m : Handler A) (k : A → Handler B) db r db1 :
  m db = (Return r, db1) → bind m k db = (Return r, db1).
Proof. intros H. unfold bind. by rewrite H. Qed.

(** An unrecognised moderation value is ignored: the run is the run of the
    same request without the field. *)
Lemma PlayaEvent_invalid_moderation_ignored request year_year playa_event_id
    db data val :
  payload request = Some data →
  data !! "moderation" = Some val →
  upper val ∉ ["U"; "A"; "R"] →
  with_path_year year_year (delete "moderation" data) ≠ ∅ →
  PlayaEventHandler__create_or_update request year_year playa_event_id db
  = PlayaEventHandler__create_or_update (drop_field "moderation" request)
      year_year playa_event_id db.
Proof.
  intros Hdata Hval Hinvalid Hne.
  unfold PlayaEventHandler__create_or_update.
  assert (Hne1 : with_path_year year_year data ≠ ∅).
  { intros Hempty.
    assert (with_path_year year_year data !! "moderation" = Some val) as Hm
      by (by rewrite lookup_with_path_year).
    by rewrite Hempty in Hm. }
  destruct (api_allowed (req_user request)) eqn:Hallowed.
  2:{ erewrite !bind_Return; [done| |];
        rewrite request_data_unfold; simpl; by rewrite Hallowed. }
  erewrite (bind_Next (request_data request year_year));
    [|by apply request_data_ok].
  erewrite (bind_Next (request_data (drop_field "moderation" request) year_year));
    [|apply request_data_ok;
      [done|by rewrite payload_drop_field, Hdata|done]].
  cbv beta. cbn [req_user req_method drop_field].
  set (agree := λ d1 d2 : gmap string string,
         (∀ key, key ≠ "moderation" → d1 !! key = d2 !! key)
         ∧ d1 !! "moderation" = Some val ∧ d2 !! "moderation" = None).
  assert (Hagree : agree (with_path_year year_year data)
                     (with_path_year year_year (delete "moderation" data))).
  { split; [|split].
    - intros key Hkey. symmetry. by apply lookup_with_path_year_delete.
    - by rewrite lookup_with_path_year.
    - rewrite lookup_with_path_year by done. apply lookup_delete_eq. }
  assert (Hdel : ∀ d1 d2 k, k ≠ "moderation" → agree d1 d2 →
                            agree (delete k d1) (delete k d2)).
  { intros d1 d2 k Hk (Hd & Hd1 & Hd2). split; [|split].
    - intros key Hkey. destruct (decide (key = k)) as [->|].
      + by rewrite !lookup_delete_eq.
      + rewrite !lookup_delete_ne by done. by apply Hd.
    - by rewrite lookup_delete_ne.
    - by rewrite lookup_delete_ne. }
  apply (bind_rel (λ od1 od2, od1.1 = od2.1 ∧ agree od1.2 od2.2)).
  { destruct (truthy playa_event_id) as [pid|].
    - unfold step_rel, bind, get_or_return, query, pure, return_, raise, bind.
      destruct (PlayaEvent_objects_get_pk pid db); simpl; [|done..].
      split; [done|]. split; [done|]. by apply Hdel.
    - destruct Hagree as (Hd & Hagree). rewrite (Hd "event_type") by done.
      match goal with
      | |- step_rel _ (bind ?m _ db) _ =>
          unfold bind, step_rel; destruct (m db) as [[t|r|e] db1]
      end; simpl; [|done..].
      split; [done|]. split; [done|]. split; [done|]. by destruct Hagree. }
  intros [obj0 d1] [? d2] db1 [Hobj Hd]. cbn [fst snd] in *. subst.
  assert (Hstrip : agree (strip_keys event_illegal_keys d1)
                     (strip_keys event_illegal_keys d2)).
  { unfold strip_keys, event_illegal_keys. simpl. auto. }
  clear Hd Hagree.
  set (D1 := strip_keys event_illegal_keys d1) in *.
  set (D2 := strip_keys event_illegal_keys d2) in *.
  destruct Hstrip as (Hd & Hm1 & Hm2).
  assert (Htext : ∀ obj, copy_fields PlayaEvent_setattr id event_text_keys D1 obj
                         = copy_fields PlayaEvent_setattr id event_text_keys D2 obj).
  { intros obj. apply copy_fields_ext. intros key Hkey. apply Hd.
    intros ->. revert Hkey. compute_done. }
  assert (Hbools : ∀ obj,
            copy_fields PlayaEvent_setattr_bool coerce_bool event_bool_keys D1 obj
            = copy_fields PlayaEvent_setattr_bool coerce_bool event_bool_keys D2 obj).
  { intros obj. apply copy_fields_ext. intros key Hkey. apply Hd.
    intros ->. revert Hkey. compute_done. }
  rewrite Hm1, Hm2, bool_decide_false by done.
  apply bind_ext.
  { unfold resolve_year. by rewrite (Hd "year"). }
  intros obj1 db2. rewrite (Hd "hosted_by_camp"), (Hd "located_at_art") by done.
  apply bind_ext; [by rewrite Htext|].
  intros obj2 db3. apply bind_ext; [done|].
  intros obj3 db4. by rewrite Hbools.
Qed.

(** C7. The moderation field of an Event create/update. When the field map
    holds [moderation]: after a call that succeeded, the stored event's
    moderation state is the uppercased value when that is one of U, A, R, and
    otherwise the state the object had before (the row's for an update, the
    default for a create); a value that is none of the three is ignored
    without an error: the call runs exactly as the same request without the
    field (as long as the field map is not left empty, which the handler
    rejects before it looks at any field). *)
Theorem C7_moderation_field request year_year playa_event_id db data val :
  payload request = Some data →
  data !! "moderation" = Some val →
  (∀ r db',
     success_response r →
     run (PlayaEventHandler__create_or_update request year_year playa_event_id)
       db = (Returned r, db') →
     ∃ obj0 saved,
       match truthy playa_event_id with
       | Some pid => PlayaEvent_objects_get_pk pid db = Found obj0
       | None => obj0 = PlayaEvent_new
       end
       ∧ content r = JsonPk (pe_id saved)
       ∧ saved ∈ playa_events db'
       ∧ (∀ row, row ∈ playa_events db' → pe_id row = pe_id saved → row = saved)
       ∧ pe_moderation saved
         = if bool_decide (upper val ∈ ["U"; "A"; "R"])
           then upper val else pe_moderation obj0)
  ∧ (upper val ∉ ["U"; "A"; "R"] →
     with_path_year year_year (delete "moderation" data) ≠ ∅ →
     run (PlayaEventHandler__create_or_update request year_year playa_event_id)
       db
     = run (PlayaEventHandler__create_or_update
              (drop_field "moderation" request) year_year playa_event_id) db).
Proof.
  intros Hdata Hval. split.
  - intros r db' Hok. unfold run.
    destruct (PlayaEventHandler__create_or_update _ _ _ db) as [s db1] eqn:H.
    apply PlayaEvent_create_or_update_inv in H.
    destruct s as [r0|r0|e]; intros; simplify_eq;
      [|destruct H; by destruct (success_not_error r)].
    destruct H as (d0 & obj0 & obj & saved & _ & Hd0 & Htarget & _ & _ & Hmod
                   & _ & Hsave & ->).
    simplify_eq. unfold moderation_of in Hmod. rewrite Hval in Hmod.
    apply PlayaEvent_save_inv in Hsave
      as [[? _]|(? & ? & Hsaved & _ & Hin & Huniq & _)]; simplify_eq.
    assert (Hget : pe_moderation
                     match pe_id obj with
                     | Some _ => obj
                     | None => set_pe_id
                                 (Some (next_pk (pe_id <$> playa_events db))) obj
                     end = pe_moderation obj).
    { destruct (pe_id obj); [done|]. by destruct obj. }
    destruct (truthy playa_event_id) as [pid|].
    + exists obj0. eexists. split; [done|]. split; [done|].
      split; [done|]. split; [done|]. by rewrite Hget, Hmod.
    + destruct Htarget as [t ->]. exists PlayaEvent_new. eexists.
      split; [done|]. split; [done|]. split; [done|]. split; [done|].
      by rewrite Hget, Hmod.
  - intros Hinvalid Hne. unfold run.
    by rewrite (PlayaEvent_invalid_moderation_ignored _ _ _ _ data val).
Qed.

(** *** The cache *)

Lemma filter_events_nil qs : filter_events [] qs = qs.
Proof.
  unfold filter_events. induction qs as [|e qs IH]; [done|].
  rewrite filter_cons_True by done. by rewrite IH.
Qed.

Lemma filter_camps_nil qs : filter_camps [] qs = qs.
Proof.
  unfold filter_camps. induction qs as [|c qs IH]; [done|].
  rewrite filter_cons_True by done. by rewrite IH.
Qed.

Lemma cache_get_set key value length now now' cache :
  now' < now + length →
  cache_get key now' (cache_set key value length now cache) = Some value.
Proof.
  intros Hlt. unfold cache_get, cache_set. simpl.
  rewrite decide_True by done. simpl. by rewrite bool_decide_true.
Qed.

Lemma cache_get_Some key now cache value :
  cache_get key now cache = Some value →
  ∃ entry, cache_lookup key cache = Some entry ∧ ce_value entry = value
           ∧ now < ce_expires entry.
Proof.
  unfold cache_get. destruct (cache_lookup key cache) as [entry|]; [|done].
  case_bool_decide; [|done]. intros; simplify_eq. eauto.
Qed.

(** C8. [get_and_cache] of the PlayaEvent and ThemeCamp managers. On a hit
    the cached sequence is returned and the cache is left as it is; on a miss
    the manager's rows matching the parameters are materialised, stored for a
    fixed 24 hours (86400 seconds) and returned; hence a second call with the
    same parameters, made before that entry expires, returns the same
    sequence whatever the database holds by then. *)
Theorem C8_get_and_cache :
  one_day = 86400
  ∧ (∀ kwargs now db cache,
       let key := cache_key_events "PlayaEvent" kwargs in
       (∀ cached, cache_get key now cache = Some cached →
          PlayaEventManager_get_and_cache kwargs now db cache = (cached, cache))
       ∧ (cache_get key now cache = None →
          let rows := CachedEvents (filter_events kwargs (PlayaEvent_objects db)) in
          PlayaEventManager_get_and_cache kwargs now db cache
          = (rows, cache_set key rows one_day now cache))
       ∧ (∀ now2 db2,
            now2 < entry_expiry key now cache →
            let first := PlayaEventManager_get_and_cache kwargs now db cache in
            PlayaEventManager_get_and_cache kwargs now2 db2 first.2
            = (first.1, first.2)))
  ∧ (∀ kwargs now db cache,
       let key := cache_key_camps "ThemeCamp" kwargs in
       (∀ cached, cache_get key now cache = Some cached →
          ThemeCampManager_get_and_cache kwargs now db cache = (cached, cache))
       ∧ (cache_get key now cache = None →
          let rows := CachedCamps
                        (filter_camps kwargs (ThemeCampManager_get_query_set db)) in
          ThemeCampManager_get_and_cache kwargs now db cache
          = (rows, cache_set key rows one_day now cache))
       ∧ (∀ now2 db2,
            now2 < entry_expiry key now cache →
            let first := ThemeCampManager_get_and_cache kwargs now db cache in
            ThemeCampManager_get_and_cache kwargs now2 db2 first.2
            = (first.1, first.2))).
Proof.
  split; [done|]. split.
  - intros kwargs now db cache key.
    assert (Hmiss : cache_get key now cache = None →
              PlayaEventManager_get_and_cache kwargs now db cache
              = (CachedEvents (filter_events kwargs (PlayaEvent_objects db)),
                 cache_set key
                   (CachedEvents (filter_events kwargs (PlayaEvent_objects db)))
                   one_day now cache)).
    { intros Hget. unfold PlayaEventManager_get_and_cache. fold key.
      rewrite Hget. case_bool_decide as Hkw; [done|].
      subst kwargs. by rewrite filter_events_nil. }
    split; [|split; [done|]].
    + intros cached Hget. unfold PlayaEventManager_get_and_cache. fold key.
      by rewrite Hget.
    + intros now2 db2 Hwin first.
      destruct (cache_get key now cache) as [cached|] eqn:Hget.
      * assert (Hfirst : first = (cached, cache)).
        { unfold first, PlayaEventManager_get_and_cache. fold key.
          by rewrite Hget. }
        rewrite Hfirst. simpl.
        apply cache_get_Some in Hget as (entry & Hentry & <- & Hlive).
        unfold entry_expiry in Hwin. rewrite Hentry in Hwin.
        rewrite bool_decide_true in Hwin by done.
        unfold PlayaEventManager_get_and_cache, cache_get. fold key.
        by rewrite Hentry, bool_decide_true.
      * assert (Hexp : entry_expiry key now cache = now + one_day).
        { unfold entry_expiry. unfold cache_get in Hget.
          destruct (cache_lookup key cache); [|done].
          by case_bool_decide. }
        rewrite Hexp in Hwin. unfold first. rewrite (Hmiss eq_refl). simpl.
        unfold PlayaEventManager_get_and_cache. fold key.
        by rewrite cache_get_set.
  - intros kwargs now db cache key.
    assert (Hmiss : cache_get key now cache = None →
              ThemeCampManager_get_and_cache kwargs now db cache
              = (CachedCamps
                   (filter_camps kwargs (ThemeCampManager_get_query_set db)),
                 cache_set key
                   (CachedCamps
                      (filter_camps kwargs (ThemeCampManager_get_query_set db)))
                   one_day now cache)).
    { intros Hget. unfold ThemeCampManager_get_and_cache. fold key.
      rewrite Hget. case_bool_decide as Hkw; [done|].
      subst kwargs. by rewrite filter_camps_nil. }
    split; [|split; [done|]].
    + intros cached Hget. unfold ThemeCampManager_get_and_cache. fold key.
      by rewrite Hget.
    + intros now2 db2 Hwin first.
      destruct (cache_get key now cache) as [cached|] eqn:Hget.
      * assert (Hfirst : first = (cached, cache)).
        { unfold first, ThemeCampManager_get_and_cache. fold key.
          by rewrite Hget. }
        rewrite Hfirst. simpl.
        apply cache_get_Some in Hget as (entry & Hentry & <- & Hlive).
        unfold entry_expiry in Hwin. rewrite Hentry in Hwin.
        rewrite bool_decide_true in Hwin by done.
        unfold ThemeCampManager_get_and_cache, cache_get. fold key.
        by rewrite Hentry, bool_decide_true.
      * assert (Hexp : entry_expiry key now cache = now + one_day).
        { unfold entry_expiry. unfold cache_get in Hget.
          destruct (cache_lookup key cache); [|done].
          by case_bool_decide. }
        rewrite Hexp in Hwin. unfold first. rewrite (Hmiss eq_refl). simpl.
        unfold ThemeCampManager_get_and_cache. fold key.
        by rewrite cache_get_set.
Qed.

(** *** Camps the default manager does not see *)

Lemma ThemeCamp_hidden_DoesNotExist key db c :
  ThemeCamp_all_objects_get_pk key db = Found c →
  tc_list_online c ≠ Some true →
  ThemeCamp_objects_get_pk key db = DoesNotExist.
Proof.
  intros Hall Hhidden.
  apply ThemeCamp_all_get_pk_Found in Hall as (k & Hk & _ & _ & Huniq).
  unfold ThemeCamp_objects_get_pk, get_pk. rewrite Hk.
  destruct (filter_camps [tc_id_is k] (ThemeCamp_objects db)) as [|r l] eqn:Hsel;
    [done|].
  exfalso.
  assert (Hr : r ∈ filter_camps [tc_id_is k] (ThemeCamp_objects db))
    by (rewrite Hsel; left).
  unfold ThemeCamp_objects, ThemeCampManager_get_query_set in Hr.
  rewrite elem_of_filter_camps_id, elem_of_filter_camps_list_online in Hr.
  destruct Hr as [[Hin Hon] Hid]. rewrite (Huniq r Hin Hid) in Hon. done.
Qed.

(** An Event create/update that reaches [save] has resolved the camp its
    field map names through the default manager. *)
Lemma PlayaEvent_create_or_update_camp request year_year playa_event_id db r db'
    data key :
  PlayaEventHandler__create_or_update request year_year playa_event_id db
    = (Next r, db') →
  payload request = Some data →
  data !! "hosted_by_camp" = Some key →
  ∃ camp, ThemeCamp_objects_get_pk key db = Found camp.
Proof.
  unfold PlayaEventHandler__create_or_update. intros H Hd0 Hkey.
  exec_bind H data1 Hdata; [|done].
  apply request_data_Next in Hdata as (Hallowed & (d0 & Hd0' & ->) & Hne & _).
  simplify_eq.
  exec_bind H od Hod; [|done].
  cbv zeta in H.
  exec_bind H obj1 Hobj1; [|done].
  exec_bind H obj2 Hobj2; [|done].
  assert (Hlook : strip_keys event_illegal_keys od.2 !! "hosted_by_camp"
                  = Some key).
  { destruct (lookup_processed event_illegal_keys year_year d0 "hosted_by_camp")
      as [E1 E2]; [done|compute_done|].
    destruct (truthy playa_event_id).
    - exec_bind Hod o Ho; [|done]. unfold pure in Hod. simplify_eq. cbn [fst snd].
      by rewrite E2.
    - exec_bind Hod o Ho; [|done]. unfold pure in Hod. simplify_eq. cbn [fst snd].
      by rewrite E1. }
  rewrite Hlook in Hobj2.
  exec_bind Hobj2 camp Hcamp; [|done].
  apply get_or_return_Next in Hcamp as [Hcamp _]. eauto.
Qed.

Lemma truthy_Some key : key ≠ "" → truthy (Some key) = Some key.
Proof. intros. unfold truthy. by rewrite decide_False. Qed.

(** C9. A ThemeCamp whose [list_online] is false exists as a row (the
    unfiltered manager finds it by key) but the write path, going through the
    default manager, answers not-found: updating it by id, deleting it by id,
    and naming it as an Event's [hosted_by_camp]; nothing is changed. *)
Theorem C9_unlisted_camp_not_found request year_year key db c :
  ThemeCamp_all_objects_get_pk key db = Found c →
  tc_list_online c = Some false →
  api_allowed (req_user request) = true →
  (* update by id *)
  (∀ data,
     key ≠ "" → payload request = Some data →
     with_path_year year_year data ≠ ∅ →
     run (ThemeCampHandler__create_or_update request year_year (Some key)) db
     = (Returned (rc_response NOT_HERE ("ThemeCamp not found #" +:+ key)), db))
  (* delete by id *)
  ∧ (key ≠ "" →
     run (ThemeCampHandler_delete request year_year (Some key)) db
     = (Returned (rc_response NOT_HERE ("Camp not found #" +:+ key)), db))
  (* as the camp hosting an event *)
  ∧ (∀ data playa_event_id,
       payload request = Some data →
       data !! "hosted_by_camp" = Some key →
       (∀ out db',
          run (PlayaEventHandler__create_or_update request year_year
                 playa_event_id) db = (out, db') →
          db' = db ∧ ∀ r, out = Returned r → error_response r)
       ∧ (∀ pid e,
            truthy playa_event_id = Some pid →
            PlayaEvent_objects_get_pk pid db = Found e →
            run (PlayaEventHandler__create_or_update request year_year
                   playa_event_id) db
            = (Returned (rc_response NOT_HERE ("No such camp: " +:+ key)), db))).
Proof.
  intros Hrow Hoff Hallowed.
  assert (Hgone : ThemeCamp_objects_get_pk key db = DoesNotExist).
  { eapply ThemeCamp_hidden_DoesNotExist; [done|]. by rewrite Hoff. }
  split; [|split].
  - intros data Hkey Hdata Hne.
    unfold run, ThemeCampHandler__create_or_update.
    erewrite bind_Next by (by apply request_data_ok).
    rewrite truthy_Some by done.
    erewrite bind_Return; [done|].
    erewrite bind_Return; [done|].
    by apply get_or_return_DoesNotExist.
  - intros Hkey. unfold run, ThemeCampHandler_delete.
    rewrite Hallowed, truthy_Some by done. simpl.
    erewrite bind_Return; [done|].
    by apply get_or_return_DoesNotExist.
  - intros data playa_event_id Hdata Hhost. split.
    + intros out db'. unfold run.
      destruct (PlayaEventHandler__create_or_update _ _ _ db) as [s db1] eqn:H.
      destruct s as [r|r|e].
      * eapply PlayaEvent_create_or_update_camp in H as [camp Hcamp]; [|done..].
        congruence.
      * apply PlayaEvent_create_or_update_inv in H as [Herr ->].
        intros; simplify_eq. split; [done|]. by intros; simplify_eq.
      * apply PlayaEvent_create_or_update_inv in H as ->.
        intros; simplify_eq. split; [done|]. by intros; simplify_eq.
    + intros pid e Hpid He.
      assert (Hne : with_path_year year_year data ≠ ∅).
      { intros Hempty.
        assert (with_path_year year_year data !! "hosted_by_camp" = Some key)
          as Hm by (by rewrite lookup_with_path_year).
        by rewrite Hempty in Hm. }
      destruct (lookup_processed event_illegal_keys year_year data
                  "hosted_by_camp") as [_ Hlook]; [done|compute_done|].
      unfold run, PlayaEventHandler__create_or_update.
      erewrite bind_Next by (by apply request_data_ok).
      rewrite Hpid.
      erewrite (bind_Next (bind _ _));
        [|erewrite bind_Next by (by apply get_or_return_Found); done].
      cbv zeta. cbn [fst snd].
      erewrite (bind_Next (resolve_year _ _ _));
        [|unfold resolve_year; by rewrite lookup_processed_year].
      rewrite Hlook, Hhost.
      erewrite bind_Return; [done|].
      erewrite bind_Return; [done|].
      by apply get_or_return_DoesNotExist.
Qed.

(** *** The year of the path

    The year of the path and the target of an update; the claim on targets
    itself closes the section, after the runs that save have been
    characterised. *)

Lemma delete_year_with_path_year year_year (data : gmap string string) :
  delete "year" (with_path_year year_year data) = delete "year" data.
Proof.
  unfold with_path_year. destruct (truthy year_year); [|done].
  case_decide; [|done]. apply delete_insert_eq.
Qed.

Lemma with_path_year_nonempty year_year (data : gmap string string) :
  is_Some (truthy year_year) → with_path_year year_year data ≠ ∅.
Proof.
  intros [yy Hyy]. unfold with_path_year. rewrite Hyy.
  case_decide as Hy.
  - apply insert_non_empty.
  - intros ->. by rewrite lookup_empty in Hy.
Qed.

Lemma bind_request_data {B} request year_year (k : _ → Handler B) db :
  is_Some (truthy year_year) →
  bind (request_data request year_year) k db
  = if api_allowed (req_user request) then
      match payload request with
      | Some d0 => k (with_path_year year_year d0) db
      | None =>
          (Return (rc_response BAD_REQUEST
                     ("Bad request method: " +:+ req_method request)), db)
      end
    else (Return (rc_response BAD_REQUEST "User not permitted to use the API"),
          db).
Proof.
  intros Hy. unfold bind. rewrite request_data_unfold.
  destruct (api_allowed _); [|done].
  destruct (payload request) as [d0|]; [|done].
  unfold dict_truthy.
  by rewrite bool_decide_true by (by apply with_path_year_nonempty).
Qed.

Lemma PlayaEvent_save_stored obj db k :
  is_Some (pe_year obj) → pe_id obj = Some k →
  ∃ db', PlayaEvent_save obj db = (Next obj, db') ∧ obj ∈ playa_events db'.
Proof.
  intros [y Hy] Hk.
  destruct (PlayaEvent_save obj db) as [s db'] eqn:Hsave. exists db'.
  apply PlayaEvent_save_inv in Hsave as Hinv.
  destruct Hinv as [[-> _]|(saved & -> & -> & _ & Hin & _)].
  - unfold PlayaEvent_save in Hsave. by rewrite Hy, Hk in Hsave; case_bool_decide.
  - by rewrite Hk in *.
Qed.

Lemma ThemeCamp_save_stored obj db k :
  is_Some (tc_year obj) → tc_id obj = Some k →
  ∃ db', ThemeCamp_save obj db = (Next obj, db') ∧ obj ∈ theme_camps db'.
Proof.
  intros [y Hy] Hk.
  destruct (ThemeCamp_save obj db) as [s db'] eqn:Hsave. exists db'.
  apply ThemeCamp_save_inv in Hsave as Hinv.
  destruct Hinv as [[-> _]|(saved & -> & -> & _ & Hin & _)].
  - unfold ThemeCamp_save in Hsave. by rewrite Hy, Hk in Hsave; case_bool_decide.
  - by rewrite Hk in *.
Qed.

(** *** Reads narrowed by occurrence times *)

(** The events that own an occurrence satisfying [P] are the events selected
    by the ids resolved from the occurrences satisfying [P]. *)
Lemma events_owning_by_ids db P :
  events_owning db P
  = filter_events
      [pe_id__in (occ_event <$> filter (λ o, P o) (occurrences db))]
      (PlayaEvent_objects db).
Proof.
  unfold events_owning, filter_events, PlayaEvent_objects.
  apply list_filter_iff. intros e. unfold owns_occurrence.
  rewrite Exists_exists. simpl. rewrite andb_true_r.
  destruct (pe_id e) as [k|]; simpl.
  - rewrite bool_decide_spec, list_elem_of_fmap.
    setoid_rewrite list_elem_of_filter. setoid_rewrite Is_true_true.
    split.
    + intros (o & Hin & Hk & Ho). exists o. by simplify_eq.
    + intros (o & -> & Ho & Hin). by exists o.
  - split; [|done]. by intros (o & _ & ? & _).
Qed.

Lemma events_of_occurrences_owning kwargs db P :
  (∀ o, forallb (occurrence_matches o) kwargs = P o) →
  events_of_occurrences kwargs db = events_owning db P.
Proof.
  intros HP. rewrite events_owning_by_ids.
  unfold events_of_occurrences, filter_occurrences. do 4 f_equal.
  apply list_filter_iff. intros o. by rewrite HP.
Qed.

(** C3 (as amended: no event id in the path). An Event read for a year that
    exists, without an event id: when [start_time], [end_time] or both are
    given, the result is exactly the events owning an occurrence that lies
    within the given bounds (start_time >= the start bound, end_time <= the
    end bound), obtained by resolving the ids of the events of the matching
    occurrences and selecting the events by those ids; when neither is given,
    the result is the accepted, listed events of the year. *)
Theorem C3_read_narrowed_by_times request year_year yy year db t1 t2 :
  truthy year_year = Some yy →
  Year_objects_get yy db = Found year →
  bound "start_time" request = Some t1 →
  bound "end_time" request = Some t2 →
  BasePlayaEventHandler_read request year_year None db
  = Ok match t1, t2 with
       | None, None =>
           filter_events
             [pe_year_is year; pe_moderation_is "A"; pe_list_online_is true]
             (PlayaEvent_objects db)
       | _, _ => events_owning db (in_range t1 t2)
       end
  ∧ events_owning db (in_range t1 t2)
    = filter_events
        [pe_id__in (occ_event <$> filter (λ o, in_range t1 t2 o) (occurrences db))]
        (PlayaEvent_objects db).
Proof.
  intros Hyy Hyear Hst Het. split; [|apply events_owning_by_ids].
  unfold BasePlayaEventHandler_read, bound in *. rewrite Hyy, Hyear. simpl.
  destruct (truthy (req_GET request !! "start_time")) as [st|],
    (truthy (req_GET request !! "end_time")) as [et|];
    repeat match goal with
      | H : context [to_datetime ?s] |- _ =>
          destruct (to_datetime s); simplify_eq
      end;
    simplify_eq; [ | | |done];
    f_equal; apply events_of_occurrences_owning; intros o; unfold in_range;
    simpl; by rewrite ?andb_true_r.
Qed.

(** *** What the public reads do filter *)

(** Every ThemeCamp read returns listed camps only. *)
Lemma ThemeCamp_read_listed request year_year camp_id db l c :
  BaseThemeCampHandler_read request year_year camp_id db = Ok l →
  c ∈ l → tc_list_online c = Some true.
Proof.
  unfold BaseThemeCampHandler_read. intros Hread Hc.
  assert (Hlisted : ∀ kwargs, c ∈ filter_camps kwargs (ThemeCamp_objects db) →
                              tc_list_online c = Some true).
  { intros kwargs [Hin _]%elem_of_filter_camps.
    unfold ThemeCamp_objects, ThemeCampManager_get_query_set in Hin.
    by apply elem_of_filter_camps_list_online in Hin as [_ ?]. }
  repeat case_match; simplify_eq; eauto.
Qed.

(** The Event listings (no event id, no time bound) return accepted, listed
    events only, and those of the year when one is given. *)
Lemma PlayaEvent_listing_accepted request year_year db l e :
  bound "start_time" request = Some None →
  bound "end_time" request = Some None →
  BasePlayaEventHandler_read request year_year None db = Ok l →
  e ∈ l →
  pe_moderation e = "A" ∧ pe_list_online e = Some true
  ∧ ∀ yy, truthy year_year = Some yy →
          ∃ year, Year_objects_get yy db = Found year
                  ∧ pe_year e = Some (y_id year).
Proof.
  unfold BasePlayaEventHandler_read, bound. intros Hst Het Hread He.
  destruct (truthy (req_GET request !! "start_time")) as [st|];
    [by destruct (to_datetime st)|].
  destruct (truthy (req_GET request !! "end_time")) as [et|];
    [by destruct (to_datetime et)|].
  simpl in Hread.
  destruct (truthy year_year) as [yy|].
  - destruct (Year_objects_get yy db) as [year| |] eqn:Hyear; simplify_eq.
    apply elem_of_filter_events in He as [_ He].
    pose proof (He (pe_year_is year)) as H1.
    pose proof (He (pe_moderation_is "A")) as H2.
    pose proof (He (pe_list_online_is true)) as H3.
    simpl in *.
    split; [eapply bool_decide_eq_true_1, H2; set_solver|].
    split; [eapply bool_decide_eq_true_1, H3; set_solver|].
    intros ? ?; simplify_eq. exists year. split; [done|].
    eapply bool_decide_eq_true_1, H1; set_solver.
  - simplify_eq. apply elem_of_filter_events in He as [_ He].
    pose proof (He (pe_moderation_is "A")) as H2.
    pose proof (He (pe_list_online_is true)) as H3.
    simpl in *.
    split; [eapply bool_decide_eq_true_1, H2; set_solver|].
    split; [eapply bool_decide_eq_true_1, H3; set_solver|].
    done.
Qed.

(** ** Further properties of the code *)

(** *** Reference data *)

(** X1. [Year.daterange] lists the days of the event in order: its [i]-th entry
    is the start day plus [i], up to the end day included; it is empty when
    the end precedes the start or when either date is missing. *)
Theorem Year_daterange_days :
  (∀ start end_ (i : nat) d,
     Year_daterange (Some start) (Some end_) !! i = Some d
     ↔ d = start + Z.of_nat i ∧ d ≤ end_)
  ∧ (∀ start end_ d,
       d ∈ Year_daterange (Some start) (Some end_) ↔ start ≤ d ≤ end_)
  ∧ (∀ start end_,
       List.length (Year_daterange (Some start) (Some end_))
       = Z.to_nat (end_ - start + 1))
  ∧ (∀ start end_, end_ < start → Year_daterange (Some start) (Some end_) = [])
  ∧ (∀ event_end, Year_daterange None event_end = [])
  ∧ (∀ event_start, Year_daterange event_start None = []).
Proof.
  unfold Year_daterange. split_and!.
  - intros start end_ i d. rewrite list_lookup_fmap.
    destruct (seqZ 0 (end_ - start + 1) !! i) as [x|] eqn:Hx; simpl.
    + apply lookup_seqZ in Hx as [-> Hlt]. split.
      * intros; simplify_eq; lia.
      * intros [-> _]. f_equal; lia.
    + split; [done|]. intros [-> Hle].
      assert (seqZ 0 (end_ - start + 1) !! i = Some (0 + Z.of_nat i)) as Hi
        by (apply lookup_seqZ; lia).
      congruence.
  - intros start end_ d. rewrite list_elem_of_fmap.
    setoid_rewrite elem_of_seqZ. split.
    + intros (x & -> & Hx). lia.
    + intros Hd. exists (d - start). lia.
  - intros start end_. by rewrite length_fmap, length_seqZ.
  - intros start end_ Hlt. rewrite seqZ_nil by lia. done.
  - done.
  - by intros [].
Qed.

(** *** The default ordering *)

Lemma then_by_total_preorder {K1 K2} (le1 : K1 → K1 → bool)
    (le2 : K2 → K2 → bool) :
  total_preorder le1 → total_preorder le2 → total_preorder (then_by le1 le2).
Proof.
  intros [Ht1 Hr1] [Ht2 Hr2]. split.
  - intros [a1 a2] [b1 b2]. unfold then_by. cbn [fst snd].
    destruct (Ht1 a1 b1) as [H|H], (Ht2 a2 b2) as [H'|H']; rewrite ?H, ?H';
      destruct (le1 b1 a1) eqn:E1, (le1 a1 b1) eqn:E2; auto.
  - intros [a1 a2] [b1 b2] [c1 c2]. unfold then_by. cbn [fst snd].
    destruct (le1 a1 b1) eqn:Eab; [|done].
    destruct (le1 b1 c1) eqn:Ebc; [|by destruct (le1 b1 a1)].
    rewrite (Hr1 _ _ _ Eab Ebc).
    destruct (le1 c1 a1) eqn:Eca; [|done].
    rewrite (Hr1 _ _ _ Ebc Eca), (Hr1 _ _ _ Eca Eab). apply Hr2.
Qed.

Lemma nullable_le_total_preorder b : total_preorder (nullable_le b).
Proof.
  split.
  - intros [x|] [y|]; simpl; destruct b; auto.
    all: rewrite !bool_decide_eq_true; lia.
  - intros [x|] [y|] [z|]; simpl; destruct b; auto; try done.
    all: rewrite !bool_decide_eq_true; lia.
Qed.

Lemma order_by_Permutation {A K} (le : K → K → bool) (key : A → K) rows :
  order_by le key rows ≡ₚ rows.
Proof. apply merge_sort_Permutation. Qed.

Lemma order_by_sorted {A K} (le : K → K → bool) (key : A → K) rows :
  total_preorder le →
  StronglySorted (key_le le key) (order_by le key rows).
Proof.
  intros [Ht Hr]. apply StronglySorted_merge_sort.
  - intros x y z. apply Hr.
  - intros x y. apply Ht.
Qed.

Lemma elem_of_join_year {A} (year_of : A → Z) db rows label a :
  (label, a) ∈ join_year year_of db rows
  ↔ a ∈ rows ∧ ∃ y, y ∈ years db ∧ y_id y = year_of a ∧ y_year y = label.
Proof.
  unfold join_year. rewrite list_elem_of_bind. split.
  - intros (b & (y & Heq & Hy)%list_elem_of_fmap & Hb). simplify_eq.
    apply list_elem_of_filter in Hy as [Hid Hy]. eauto.
  - intros (Ha & y & Hy & Hid & <-). exists a. split; [|done].
    apply list_elem_of_fmap. exists y. split; [done|].
    by apply list_elem_of_filter.
Qed.

(** The rows with the key of a row of the table, when keys are unique. *)
Lemma filter_id_NoDup {A} (f : A → Z) (l : list A) y :
  NoDup (f <$> l) → y ∈ l → filter (λ x, f x = f y) l = [y].
Proof.
  induction l as [|a l IH]; intros Hnd Hin.
  - by apply elem_of_nil in Hin.
  - rewrite fmap_cons in Hnd. apply NoDup_cons in Hnd as [Hnotin Hnd].
    assert (∀ r, r ∈ l → f r ≠ f a) as Hother.
    { intros r Hr Heq. apply Hnotin. rewrite <- Heq.
      by apply list_elem_of_fmap_2. }
    apply elem_of_cons in Hin as [->|Hin].
    + rewrite filter_cons_True by done. f_equal.
      destruct (filter (λ x, f x = f a) l) as [|b l'] eqn:Hf; [done|].
      exfalso. assert (b ∈ filter (λ x, f x = f a) l) as Hb
        by (rewrite Hf; left).
      apply list_elem_of_filter in Hb as [Hbk Hbl]. by apply (Hother b).
    + rewrite filter_cons_False; [by apply IH|].
      intros Heq. by apply (Hother y Hin).
Qed.

(** With unique Year keys and no dangling reference, the join neither drops
    nor repeats a row. *)
Lemma join_year_rows {A} (year_of : A → Z) db rows :
  NoDup (y_id <$> years db) →
  (∀ a, a ∈ rows → ∃ y, y ∈ years db ∧ y_id y = year_of a) →
  (join_year year_of db rows).*2 = rows.
Proof.
  intros Hnd Hint. unfold join_year.
  induction rows as [|a rows IH]; [done|].
  rewrite bind_cons, fmap_app, IH by (intros; apply Hint; by right).
  destruct (Hint a) as (y & Hy & Hid); [left|].
  rewrite <- Hid, (filter_id_NoDup y_id) by done. done.
Qed.

Lemma StronglySorted_fmap_elem {A B} (f : A → B) (R1 : relation A)
    (R2 : relation B) l :
  (∀ x y, x ∈ l → y ∈ l → R1 x y → R2 (f x) (f y)) →
  StronglySorted R1 l → StronglySorted R2 (f <$> l).
Proof.
  intros HR Hs. induction Hs as [|x l Hs IH Hall]; [constructor|].
  rewrite fmap_cons. constructor.
  - apply IH. intros a b Ha Hb. apply HR; by right.
  - apply Forall_fmap, Forall_forall. intros y Hy. simpl.
    apply HR; [left|by right|]. by eapply Forall_forall in Hall.
Qed.

(** A default ordering [('year', key)]: the result is sorted by the label of
    the year and then by the key; it holds the rows whose Year row exists,
    each with the label of that row; with unique Year keys and no dangling
    reference it is a rearrangement of the rows. *)
Lemma ordered_by_year_spec {A K} (year_of : A → Z) (le : K → K → bool)
    (key : A → K) db rows :
  let kl := ordered_by_year year_of le key db rows in
  (total_preorder text_le → total_preorder le →
   StronglySorted (key_le (then_by text_le le) (λ p, (p.1, key p.2))) kl)
  ∧ (∀ label a,
       (label, a) ∈ kl
       ↔ a ∈ rows
         ∧ ∃ y, y ∈ years db ∧ y_id y = year_of a ∧ y_year y = label)
  ∧ (NoDup (y_id <$> years db) →
     (∀ a, a ∈ rows → ∃ y, y ∈ years db ∧ y_id y = year_of a) →
     kl.*2 ≡ₚ rows).
Proof using Type.
  cbv zeta. unfold ordered_by_year. split; [|split].
  - intros Ht Hle.
    apply (order_by_sorted (then_by text_le le) (λ p, (p.1, key p.2))).
    by apply then_by_total_preorder.
  - intros label a. rewrite order_by_Permutation. apply elem_of_join_year.
  - intros Hnd Hint. rewrite order_by_Permutation.
    by rewrite join_year_rows.
Qed.

(** Within one year, the default ordering is the ordering by the key. *)
Lemma ordered_within_year {A K} (year_of : A → Z) (le : K → K → bool)
    (key : A → K) db rows year :
  total_preorder text_le → total_preorder le →
  NoDup (y_id <$> years db) → year ∈ years db →
  (∀ a, a ∈ rows → year_of a = y_id year) →
  let l := (ordered_by_year year_of le key db rows).*2 in
  l ≡ₚ rows ∧ StronglySorted (key_le le key) l.
Proof using Type.
  intros Ht Hle Hnd Hyear Hrows. cbv zeta.
  destruct (ordered_by_year_spec year_of le key db rows) as (Hs & Hin & Hp).
  cbv zeta in *. split.
  - apply Hp; [done|]. intros a Ha. exists year. by rewrite Hrows.
  - eapply StronglySorted_fmap_elem; [|by apply Hs].
    assert (∀ y a, a ∈ rows → y ∈ years db → y_id y = year_of a → y = year)
      as Hsame.
    { intros y a Ha Hy Hid. rewrite (Hrows a Ha) in Hid.
      assert (y ∈ filter (λ x, y_id x = y_id year) (years db)) as Hf
        by (by apply list_elem_of_filter).
      rewrite (filter_id_NoDup y_id) in Hf by done.
      by apply list_elem_of_singleton in Hf. }
    intros [l1 a] [l2 b] Ha Hb. unfold key_le. cbn [fst snd].
    apply Hin in Ha as (Ha & y1 & Hy1 & Hid1 & <-).
    apply Hin in Hb as (Hb & y2 & Hy2 & Hid2 & <-).
    rewrite (Hsame y1 a), (Hsame y2 b) by done.
    unfold then_by. cbn [fst snd]. destruct Ht as [Ht _].
    by destruct (Ht (y_year year) (y_year year)) as [-> | ->].
Qed.

Lemma Year_get_in label db year :
  Year_objects_get label db = Found year → year ∈ years db.
Proof.
  unfold Year_objects_get, get. intros Hget.
  destruct (filter _ (years db)) as [|y [|? ?]] eqn:Hf; simplify_eq.
  assert (year ∈ filter (λ y, y_year y = label) (years db)) as Hin
    by (rewrite Hf; left).
  by apply list_elem_of_filter in Hin as [_ ?].
Qed.

Lemma filter_by_key_at_most_one {A} (f : A → Z) (P : A → Prop)
    `{∀ x, Decision (P x)} (l : list A) k :
  NoDup (f <$> l) → (List.length (filter (λ x, P x ∧ f x = k) l) ≤ 1)%nat.
Proof.
  induction l as [|a l IH].
  - intros Hnd. rewrite filter_nil. simpl. lia.
  - intros Hnd. rewrite fmap_cons in Hnd.
    apply NoDup_cons in Hnd as [Hnotin Hnd].
    destruct (decide (P a ∧ f a = k)) as [[HP Hk]|Hno].
    + rewrite filter_cons_True by done.
      destruct (filter (λ x, P x ∧ f x = k) l) as [|b l'] eqn:Hf.
      * simpl. lia.
      * exfalso. assert (b ∈ filter (λ x, P x ∧ f x = k) l) as Hb
          by (rewrite Hf; left).
        apply list_elem_of_filter in Hb as [[_ Hbk] Hbl].
        apply Hnotin. rewrite Hk, <- Hbk. by apply list_elem_of_fmap_2.
    + rewrite filter_cons_False by done. by apply IH.
Qed.

(** X2. Reads of art installations come in the default ordering of the model:
    by the label of the year, then by name. Without a year the result is the
    whole table in that ordering (every installation whose Year row exists,
    all of them when no reference dangles), and an id is ignored. With a year
    that exists the result is the installations of that year ordered by name,
    narrowed to one key when an id is given (at most one row when keys are
    unique; a key that is no integer raises). *)
Theorem art_read_scoped_by_year request year_year db :
  total_preorder text_le →
  NoDup (y_id <$> years db) →
  (truthy year_year = None →
   ∀ art_id_,
     ∃ kl, BaseArtHandler_read request year_year art_id_ db = Ok kl.*2
           ∧ StronglySorted
               (key_le (then_by text_le text_le) (λ p, (p.1, art_name p.2))) kl
           ∧ (∀ label a,
                (label, a) ∈ kl
                ↔ a ∈ art_installations db
                  ∧ ∃ y, y ∈ years db ∧ y_id y = art_year a
                         ∧ y_year y = label)
           ∧ ((∀ a, a ∈ art_installations db →
                    ∃ y, y ∈ years db ∧ y_id y = art_year a) →
              kl.*2 ≡ₚ art_installations db))
  ∧ (∀ yy year,
       truthy year_year = Some yy → Year_objects_get yy db = Found year →
       (∃ l, BaseArtHandler_read request year_year None db = Ok l
             ∧ l ≡ₚ filter (λ a, art_year a = y_id year) (art_installations db)
             ∧ StronglySorted (key_le text_le art_name) l)
       ∧ (∀ aid, aid ≠ "" →
            match to_int aid with
            | Some k =>
                ∃ l, BaseArtHandler_read request year_year (Some aid) db = Ok l
                     ∧ l ≡ₚ filter (λ a, art_year a = y_id year ∧ art_id a = k)
                              (art_installations db)
                     ∧ (NoDup (art_id <$> art_installations db) →
                        (List.length l ≤ 1)%nat)
            | None =>
                BaseArtHandler_read request year_year (Some aid) db
                = Raise ValueError
            end)).
Proof using to_int.
  intros Ht Hnd. unfold BaseArtHandler_read, ArtInstallation_Meta_ordering.
  split.
  - intros -> _. eexists. split; [done|].
    destruct (ordered_by_year_spec art_year text_le art_name db
                (art_installations db)) as (Hs & Hin & Hp).
    split; [by apply Hs|]. split; [done|]. by apply Hp.
  - intros yy year -> Hget. rewrite Hget.
    apply Year_get_in in Hget as Hyear. split.
    + simpl. eexists. split; [done|].
      apply ordered_within_year with year; try done.
      by intros a [? _]%list_elem_of_filter.
    + intros aid Haid. rewrite truthy_Some by done.
      destruct (to_int aid) as [k|]; [|done].
      eexists. split; [done|].
      destruct (ordered_within_year art_year text_le art_name db
                  (filter (λ a, art_year a = y_id year ∧ art_id a = k)
                     (art_installations db)) year) as [Hp _]; try done.
      { by intros a [[? _] _]%list_elem_of_filter. }
      split; [done|]. intros Hkeys. rewrite Hp.
      by apply (filter_by_key_at_most_one art_id).
Qed.

(** X3. Reads of the streets come in the default ordering of their model:
    circular streets by the label of the year and then by [order], time
    streets by the label of the year and then by name. Without a year the
    result is the whole table in that ordering; with a year that exists,
    exactly the streets of that year, ordered by [order] and by name. *)
Theorem street_reads_scoped_by_year request year_year db :
  total_preorder text_le →
  NoDup (y_id <$> years db) →
  (truthy year_year = None →
   (∃ kl, AnonymousCircularStreetHandler_read request year_year db = Ok kl.*2
          ∧ StronglySorted
              (key_le (then_by text_le (nullable_le nulls_first))
                 (λ p, (p.1, cs_order p.2))) kl
          ∧ (∀ label s,
               (label, s) ∈ kl
               ↔ s ∈ circular_streets db
                 ∧ ∃ y, y ∈ years db ∧ y_id y = cs_year s ∧ y_year y = label)
          ∧ ((∀ s, s ∈ circular_streets db →
                   ∃ y, y ∈ years db ∧ y_id y = cs_year s) →
             kl.*2 ≡ₚ circular_streets db))
   ∧ (∃ kl, AnonymousTimeStreetHandler_read request year_year db = Ok kl.*2
            ∧ StronglySorted
                (key_le (then_by text_le text_le) (λ p, (p.1, ts_name p.2))) kl
            ∧ (∀ label s,
                 (label, s) ∈ kl
                 ↔ s ∈ time_streets db
                   ∧ ∃ y, y ∈ years db ∧ y_id y = ts_year s ∧ y_year y = label)
            ∧ ((∀ s, s ∈ time_streets db →
                     ∃ y, y ∈ years db ∧ y_id y = ts_year s) →
               kl.*2 ≡ₚ time_streets db)))
  ∧ (∀ yy year,
       truthy year_year = Some yy → Year_objects_get yy db = Found year →
       (∃ l, AnonymousCircularStreetHandler_read request year_year db = Ok l
             ∧ l ≡ₚ filter (λ s, cs_year s = y_id year) (circular_streets db)
             ∧ StronglySorted (key_le (nullable_le nulls_first) cs_order) l)
       ∧ (∃ l, AnonymousTimeStreetHandler_read request year_year db = Ok l
               ∧ l ≡ₚ filter (λ s, ts_year s = y_id year) (time_streets db)
               ∧ StronglySorted (key_le text_le ts_name) l)).
Proof using Type.
  intros Ht Hnd.
  pose proof (nullable_le_total_preorder nulls_first) as Hnull.
  unfold AnonymousCircularStreetHandler_read, AnonymousTimeStreetHandler_read,
    CircularStreet_Meta_ordering, TimeStreet_Meta_ordering.
  split.
  - intros ->. split; (eexists; split; [done|]).
    + destruct (ordered_by_year_spec cs_year (nullable_le nulls_first)
                  cs_order db (circular_streets db)) as (Hs & Hin & Hp).
      split; [by apply Hs|]. split; [done|]. by apply Hp.
    + destruct (ordered_by_year_spec ts_year text_le ts_name db
                  (time_streets db)) as (Hs & Hin & Hp).
      split; [by apply Hs|]. split; [done|]. by apply Hp.
  - intros yy year -> Hget. rewrite Hget.
    apply Year_get_in in Hget as Hyear.
    split; (eexists; split; [done|]);
      apply ordered_within_year with year; try done;
      by intros a [? _]%list_elem_of_filter.
Qed.

(** X4. The year of a read must exist: for a label that no Year row carries,
    every year-scoped read raises [DoesNotExist] instead of answering with an
    empty list, and for a label that two rows carry it raises
    [MultipleObjectsReturned]. *)
Theorem reads_raise_for_unknown_year request year_year yy entity_id db :
  truthy year_year = Some yy →
  ((∀ y, y ∈ years db → y_year y ≠ yy) →
   BasePlayaEventHandler_read request year_year entity_id db
   = Raise ObjectDoesNotExist
   ∧ BaseThemeCampHandler_read request year_year entity_id db
     = Raise ObjectDoesNotExist
   ∧ BaseArtHandler_read request year_year entity_id db
     = Raise ObjectDoesNotExist
   ∧ AnonymousCircularStreetHandler_read request year_year db
     = Raise ObjectDoesNotExist
   ∧ AnonymousTimeStreetHandler_read request year_year db
     = Raise ObjectDoesNotExist)
  ∧ (∀ y1 y2 rest,
       filter (λ y, y_year y = yy) (years db) = y1 :: y2 :: rest →
       BasePlayaEventHandler_read request year_year entity_id db
       = Raise MultipleObjectsReturned
       ∧ BaseThemeCampHandler_read request year_year entity_id db
         = Raise MultipleObjectsReturned
       ∧ BaseArtHandler_read request year_year entity_id db
         = Raise MultipleObjectsReturned
       ∧ AnonymousCircularStreetHandler_read request year_year db
         = Raise MultipleObjectsReturned
       ∧ AnonymousTimeStreetHandler_read request year_year db
         = Raise MultipleObjectsReturned).
Proof.
  intros Hyy. split.
  - intros Hnone.
    assert (Year_objects_get yy db = DoesNotExist) as Hget.
    { unfold Year_objects_get.
      destruct (filter (λ y, y_year y = yy) (years db)) as [|y l] eqn:Hf; [done|].
      exfalso. assert (y ∈ filter (λ y, y_year y = yy) (years db)) as Hy
        by (rewrite Hf; left).
      apply list_elem_of_filter in Hy as [Hl Hin]. by apply (Hnone y). }
    unfold BasePlayaEventHandler_read, BaseThemeCampHandler_read,
      BaseArtHandler_read, AnonymousCircularStreetHandler_read,
      AnonymousTimeStreetHandler_read.
    by rewrite Hyy, Hget.
  - intros y1 y2 rest Hf.
    assert (Year_objects_get yy db = GetError MultipleObjectsReturned) as Hget
      by (unfold Year_objects_get; by rewrite Hf).
    unfold BasePlayaEventHandler_read, BaseThemeCampHandler_read,
      BaseArtHandler_read, AnonymousCircularStreetHandler_read,
      AnonymousTimeStreetHandler_read.
    by rewrite Hyy, Hget.
Qed.

(** *** Search *)

Lemma elem_of_search searchtext year db e :
  e ∈ PlayaEventManager_search searchtext year db
  ↔ e ∈ playa_events db
    ∧ search_tsv_match searchtext e = true
    ∧ pe_moderation e = "A" ∧ pe_list_online e = Some true
    ∧ ∀ label, truthy year = Some label → label ≠ "all" →
               ∃ y, y ∈ years db ∧ y_year y = label ∧ pe_year e = Some (y_id y).
Proof.
  unfold PlayaEventManager_search.
  destruct (truthy year) as [label|]; [destruct (decide (label ≠ "all"))|].
  - rewrite list_elem_of_bind. setoid_rewrite list_elem_of_bind. split.
    + intros (pe & (y & Hin & Hy) & Hpe).
      destruct (_ && _) eqn:Hc in Hin; [|by apply elem_of_nil in Hin].
      apply list_elem_of_singleton in Hin as ->.
      repeat (apply andb_true_iff in Hc as [Hc ?]).
      repeat match goal with
             | H : bool_decide _ = true |- _ => apply bool_decide_eq_true_1 in H
             end.
      split_and!; try done. intros ? ? _; simplify_eq. by exists y.
    + intros (Hin & Hm & Hmod & Hlo & Hyear).
      destruct (Hyear label eq_refl) as (y & Hy & Hl & He); [done|].
      exists e. split; [|done]. exists y. split; [|done].
      rewrite !bool_decide_true, Hm by done. simpl. left.
  - rewrite list_elem_of_bind. split.
    + intros (pe & Hin & Hpe).
      destruct (_ && _) eqn:Hc in Hin; [|by apply elem_of_nil in Hin].
      apply list_elem_of_singleton in Hin as ->.
      repeat (apply andb_true_iff in Hc as [Hc ?]).
      repeat match goal with
             | H : bool_decide _ = true |- _ => apply bool_decide_eq_true_1 in H
             end.
      split_and!; try done. intros ? ? ?; simplify_eq; contradiction.
    + intros (Hin & Hm & Hmod & Hlo & _).
      exists e. split; [|done].
      rewrite !bool_decide_true, Hm by done. simpl. left.
  - rewrite list_elem_of_bind. split.
    + intros (pe & Hin & Hpe).
      destruct (_ && _) eqn:Hc in Hin; [|by apply elem_of_nil in Hin].
      apply list_elem_of_singleton in Hin as ->.
      repeat (apply andb_true_iff in Hc as [Hc ?]).
      repeat match goal with
             | H : bool_decide _ = true |- _ => apply bool_decide_eq_true_1 in H
             end.
      split_and!; try done.
    + intros (Hin & Hm & Hmod & Hlo & _).
      exists e. split; [|done].
      rewrite !bool_decide_true, Hm by done. simpl. left.
Qed.

(** X5. [PlayaEventManager.search] only ever returns accepted, listed events that
    match the text; with a year other than 'all' they are further those of a
    year carrying that label, so that a label no year carries gives an empty
    result (and no error); 'all' and no year mean the same. *)
Theorem search_returns_public_events searchtext year db :
  (∀ e, e ∈ PlayaEventManager_search searchtext year db →
        e ∈ playa_events db ∧ pe_moderation e = "A"
        ∧ pe_list_online e = Some true
        ∧ search_tsv_match searchtext e = true
        ∧ e ∈ PlayaEventManager_search searchtext None db)
  ∧ (∀ label e,
       truthy year = Some label → label ≠ "all" →
       e ∈ PlayaEventManager_search searchtext year db →
       ∃ y, y ∈ years db ∧ y_year y = label ∧ pe_year e = Some (y_id y))
  ∧ (∀ label,
       truthy year = Some label → label ≠ "all" →
       (∀ y, y ∈ years db → y_year y ≠ label) →
       PlayaEventManager_search searchtext year db = [])
  ∧ PlayaEventManager_search searchtext (Some "all") db
    = PlayaEventManager_search searchtext None db.
Proof.
  split_and!.
  - intros e (Hin & Hm & Hmod & Hlo & _)%elem_of_search.
    split_and!; try done. apply elem_of_search. split_and!; done.
  - intros label e Hl Hne (_ & _ & _ & _ & Hy)%elem_of_search. eauto.
  - intros label Hl Hne Hnone.
    destruct (PlayaEventManager_search searchtext year db) as [|e l] eqn:Hs;
      [done|].
    exfalso. assert (e ∈ PlayaEventManager_search searchtext year db) as He
      by (rewrite Hs; left).
    apply elem_of_search in He as (_ & _ & _ & _ & Hy).
    destruct (Hy label Hl Hne) as (y & Hin & Hyl & _). by apply (Hnone y).
  - done.
Qed.

(** *** Every step of a create/update that saves *)

(** The step [if key in data: try: a = get(data[key]); obj.f = a
    except DoesNotExist: return rc_response(NOT_HERE, msg)] falls through
    exactly when the key resolves. *)
Lemma resolved_step {A O} (key : option string)
    (get : string → DB → GetResult A) (msg : string → string)
    (f : A → O → O) db o o' db1 :
  match key with
  | Some k => bind (get_or_return (get k) (rc_response NOT_HERE (msg k)))
                (λ a, pure (f a o))
  | None => pure o
  end db = (Next o', db1)
  ↔ db1 = db
    ∧ ∃ row, resolved key get db row
             ∧ o' = match row with Some a => f a o | None => o end.
Proof.
  unfold resolved. destruct key as [k|].
  - cbv [bind get_or_return query pure return_ raise].
    destruct (get k db) as [a| |e]; split.
    + intros; simplify_eq. split; [done|]. exists (Some a). eauto.
    + intros (-> & row & (a' & ? & ->) & ->). by simplify_eq.
    + intros; simplify_eq.
    + intros (-> & row & (a' & ? & ->) & ->). by simplify_eq.
    + intros; simplify_eq.
    + intros (-> & row & (a' & ? & ->) & ->). by simplify_eq.
  - unfold pure. split.
    + intros; simplify_eq. split; [done|]. by exists None.
    + by intros (-> & row & -> & ->).
Qed.

Lemma resolve_year_step {O} (set_year : option Z → O → O) data obj db o' db1 :
  resolve_year set_year data obj db = (Next o', db1)
  ↔ db1 = db
    ∧ ∃ year, resolved (data !! "year") Year_objects_get db year
              ∧ o' = match year with
                     | Some y => set_year (Some (y_id y)) obj
                     | None => obj
                     end.
Proof.
  unfold resolve_year.
  apply (resolved_step (data !! "year") Year_objects_get
           (λ label, "No such year: " +:+ label)
           (λ y o, set_year (Some (y_id y)) o)).
Qed.

Lemma bind_Next_iff {A B} (m : Handler A) (k : A → Handler B) db b db' :
  bind m k db = (Next b, db')
  ↔ ∃ a db1, m db = (Next a, db1) ∧ k a db1 = (Next b, db').
Proof.
  unfold bind. destruct (m db) as [[a|r|e] db1]; split;
    try (intros; simplify_eq; fail);
    try (by intros (? & ? & ? & ?); simplify_eq).
  all: eauto.
Qed.

Lemma request_data_Next_iff request year_year db data db' :
  request_data request year_year db = (Next data, db')
  ↔ db' = db
    ∧ api_allowed (req_user request) = true
    ∧ data ≠ ∅
    ∧ ∃ d0, payload request = Some d0 ∧ data = with_path_year year_year d0.
Proof.
  split.
  - intros (? & ? & ? & ?)%request_data_Next. done.
  - intros (-> & ? & ? & d0 & ? & ->). by apply request_data_ok.
Qed.

Lemma PlayaEvent_target_step request year_year playa_event_id d0 db od db' :
  match truthy playa_event_id with
  | Some pid =>
      (obj <- get_or_return (PlayaEvent_objects_get_pk pid)
                (rc_response NOT_HERE ("Event not found #" +:+ pid)) ;;
       pure (obj, delete "year" (with_path_year year_year d0)))%handler
  | None =>
      (event_type <-
         match with_path_year year_year d0 !! "event_type" with
         | None => get_or_raise (EventType_objects_get_pk 1)
         | Some abbr =>
             get_or_return (EventType_objects_get_abbr abbr)
               (rc_response NOT_HERE ("No such EventType: " +:+ abbr))
         end ;;
       pure (set_pe_event_type (Some (et_id event_type))
               (set_pe_creator (Some (user_id (req_user request)))
                  PlayaEvent_new),
             with_path_year year_year d0))%handler
  end db = (Next od, db')
  ↔ db' = db
    ∧ PlayaEvent_target request playa_event_id db d0 od.1
    ∧ strip_keys event_illegal_keys od.2
      = fields_read event_illegal_keys year_year playa_event_id d0
    ∧ od.2 = match truthy playa_event_id with
             | Some _ => delete "year" (with_path_year year_year d0)
             | None => with_path_year year_year d0
             end.
Proof.
  unfold PlayaEvent_target, fields_read.
  rewrite lookup_with_path_year by done.
  destruct (truthy playa_event_id) as [pid|].
  - cbv [bind get_or_return query pure return_ raise].
    destruct (PlayaEvent_objects_get_pk pid db) as [a| |e]; split;
      try (intros; simplify_eq; fail).
    + intros; by simplify_eq.
    + intros (-> & ? & ? & ?). destruct od; cbn [fst snd] in *. by simplify_eq.
    + by intros (-> & ? & ? & ?).
    + by intros (-> & ? & ? & ?).
  - destruct (d0 !! "event_type") as [abbr|];
      cbv [bind get_or_return get_or_raise query pure return_ raise].
    + destruct (EventType_objects_get_abbr abbr db) as [a| |e]; split;
        try (intros; simplify_eq; fail);
        try (by intros (-> & (t & ? & ?) & ? & ?)).
      * intros; simplify_eq. cbn [fst snd]. split_and!; eauto.
      * intros (-> & (t & ? & ?) & ? & ?). destruct od; cbn [fst snd] in *.
        by simplify_eq.
    + destruct (EventType_objects_get_pk 1 db) as [a| |e]; split;
        try (intros; simplify_eq; fail);
        try (by intros (-> & (t & ? & ?) & ? & ?)).
      * intros; simplify_eq. cbn [fst snd]. split_and!; eauto.
      * intros (-> & (t & ? & ?) & ? & ?). destruct od; cbn [fst snd] in *.
        by simplify_eq.
Qed.

(** A run of the Event handler saves exactly when the user may use the API,
    the request carries a field map that is not empty once the year of the
    path is injected, the target and every row the map names are found, and
    [save] accepts the object the assignments build. *)
Lemma PlayaEvent_create_or_update_steps request year_year playa_event_id db r db' :
  PlayaEventHandler__create_or_update request year_year playa_event_id db
    = (Next r, db')
  ↔ ∃ d0 obj0 year camp art saved,
      api_allowed (req_user request) = true
      ∧ payload request = Some d0
      ∧ with_path_year year_year d0 ≠ ∅
      ∧ PlayaEvent_target request playa_event_id db d0 obj0
      ∧ let data := fields_read event_illegal_keys year_year playa_event_id d0 in
        resolved (data !! "year") Year_objects_get db year
        ∧ resolved (data !! "hosted_by_camp") ThemeCamp_objects_get_pk db camp
        ∧ resolved (data !! "located_at_art") ArtInstallation_objects_get_pk
            db art
        ∧ PlayaEvent_save (PlayaEvent_assign data year camp art obj0) db
          = (Next saved, db')
        ∧ r = saved_response (req_method request) (pe_id saved).
Proof.
  unfold PlayaEventHandler__create_or_update. cbv zeta. split.
  - intros H.
    apply bind_Next_iff in H
      as (data & db1 & (-> & Ha & Hne & d0 & Hp & ->)%request_data_Next_iff & H).
    apply bind_Next_iff in H as (od & db2 & Hod & H).
    apply PlayaEvent_target_step in Hod as (-> & Ht & Hdata & _).
    rewrite Hdata in H.
    apply bind_Next_iff in H
      as (o1 & db3 & (-> & year & Hyear & ->)%resolve_year_step & H).
    apply bind_Next_iff in H as (o2 & db4 & Hc & H).
    apply (resolved_step _ ThemeCamp_objects_get_pk
             (λ key, "No such camp: " +:+ key)
             (λ camp o, set_pe_hosted_by_camp (tc_id camp) o))
      in Hc as (-> & camp & Hcamp & ->).
    apply bind_Next_iff in H as (o3 & db5 & Hart & H).
    apply (resolved_step _ ArtInstallation_objects_get_pk
             (λ key, "No such art: " +:+ key)
             (λ art o, set_pe_located_at_art (Some (art_id art)) o))
      in Hart as (-> & art & Hart & ->).
    apply bind_Next_iff in H as (saved & db6 & Hsave & H).
    unfold pure in H. simplify_eq.
    exists d0, od.1, year, camp, art, saved. by split_and!.
  - intros (d0 & obj0 & year & camp & art & saved & Ha & Hp & Hne & Ht
            & Hyear & Hcamp & Hart & Hsave & ->).
    apply bind_Next_iff. exists (with_path_year year_year d0), db.
    split; [by apply request_data_ok|].
    apply bind_Next_iff.
    exists (obj0, match truthy playa_event_id with
                  | Some _ => delete "year" (with_path_year year_year d0)
                  | None => with_path_year year_year d0
                  end), db.
    split; [by apply PlayaEvent_target_step|]. cbn [fst snd].
    change (strip_keys event_illegal_keys _)
      with (fields_read event_illegal_keys year_year playa_event_id d0).
    apply bind_Next_iff. eexists _, db.
    split; [apply resolve_year_step; split; [done|]; by exists year|].
    apply bind_Next_iff. eexists _, db. split.
    { apply (resolved_step _ ThemeCamp_objects_get_pk
               (λ key, "No such camp: " +:+ key)
               (λ camp o, set_pe_hosted_by_camp (tc_id camp) o)).
      split; [done|]. by exists camp. }
    apply bind_Next_iff. eexists _, db. split.
    { apply (resolved_step _ ArtInstallation_objects_get_pk
               (λ key, "No such art: " +:+ key)
               (λ art o, set_pe_located_at_art (Some (art_id art)) o)).
      split; [done|]. by exists art. }
    apply bind_Next_iff. exists saved, db'. split; [|done].
    unfold PlayaEvent_assign in Hsave. by destruct year, camp, art.
Qed.

Lemma ThemeCamp_target_step year_year camp_id d0 db od db' :
  match truthy camp_id with
  | Some cid =>
      (obj <- get_or_return (ThemeCamp_objects_get_pk cid)
                (rc_response NOT_HERE ("ThemeCamp not found #" +:+ cid)) ;;
       pure (obj, delete "year" (with_path_year year_year d0)))%handler
  | None => pure (ThemeCamp_new, with_path_year year_year d0)
  end db = (Next od, db')
  ↔ db' = db
    ∧ ThemeCamp_target camp_id db od.1
    ∧ od.2 = match truthy camp_id with
             | Some _ => delete "year" (with_path_year year_year d0)
             | None => with_path_year year_year d0
             end.
Proof.
  unfold ThemeCamp_target.
  destruct (truthy camp_id) as [cid|].
  - cbv [bind get_or_return query pure return_ raise].
    destruct (ThemeCamp_objects_get_pk cid db) as [a| |e]; split;
      try (intros; simplify_eq; fail).
    + intros; by simplify_eq.
    + intros (-> & ? & ?). destruct od; cbn [fst snd] in *. by simplify_eq.
    + by intros (-> & ? & ?).
    + by intros (-> & ? & ?).
  - unfold pure. split.
    + intros; by simplify_eq.
    + intros (-> & ? & ?). destruct od; cbn [fst snd] in *. by simplify_eq.
Qed.

(** The same for the ThemeCamp handler. The time street the field map names
    has to exist, although nothing of it is stored. *)
Lemma ThemeCamp_create_or_update_steps request year_year camp_id db r db' :
  ThemeCampHandler__create_or_update request year_year camp_id db
    = (Next r, db')
  ↔ ∃ d0 obj0 year street time_street saved,
      api_allowed (req_user request) = true
      ∧ payload request = Some d0
      ∧ with_path_year year_year d0 ≠ ∅
      ∧ ThemeCamp_target camp_id db obj0
      ∧ let data := fields_read camp_illegal_keys year_year camp_id d0 in
        resolved (data !! "year") Year_objects_get db year
        ∧ resolved (data !! "circular_street") CircularStreet_objects_get_pk
            db street
        ∧ resolved (data !! "time_street") TimeStreet_objects_get_pk
            db time_street
        ∧ ThemeCamp_save (ThemeCamp_assign data year street obj0) db
          = (Next saved, db')
        ∧ r = saved_response (req_method request) (tc_id saved).
Proof.
  unfold ThemeCampHandler__create_or_update. cbv zeta. split.
  - intros H.
    apply bind_Next_iff in H
      as (data & db1 & (-> & Ha & Hne & d0 & Hp & ->)%request_data_Next_iff & H).
    apply bind_Next_iff in H as (od & db2 & Hod & H).
    apply ThemeCamp_target_step in Hod as (-> & Ht & Hdata).
    rewrite Hdata in H.
    apply bind_Next_iff in H
      as (o1 & db3 & (-> & year & Hyear & ->)%resolve_year_step & H).
    apply bind_Next_iff in H as (o2 & db4 & Hc & H).
    apply (resolved_step _ CircularStreet_objects_get_pk
             (λ key, "No such CircularStreet: " +:+ key)
             (λ street o, set_tc_circular_street (Some (cs_id street)) o))
      in Hc as (-> & street & Hstreet & ->).
    apply bind_Next_iff in H as (o3 & db5 & Hts & H).
    apply (resolved_step _ TimeStreet_objects_get_pk
             (λ key, "No such TimeStreet: " +:+ key)
             (λ _ o, o))
      in Hts as (-> & ts & Hts & ->).
    apply bind_Next_iff in H as (saved & db6 & Hsave & H).
    unfold pure in H. simplify_eq.
    exists d0, od.1, year, street, ts, saved. split_and!; try done.
    unfold ThemeCamp_assign. by destruct year, street, ts.
  - intros (d0 & obj0 & year & street & ts & saved & Ha & Hp & Hne & Ht
            & Hyear & Hstreet & Hts & Hsave & ->).
    apply bind_Next_iff. exists (with_path_year year_year d0), db.
    split; [by apply request_data_ok|].
    apply bind_Next_iff.
    exists (obj0, match truthy camp_id with
                  | Some _ => delete "year" (with_path_year year_year d0)
                  | None => with_path_year year_year d0
                  end), db.
    split; [by apply ThemeCamp_target_step|]. cbn [fst snd].
    change (strip_keys camp_illegal_keys _)
      with (fields_read camp_illegal_keys year_year camp_id d0).
    apply bind_Next_iff. eexists _, db.
    split; [apply resolve_year_step; split; [done|]; by exists year|].
    apply bind_Next_iff. eexists _, db. split.
    { apply (resolved_step _ CircularStreet_objects_get_pk
               (λ key, "No such CircularStreet: " +:+ key)
               (λ street o, set_tc_circular_street (Some (cs_id street)) o)).
      split; [done|]. by exists street. }
    apply bind_Next_iff. eexists _, db. split.
    { apply (resolved_step _ TimeStreet_objects_get_pk
               (λ key, "No such TimeStreet: " +:+ key)
               (λ _ o, o)).
      split; [done|]. by exists ts. }
    apply bind_Next_iff. exists saved, db'. split; [|done].
    unfold ThemeCamp_assign in Hsave. by destruct year, street, ts.
Qed.

(** *** Requests that are turned away *)

(** X6. A user whose profile does not allow the API is turned away by every
    writing handler with the same BAD_REQUEST response, before anything is
    looked up, whatever the verb, the path and the field map; the database
    is as before. *)
Theorem writes_need_permission request year_year entity_id db :
  api_allowed (req_user request) = false →
  let denied : Step HttpResponse * DB :=
    (Return (rc_response BAD_REQUEST "User not permitted to use the API"), db)
  in
  PlayaEventHandler__create_or_update request year_year entity_id db = denied
  ∧ PlayaEventHandler_delete request year_year entity_id db = denied
  ∧ ThemeCampHandler__create_or_update request year_year entity_id db = denied
  ∧ ThemeCampHandler_delete request year_year entity_id db = denied.
Proof.
  intros Hno. cbv zeta.
  unfold PlayaEventHandler__create_or_update, PlayaEventHandler_delete,
    ThemeCampHandler__create_or_update, ThemeCampHandler_delete.
  cbv zeta.
  assert (request_data request year_year db
          = (Return (rc_response BAD_REQUEST
                       "User not permitted to use the API"), db)) as Hdata
    by (by rewrite request_data_unfold, Hno).
  rewrite !(bind_Return _ _ _ _ _ Hdata), Hno. done.
Qed.

(** X7. A create/update by an allowed user is answered BAD_REQUEST, on an
    untouched database, when the verb is neither PUT nor POST (the message
    names the verb), and when the field map is empty and the path gives no
    year ("Missing critical information"). *)
Theorem create_or_update_rejects_malformed request year_year entity_id db :
  api_allowed (req_user request) = true →
  (req_method request ≠ "PUT" → req_method request ≠ "POST" →
   let bad : Step HttpResponse * DB :=
     (Return (rc_response BAD_REQUEST
                ("Bad request method: " +:+ req_method request)), db) in
   PlayaEventHandler__create_or_update request year_year entity_id db = bad
   ∧ ThemeCampHandler__create_or_update request year_year entity_id db = bad)
  ∧ (payload request = Some ∅ → truthy year_year = None →
     let missing : Step HttpResponse * DB :=
       (Return (rc_response BAD_REQUEST "Missing critical information"), db) in
     PlayaEventHandler__create_or_update request year_year entity_id db
     = missing
     ∧ ThemeCampHandler__create_or_update request year_year entity_id db
       = missing).
Proof.
  intros Hok. split.
  - intros Hput Hpost. cbv zeta.
    assert (request_data request year_year db
            = (Return (rc_response BAD_REQUEST
                         ("Bad request method: " +:+ req_method request)), db))
      as Hdata.
    { rewrite request_data_unfold, Hok. unfold payload.
      by rewrite !decide_False by done. }
    unfold PlayaEventHandler__create_or_update,
      ThemeCampHandler__create_or_update. cbv zeta.
    by rewrite !(bind_Return _ _ _ _ _ Hdata).
  - intros Hp Hy. cbv zeta.
    assert (request_data request year_year db
            = (Return (rc_response BAD_REQUEST "Missing critical information"),
               db)) as Hdata.
    { rewrite request_data_unfold, Hok, Hp. unfold with_path_year.
      rewrite Hy. unfold dict_truthy. by rewrite bool_decide_false by auto. }
    unfold PlayaEventHandler__create_or_update,
      ThemeCampHandler__create_or_update. cbv zeta.
    by rewrite !(bind_Return _ _ _ _ _ Hdata).
Qed.

(** X8. A delete by an allowed user that has no target: without an id (absent or
    empty) the answer is NOT_HERE "... ID required"; with an id that no row
    carries (for camps: no listed row) the answer is NOT_HERE naming the id;
    an id that is no integer is not caught and the exception of the lookup
    escapes. In all three cases the database is as before. *)
Theorem delete_without_target request year_year entity_id db :
  api_allowed (req_user request) = true →
  (truthy entity_id = None →
   PlayaEventHandler_delete request year_year entity_id db
   = (Return (rc_response NOT_HERE "Event ID required"), db)
   ∧ ThemeCampHandler_delete request year_year entity_id db
     = (Return (rc_response NOT_HERE "Camp ID required"), db))
  ∧ (∀ key k, truthy entity_id = Some key → to_int key = Some k →
       ((∀ e, e ∈ playa_events db → pe_id e ≠ Some k) →
        PlayaEventHandler_delete request year_year entity_id db
        = (Return (rc_response NOT_HERE ("Event not found #" +:+ key)), db))
       ∧ ((∀ c, c ∈ theme_camps db → tc_list_online c = Some true →
                tc_id c ≠ Some k) →
          ThemeCampHandler_delete request year_year entity_id db
          = (Return (rc_response NOT_HERE ("Camp not found #" +:+ key)), db)))
  ∧ (∀ key, truthy entity_id = Some key → to_int key = None →
       PlayaEventHandler_delete request year_year entity_id db
       = (Throw ValueError, db)
       ∧ ThemeCampHandler_delete request year_year entity_id db
         = (Throw ValueError, db)).
Proof.
  intros Hok. unfold PlayaEventHandler_delete, ThemeCampHandler_delete.
  cbv zeta. rewrite Hok. cbn [negb]. split; [|split].
  - intros H; by rewrite H.
  - intros key k H Hk; rewrite H. split.
    + intros Hnone. erewrite bind_Return; [done|].
      apply get_or_return_DoesNotExist.
      unfold PlayaEvent_objects_get_pk, get_pk. rewrite Hk.
      destruct (filter_events _ _) as [|e l] eqn:Hf; [done|].
      exfalso. assert (e ∈ filter_events [pe_id_is k] (PlayaEvent_objects db))
        as He by (rewrite Hf; left).
      apply elem_of_filter_events_id in He as [He Hid]. by eapply Hnone.
    + intros Hnone. erewrite bind_Return; [done|].
      apply get_or_return_DoesNotExist.
      unfold ThemeCamp_objects_get_pk, get_pk. rewrite Hk.
      destruct (filter_camps _ _) as [|c l] eqn:Hf; [done|].
      exfalso. assert (c ∈ filter_camps [tc_id_is k] (ThemeCamp_objects db))
        as Hc by (rewrite Hf; left).
      apply elem_of_filter_camps_id in Hc as [Hc Hid].
      unfold ThemeCamp_objects, ThemeCampManager_get_query_set in Hc.
      apply elem_of_filter_camps_list_online in Hc as [Hc Hlo].
      by eapply Hnone.
  - intros key H Hk; rewrite H. split.
    + unfold bind, get_or_return, query, PlayaEvent_objects_get_pk, get_pk.
      by rewrite Hk.
    + unfold bind, get_or_return, query, ThemeCamp_objects_get_pk, get_pk.
      by rewrite Hk.
Qed.

(** *** Deleting *)

Lemma PlayaEvent_save_update obj k db :
  is_Some (pe_year obj) → pe_id obj = Some k →
  (∃ r, r ∈ playa_events db ∧ pe_id r = Some k) →
  PlayaEvent_save obj db
  = (Next obj,
     set_playa_events
       ((λ r, if decide (pe_id r = Some k) then obj else r) <$> playa_events db)
       db).
Proof.
  intros [y Hy] Hk Hex. unfold PlayaEvent_save. rewrite Hy, Hk.
  rewrite bool_decide_true; [done|]. by apply Exists_exists.
Qed.

Lemma ThemeCamp_save_update obj k db :
  is_Some (tc_year obj) → tc_id obj = Some k →
  (∃ r, r ∈ theme_camps db ∧ tc_id r = Some k) →
  ThemeCamp_save obj db
  = (Next obj,
     set_theme_camps
       ((λ r, if decide (tc_id r = Some k) then obj else r) <$> theme_camps db)
       db).
Proof.
  intros [y Hy] Hk Hex. unfold ThemeCamp_save. rewrite Hy, Hk.
  rewrite bool_decide_true; [done|]. by apply Exists_exists.
Qed.

(** Replacing the rows with the key of [obj] is replacing [obj], when no
    other row has its key. *)
Lemma fmap_replace_by_key {A} `{EqDecision A} (key : A → option Z)
    (l : list A) k (obj new : A) :
  key obj = Some k →
  (∀ r, r ∈ l → key r = Some k → r = obj) →
  (λ r, if decide (key r = Some k) then new else r) <$> l
  = (λ r, if decide (r = obj) then new else r) <$> l.
Proof.
  intros Hk Huniq. apply Forall_fmap_ext, Forall_forall. intros r Hr.
  destruct (decide (key r = Some k)) as [Hrk|Hrk].
  - by rewrite (Huniq r Hr Hrk), decide_True.
  - rewrite decide_False; [done|]. by intros ->.
Qed.

(** The rows with key [k] after the row [obj], the only one with that key,
    has been replaced by [new], which has the same key. *)
Lemma filter_key_replace {A} `{EqDecision A} (key : A → option Z)
    (l : list A) k (obj new : A) :
  key obj = Some k → key new = Some k →
  filter (λ r, key r = Some k) l = [obj] →
  filter (λ r, key r = Some k)
    ((λ r, if decide (r = obj) then new else r) <$> l) = [new].
Proof.
  intros Hk Hnew Hf.
  assert (filter (λ r, key r = Some k)
            ((λ r, if decide (r = obj) then new else r) <$> l)
          = (λ r, if decide (r = obj) then new else r)
              <$> filter (λ r, key r = Some k) l) as ->.
  { clear Hf. induction l as [|a l IH]; [done|].
    rewrite fmap_cons.
    assert (key (if decide (a = obj) then new else a) = Some k
            ↔ key a = Some k) as Hiff
      by (case_decide; [by subst|done]).
    destruct (decide (key a = Some k)) as [Ha|Ha].
    - rewrite filter_cons_True by (by apply Hiff).
      rewrite (filter_cons_True _ a l) by done.
      by rewrite fmap_cons, IH.
    - rewrite filter_cons_False by (by rewrite Hiff).
      by rewrite (filter_cons_False _ a l) by done. }
  rewrite Hf. simpl. by rewrite decide_True.
Qed.

Lemma filter_events_id k qs :
  filter_events [pe_id_is k] qs = filter (λ e, pe_id e = Some k) qs.
Proof.
  unfold filter_events. apply list_filter_iff. intros e. simpl.
  rewrite andb_true_r. by rewrite bool_decide_spec.
Qed.

Lemma filter_camps_id k qs :
  filter_camps [tc_id_is k] qs = filter (λ c, tc_id c = Some k) qs.
Proof.
  unfold filter_camps. apply list_filter_iff. intros e. simpl.
  rewrite andb_true_r. by rewrite bool_decide_spec.
Qed.

(** X9. Deleting an event is rejecting it in place: the row the id names stays
    in the table with its moderation set to 'R', no other row and no other
    column changes, and the answer is DELETED. Deleting it again gives the
    same answer and changes nothing. *)
Theorem event_delete_rejects_in_place request year_year entity_id db key obj :
  api_allowed (req_user request) = true →
  truthy entity_id = Some key →
  PlayaEvent_objects_get_pk key db = Found obj →
  is_Some (pe_year obj) →
  let db' :=
    set_playa_events
      ((λ r, if decide (r = obj) then set_pe_moderation "R" r else r)
         <$> playa_events db) db in
  let resp := rc_response DELETED ("Event rejected #" +:+ key) in
  PlayaEventHandler_delete request year_year entity_id db = (Next resp, db')
  ∧ PlayaEventHandler_delete request year_year entity_id db' = (Next resp, db').
Proof.
  intros Hok Hid Hget Hyear. cbv zeta.
  pose proof Hget as (k & Hk & Hsel)%get_pk_Found.
  apply PlayaEvent_get_pk_Found in Hget as Hfound.
  destruct Hfound as (k' & Hk' & Hobjk & Hin & Huniq). simplify_eq.
  unfold PlayaEvent_objects in Hsel. rewrite filter_events_id in Hsel.
  set (new := set_pe_moderation "R" obj).
  assert (pe_id new = Some k) as Hnewk by (by destruct obj).
  assert (is_Some (pe_year new)) as Hnewy by (by destruct obj).
  assert (set_pe_moderation "R" new = new) as Hnew2 by (by destruct obj).
  assert ((λ r, if decide (r = obj) then set_pe_moderation "R" r else r)
          <$> playa_events db
          = (λ r, if decide (r = obj) then new else r) <$> playa_events db)
    as Hmap.
  { apply Forall_fmap_ext, Forall_forall. intros r _.
    by case_decide; subst. }
  rewrite Hmap.
  set (db' := set_playa_events _ db).
  assert (playa_events db'
          = (λ r, if decide (r = obj) then new else r) <$> playa_events db)
    as Hrows by apply tables_set_playa_events.
  assert (PlayaEventHandler_delete request year_year entity_id db
          = (Next (rc_response DELETED ("Event rejected #" +:+ key)), db'))
    as Hrun.
  { unfold PlayaEventHandler_delete. cbv zeta. rewrite Hok, Hid. cbn [negb].
    erewrite bind_Next by (by apply get_or_return_Found).
    erewrite bind_Next; [done|]. fold new.
    rewrite (PlayaEvent_save_update new k) by eauto.
    by rewrite (fmap_replace_by_key pe_id _ k obj new). }
  split; [done|].
  assert (PlayaEvent_objects_get_pk key db' = Found new) as Hget2.
  { apply get_pk_Found. exists k. split; [done|].
    unfold PlayaEvent_objects. rewrite filter_events_id, Hrows.
    by apply filter_key_replace. }
  unfold PlayaEventHandler_delete. cbv zeta. rewrite Hok, Hid. cbn [negb].
  erewrite bind_Next by (by apply get_or_return_Found).
  erewrite bind_Next; [done|]. rewrite Hnew2.
  rewrite (PlayaEvent_save_update new k); [|done..|].
  - f_equal. rewrite Hrows. unfold db'.
    rewrite <- (set_playa_events_id (set_playa_events _ db)) at 2.
    destruct db. cbn. f_equal.
    rewrite <- list_fmap_compose. apply Forall_fmap_ext, Forall_forall.
    intros r Hr. cbn. destruct (decide (r = obj)) as [->|Hne].
    + by rewrite decide_True.
    + rewrite decide_False; [done|]. intros Hrk. apply Hne. by apply Huniq.
  - exists new. split; [|done]. rewrite Hrows.
    apply list_elem_of_fmap. exists obj. by rewrite decide_True.
Qed.

Lemma filter_key_none {A} (key : A → option Z) (l : list A) k :
  (∀ r, r ∈ l → key r ≠ Some k) → filter (λ r, key r = Some k) l = [].
Proof.
  induction l as [|a l IH]; intros Hno; [done|].
  rewrite filter_cons_False by (apply Hno; left).
  apply IH. intros r Hr. apply Hno. by right.
Qed.

(** With unique keys, the rows with the key of a row are that row. *)
Lemma filter_key_NoDup {A} (key : A → option Z) (l : list A) k obj :
  NoDup (key <$> l) → obj ∈ l → key obj = Some k →
  filter (λ r, key r = Some k) l = [obj].
Proof.
  induction l as [|a l IH]; intros Hnd Hin Hk.
  - by apply elem_of_nil in Hin.
  - rewrite fmap_cons in Hnd. apply NoDup_cons in Hnd as [Hnotin Hnd].
    assert (∀ r, r ∈ l → key r ≠ key a) as Hother.
    { intros r Hr Heq. apply Hnotin. rewrite <- Heq.
      by apply list_elem_of_fmap_2. }
    apply elem_of_cons in Hin as [->|Hin].
    + rewrite filter_cons_True by done. f_equal.
      apply filter_key_none. intros r Hr. rewrite <- Hk. by apply Hother.
    + rewrite filter_cons_False; [by apply IH|].
      rewrite <- Hk. intros Heq. by apply (Hother obj Hin).
Qed.

Lemma filter_camps_list_online b qs :
  filter_camps [tc_list_online_is b] qs
  = filter (λ c, tc_list_online c = Some b) qs.
Proof.
  unfold filter_camps. apply list_filter_iff. intros e. simpl.
  rewrite andb_true_r. by rewrite bool_decide_spec.
Qed.

(** X10. Deleting a camp marks it in place: the row the id names stays in the
    table with [deleted] set, no other row and no other column changes, and
    the answer is DELETED. The camp is still found afterwards: deleting it
    again gives the same answer and changes nothing. *)
Theorem camp_delete_marks_in_place request year_year entity_id db key obj :
  api_allowed (req_user request) = true →
  truthy entity_id = Some key →
  NoDup (tc_id <$> theme_camps db) →
  ThemeCamp_objects_get_pk key db = Found obj →
  is_Some (tc_year obj) →
  let db' :=
    set_theme_camps
      ((λ r, if decide (r = obj) then set_tc_deleted (Some true) r else r)
         <$> theme_camps db) db in
  let resp := rc_response DELETED ("Camp deleted #" +:+ key) in
  ThemeCampHandler_delete request year_year entity_id db = (Next resp, db')
  ∧ ThemeCampHandler_delete request year_year entity_id db' = (Next resp, db').
Proof using to_int.
  intros Hok Hid Hnd Hget Hyear. cbv zeta.
  apply ThemeCamp_get_pk_Found in Hget as Hfound.
  destruct Hfound as (k & Hk & Hobjk & Hin & Hlisted & _).
  assert (∀ r, r ∈ theme_camps db → tc_id r = Some k → r = obj) as Huniq.
  { intros r Hr Hrk. apply (NoDup_fmap_elem_inj tc_id (theme_camps db));
      [done..|congruence]. }
  set (new := set_tc_deleted (Some true) obj).
  assert (tc_id new = Some k) as Hnewk by (by destruct obj).
  assert (is_Some (tc_year new)) as Hnewy by (by destruct obj).
  assert (tc_list_online new = Some true) as Hnewl by (by destruct obj).
  assert (set_tc_deleted (Some true) new = new) as Hnew2 by (by destruct obj).
  assert ((λ r, if decide (r = obj) then set_tc_deleted (Some true) r else r)
          <$> theme_camps db
          = (λ r, if decide (r = obj) then new else r) <$> theme_camps db)
    as Hmap.
  { apply Forall_fmap_ext, Forall_forall. intros r _.
    by case_decide; subst. }
  rewrite Hmap.
  set (db' := set_theme_camps _ db).
  assert (theme_camps db'
          = (λ r, if decide (r = obj) then new else r) <$> theme_camps db)
    as Hrows by apply tables_set_theme_camps.
  assert (ThemeCampHandler_delete request year_year entity_id db
          = (Next (rc_response DELETED ("Camp deleted #" +:+ key)), db'))
    as Hrun.
  { unfold ThemeCampHandler_delete. cbv zeta. rewrite Hok, Hid. cbn [negb].
    erewrite bind_Next by (by apply get_or_return_Found).
    erewrite bind_Next; [done|]. fold new.
    rewrite (ThemeCamp_save_update new k) by eauto.
    by rewrite (fmap_replace_by_key tc_id _ k obj new). }
  split; [done|].
  assert (filter (λ r, tc_id r = Some k) (theme_camps db') = [new]) as Hsel.
  { rewrite Hrows. apply filter_key_replace; [done..|].
    by apply filter_key_NoDup. }
  assert (ThemeCamp_objects_get_pk key db' = Found new) as Hget2.
  { apply get_pk_Found. exists k. split; [done|].
    unfold ThemeCamp_objects, ThemeCampManager_get_query_set.
    rewrite filter_camps_id, filter_camps_list_online, list_filter_filter.
    rewrite (list_filter_iff _ (λ c, tc_list_online c = Some true
                                     ∧ tc_id c = Some k)) by (intros; split; intros [? ?]; done).
    rewrite <- list_filter_filter, Hsel. by rewrite filter_cons_True. }
  unfold ThemeCampHandler_delete. cbv zeta. rewrite Hok, Hid. cbn [negb].
  erewrite bind_Next by (by apply get_or_return_Found).
  erewrite bind_Next; [done|]. rewrite Hnew2.
  rewrite (ThemeCamp_save_update new k); [|done..|].
  - f_equal. rewrite Hrows. unfold db'.
    rewrite <- (set_theme_camps_id (set_theme_camps _ db)) at 2.
    destruct db. cbn. f_equal.
    rewrite <- list_fmap_compose. apply Forall_fmap_ext, Forall_forall.
    intros r Hr. cbn. destruct (decide (r = obj)) as [->|Hne].
    + by rewrite decide_True.
    + rewrite decide_False; [done|]. intros Hrk. apply Hne. by apply Huniq.
  - exists new. split; [|done]. rewrite Hrows.
    apply list_elem_of_fmap. exists obj. by rewrite decide_True.
Qed.

(** *** What the assignments write *)

Lemma PlayaEvent_copy_texts key (data : gmap string string) obj :
  key ∈ event_text_keys →
  PlayaEvent_getattr key
    (copy_fields PlayaEvent_setattr id event_text_keys data obj)
  = match data !! key with
    | Some val => Some val
    | None => PlayaEvent_getattr key obj
    end.
Proof.
  unfold event_text_keys, copy_fields. intros Hkey. simpl.
  destruct obj.
  destruct (data !! "print_description") eqn:E1, (data !! "url") eqn:E2,
    (data !! "contact_email") eqn:E3, (data !! "other_location") eqn:E4,
    (data !! "slug") eqn:E5;
    set_unfold; destruct Hkey as [->|[->|[->|[->|[->|[]]]]]];
    rewrite ?E1, ?E2, ?E3, ?E4, ?E5; reflexivity.
Qed.

Lemma ThemeCamp_copy_texts key (data : gmap string string) obj :
  key ∈ camp_text_keys →
  ThemeCamp_getattr key
    (copy_fields ThemeCamp_setattr id camp_text_keys data obj)
  = match data !! key with
    | Some val => Some val
    | None => ThemeCamp_getattr key obj
    end.
Proof.
  unfold camp_text_keys, copy_fields. intros Hkey. simpl.
  destruct obj.
  destruct (data !! "name") eqn:E1, (data !! "description") eqn:E2,
    (data !! "url") eqn:E3, (data !! "hometown") eqn:E4,
    (data !! "location_string") eqn:E5, (data !! "slug") eqn:E6;
    set_unfold; destruct Hkey as [->|[->|[->|[->|[->|[->|[]]]]]]];
    rewrite ?E1, ?E2, ?E3, ?E4, ?E5, ?E6; reflexivity.
Qed.

(** [p (copy_fields ...) = p obj] for a projection [p] that no [setattr] of
    the loop touches. *)
Ltac strip_copies :=
  repeat match goal with
    | |- context [?p (copy_fields ?s ?f ?keys ?data ?e)] =>
        rewrite (copy_fields_proj p s f keys data e)
          by (intros ? ? [];
              unfold PlayaEvent_setattr, PlayaEvent_setattr_bool,
                PlayaEvent_getattr, PlayaEvent_getattr_bool,
                ThemeCamp_setattr, ThemeCamp_setattr_bool,
                ThemeCamp_getattr, ThemeCamp_getattr_bool;
              repeat case_decide; reflexivity)
    end.

(** Through the assignments of the Event handler. *)
Ltac through_PlayaEvent_assign :=
  unfold PlayaEvent_assign; cbv zeta;
  repeat first
    [ progress strip_copies
    | progress strip_setters
    | match goal with
      | |- context [match ?x with Some _ => _ | None => _ end] =>
          is_var x; destruct x
      | |- context [match ?d !! "moderation" with Some _ => _ | None => _ end] =>
          destruct (d !! "moderation")
      | |- context [bool_decide (upper ?v ∈ ?l)] =>
          destruct (bool_decide (upper v ∈ l))
      end ].

Lemma PlayaEvent_assign_kept data year camp art obj :
  let obj' := PlayaEvent_assign data year camp art obj in
  pe_id obj' = pe_id obj
  ∧ pe_event_type obj' = pe_event_type obj
  ∧ pe_creator obj' = pe_creator obj
  ∧ PlayaEvent_unwritten obj' = PlayaEvent_unwritten obj.
Proof.
  cbv zeta. unfold PlayaEvent_unwritten.
  split_and!; [| | |f_equal; [f_equal; [f_equal; [f_equal|]|]|]];
    by through_PlayaEvent_assign.
Qed.

Lemma PlayaEvent_assign_written data year camp art obj :
  let obj' := PlayaEvent_assign data year camp art obj in
  pe_year obj' = match year with
                 | Some y => Some (y_id y)
                 | None => pe_year obj
                 end
  ∧ pe_moderation obj' = moderation_of data (pe_moderation obj)
  ∧ pe_hosted_by_camp obj' = match camp with
                             | Some c => tc_id c
                             | None => pe_hosted_by_camp obj
                             end
  ∧ pe_located_at_art obj' = match art with
                             | Some a => Some (art_id a)
                             | None => pe_located_at_art obj
                             end.
Proof.
  assert (∀ v e, pe_year (set_pe_year v e) = v) as Hy by (by intros ? []).
  assert (∀ v e, pe_moderation (set_pe_moderation v e) = v) as Hm
    by (by intros ? []).
  assert (∀ v e, pe_hosted_by_camp (set_pe_hosted_by_camp v e) = v) as Hc
    by (by intros ? []).
  assert (∀ v e, pe_located_at_art (set_pe_located_at_art v e) = v) as Ha
    by (by intros ? []).
  cbv zeta. unfold moderation_of, PlayaEvent_assign. cbv zeta.
  split_and!; strip_copies;
    destruct art, camp; rewrite ?Ha, ?Hc; strip_setters; rewrite ?Hc;
    try done;
    (destruct (data !! "moderation"); [try case_bool_decide|]);
    rewrite ?Hm; strip_setters; strip_copies; try done;
    destruct year; rewrite ?Hy; strip_setters; done.
Qed.

Lemma PlayaEvent_assign_texts data year camp art obj key :
  key ∈ event_text_keys →
  PlayaEvent_getattr key (PlayaEvent_assign data year camp art obj)
  = match data !! key with
    | Some val => Some val
    | None => PlayaEvent_getattr key obj
    end.
Proof.
  intros Hkey. unfold PlayaEvent_assign. cbv zeta.
  rewrite (copy_fields_proj (PlayaEvent_getattr key) PlayaEvent_setattr_bool)
    by (intros ? ? []; unfold PlayaEvent_setattr_bool, PlayaEvent_getattr;
        repeat case_decide; reflexivity).
  destruct art, camp; strip_setters;
    (destruct (data !! "moderation"); [try case_bool_decide|]);
    strip_setters; rewrite PlayaEvent_copy_texts by done;
    (destruct (data !! key); [done|]);
    destruct year; strip_setters; done.
Qed.

Lemma PlayaEvent_assign_bools data year camp art obj key :
  key ∈ event_bool_keys →
  PlayaEvent_getattr_bool key (PlayaEvent_assign data year camp art obj)
  = match data !! key with
    | Some val => Some (coerce_bool val)
    | None => PlayaEvent_getattr_bool key obj
    end.
Proof.
  intros Hkey. unfold PlayaEvent_assign. cbv zeta.
  rewrite PlayaEvent_copy_bools by done.
  destruct (data !! key); [done|].
  destruct art, camp; strip_setters;
    (destruct (data !! "moderation"); [try case_bool_decide|]);
    strip_setters; strip_copies;
    destruct year; strip_setters; done.
Qed.

Lemma ThemeCamp_assign_kept data year street obj :
  let obj' := ThemeCamp_assign data year street obj in
  tc_id obj' = tc_id obj
  ∧ ThemeCamp_unwritten obj' = ThemeCamp_unwritten obj.
Proof.
  cbv zeta. unfold ThemeCamp_unwritten, ThemeCamp_assign. cbv zeta.
  split_and!; [|f_equal; [f_equal|]];
    strip_copies; destruct street, year; strip_setters; done.
Qed.

Lemma ThemeCamp_assign_written data year street obj :
  let obj' := ThemeCamp_assign data year street obj in
  tc_year obj' = match year with
                 | Some y => Some (y_id y)
                 | None => tc_year obj
                 end
  ∧ tc_circular_street obj' = match street with
                              | Some s => Some (cs_id s)
                              | None => tc_circular_street obj
                              end.
Proof.
  cbv zeta. unfold ThemeCamp_assign. cbv zeta.
  split_and!; strip_copies; destruct street, year; by destruct obj.
Qed.

Lemma ThemeCamp_assign_texts data year street obj key :
  key ∈ camp_text_keys →
  ThemeCamp_getattr key (ThemeCamp_assign data year street obj)
  = match data !! key with
    | Some val => Some val
    | None => ThemeCamp_getattr key obj
    end.
Proof.
  intros Hkey. unfold ThemeCamp_assign. cbv zeta.
  rewrite (copy_fields_proj (ThemeCamp_getattr key) ThemeCamp_setattr_bool)
    by (intros ? ? []; unfold ThemeCamp_setattr_bool, ThemeCamp_getattr;
        repeat case_decide; reflexivity).
  rewrite ThemeCamp_copy_texts by done.
  destruct (data !! key); [done|].
  destruct street, year; strip_setters; done.
Qed.

Lemma ThemeCamp_assign_bools data year street obj key :
  key ∈ camp_bool_keys →
  ThemeCamp_getattr_bool key (ThemeCamp_assign data year street obj)
  = match data !! key with
    | Some val => Some (coerce_bool val)
    | None => ThemeCamp_getattr_bool key obj
    end.
Proof.
  intros Hkey. unfold ThemeCamp_assign. cbv zeta.
  rewrite ThemeCamp_copy_bools by done.
  destruct (data !! key); [done|].
  strip_copies. destruct street, year; strip_setters; done.
Qed.

(** What the assignments read of the field map, in terms of the map of the
    request. *)
Lemma lookup_fields_read keys year_year entity_id (d0 : gmap string string) k :
  k ≠ "year" → k ∉ keys →
  fields_read keys year_year entity_id d0 !! k = d0 !! k.
Proof.
  intros Hk Hin. unfold fields_read.
  destruct (lookup_processed keys year_year d0 k Hk Hin).
  by destruct (truthy entity_id).
Qed.

Lemma lookup_fields_read_year keys year_year entity_id
    (d0 : gmap string string) :
  "year" ∉ keys →
  fields_read keys year_year entity_id d0 !! "year"
  = match truthy entity_id with
    | Some _ => None
    | None => match d0 !! "year" with
              | Some label => Some label
              | None => truthy year_year
              end
    end.
Proof.
  intros Hin. unfold fields_read.
  destruct (truthy entity_id); [apply lookup_processed_year|].
  rewrite lookup_strip_keys, decide_False by done.
  unfold with_path_year. destruct (truthy year_year) as [yy|].
  - case_decide as Hy; [by rewrite lookup_insert_eq, Hy|].
    by destruct (d0 !! "year").
  - by destruct (d0 !! "year").
Qed.

(** *** The row a create/update stores *)

(** A run of the Event handler that saves: an update replaces the row with
    the key of its target by the target with the assignments applied; a
    create appends the new object, with the next key. *)
Lemma PlayaEvent_saved_row request year_year playa_event_id db r db' :
  PlayaEventHandler__create_or_update request year_year playa_event_id db
    = (Next r, db') →
  ∃ d0 obj0 year camp art saved,
    payload request = Some d0
    ∧ PlayaEvent_target request playa_event_id db d0 obj0
    ∧ let data := fields_read event_illegal_keys year_year playa_event_id d0 in
      resolved (data !! "year") Year_objects_get db year
      ∧ resolved (data !! "hosted_by_camp") ThemeCamp_objects_get_pk db camp
      ∧ resolved (data !! "located_at_art") ArtInstallation_objects_get_pk
          db art
      ∧ r = saved_response (req_method request) (pe_id saved)
      ∧ is_Some (pe_year saved)
      ∧ match truthy playa_event_id with
        | Some _ =>
            saved = PlayaEvent_assign data year camp art obj0
            ∧ obj0 ∈ playa_events db
            ∧ is_Some (pe_id obj0)
            ∧ db' = set_playa_events
                      ((λ r, if decide (pe_id r = pe_id obj0) then saved else r)
                         <$> playa_events db) db
        | None =>
            saved = set_pe_id (Some (next_pk (pe_id <$> playa_events db)))
                      (PlayaEvent_assign data year camp art obj0)
            ∧ db' = set_playa_events (playa_events db ++ [saved]) db
        end.
Proof.
  intros (d0 & obj0 & year & camp & art & saved & Ha & Hp & Hne & Ht
          & Hyear & Hcamp & Hart & Hsave & ->)%PlayaEvent_create_or_update_steps.
  exists d0, obj0, year, camp, art, saved.
  split; [done|]. split; [done|]. cbv zeta.
  split; [done|]. split; [done|]. split; [done|]. split; [done|].
  set (obj := PlayaEvent_assign _ year camp art obj0) in *.
  assert (pe_id obj = pe_id obj0) as Hid by apply PlayaEvent_assign_kept.
  unfold PlayaEvent_save in Hsave.
  destruct (pe_year obj) as [y|] eqn:Hy; [|done].
  unfold PlayaEvent_target in Ht.
  destruct (truthy playa_event_id) as [pid|].
  - apply PlayaEvent_get_pk_Found in Ht as (k & _ & Hk & Hin & _).
    rewrite Hid, Hk in Hsave.
    rewrite bool_decide_true in Hsave by (apply Exists_exists; eauto).
    simplify_eq. rewrite Hy, Hk. by split_and!.
  - destruct Ht as (t & _ & ->).
    assert (pe_id obj = None) as Hnone by (by rewrite Hid).
    rewrite Hnone in Hsave. simplify_eq. split; [|done].
    assert (∀ v e, pe_year (set_pe_id v e) = pe_year e) as -> by (by intros ? []).
    by rewrite Hy.
Qed.

(** The same for the ThemeCamp handler. *)
Lemma ThemeCamp_saved_row request year_year camp_id db r db' :
  ThemeCampHandler__create_or_update request year_year camp_id db
    = (Next r, db') →
  ∃ d0 obj0 year street time_street saved,
    payload request = Some d0
    ∧ ThemeCamp_target camp_id db obj0
    ∧ let data := fields_read camp_illegal_keys year_year camp_id d0 in
      resolved (data !! "year") Year_objects_get db year
      ∧ resolved (data !! "circular_street") CircularStreet_objects_get_pk
          db street
      ∧ resolved (data !! "time_street") TimeStreet_objects_get_pk
          db time_street
      ∧ r = saved_response (req_method request) (tc_id saved)
      ∧ is_Some (tc_year saved)
      ∧ match truthy camp_id with
        | Some _ =>
            saved = ThemeCamp_assign data year street obj0
            ∧ obj0 ∈ theme_camps db
            ∧ is_Some (tc_id obj0)
            ∧ db' = set_theme_camps
                      ((λ r, if decide (tc_id r = tc_id obj0) then saved else r)
                         <$> theme_camps db) db
        | None =>
            saved = set_tc_id (Some (next_pk (tc_id <$> theme_camps db)))
                      (ThemeCamp_assign data year street obj0)
            ∧ db' = set_theme_camps (theme_camps db ++ [saved]) db
        end.
Proof.
  intros (d0 & obj0 & year & street & ts & saved & Ha & Hp & Hne & Ht
          & Hyear & Hstreet & Hts & Hsave & ->)%ThemeCamp_create_or_update_steps.
  exists d0, obj0, year, street, ts, saved.
  split; [done|]. split; [done|]. cbv zeta.
  split; [done|]. split; [done|]. split; [done|]. split; [done|].
  set (obj := ThemeCamp_assign _ year street obj0) in *.
  assert (tc_id obj = tc_id obj0) as Hid by apply ThemeCamp_assign_kept.
  unfold ThemeCamp_save in Hsave.
  destruct (tc_year obj) as [y|] eqn:Hy; [|done].
  unfold ThemeCamp_target in Ht.
  destruct (truthy camp_id) as [cid|].
  - apply ThemeCamp_get_pk_Found in Ht as (k & _ & Hk & Hin & _).
    rewrite Hid, Hk in Hsave.
    rewrite bool_decide_true in Hsave by (apply Exists_exists; eauto).
    simplify_eq. rewrite Hy, Hk. by split_and!.
  - subst obj0.
    assert (tc_id obj = None) as Hnone by (by rewrite Hid).
    rewrite Hnone in Hsave. simplify_eq. split; [|done].
    assert (∀ v e, tc_year (set_tc_id v e) = tc_year e) as -> by (by intros ? []).
    by rewrite Hy.
Qed.

(** X11. The status of the answer reports the verb, not what was done: PUT is
    answered ALL_OK and POST is answered CREATED, whether a row was created
    or updated. What is done depends on the id alone: with an id the table
    keeps its length, without one it grows by one row. The body of the
    answer carries the key of a row of the table. *)
Theorem status_follows_verb request year_year entity_id db r db' :
  (PlayaEventHandler__create_or_update request year_year entity_id db
     = (Next r, db') →
   (req_method request = "PUT" ∧ status r = ALL_OK
    ∨ req_method request = "POST" ∧ status r = CREATED)
   ∧ List.length (playa_events db')
     = (List.length (playa_events db)
        + match truthy entity_id with Some _ => 0 | None => 1 end)%nat
   ∧ ∃ k e, content r = JsonPk (Some k)
            ∧ e ∈ playa_events db' ∧ pe_id e = Some k)
  ∧ (ThemeCampHandler__create_or_update request year_year entity_id db
       = (Next r, db') →
     (req_method request = "PUT" ∧ status r = ALL_OK
      ∨ req_method request = "POST" ∧ status r = CREATED)
     ∧ List.length (theme_camps db')
       = (List.length (theme_camps db)
          + match truthy entity_id with Some _ => 0 | None => 1 end)%nat
     ∧ ∃ k c, content r = JsonPk (Some k)
              ∧ c ∈ theme_camps db' ∧ tc_id c = Some k).
Proof.
  assert (∀ d0 pk, payload request = Some d0 →
            req_method request = "PUT"
            ∧ status (saved_response (req_method request) pk) = ALL_OK
            ∨ req_method request = "POST"
              ∧ status (saved_response (req_method request) pk) = CREATED)
    as Hverb.
  { intros d0 pk. unfold payload, saved_response. cbn [status].
    destruct (decide (req_method request = "PUT")); [by left|].
    destruct (decide (req_method request = "POST")); [by right|done]. }
  split.
  - intros (d0 & obj0 & year & camp & art & saved & Hp & Ht & _ & _ & _ & ->
            & _ & Hrow)%PlayaEvent_saved_row.
    split; [by eapply Hverb|].
    destruct (truthy entity_id) as [pid|].
    + destruct Hrow as (Hsaved & Hin & [k Hk] & ->).
      destruct (tables_set_playa_events
                  ((λ r, if decide (pe_id r = pe_id obj0) then saved else r)
                     <$> playa_events db) db) as [-> _].
      rewrite length_fmap. split; [lia|].
      assert (pe_id saved = Some k) as Hsk.
      { rewrite Hsaved, <- Hk. apply PlayaEvent_assign_kept. }
      exists k, saved. rewrite Hsk. split_and!; [done| |done].
      apply list_elem_of_fmap. exists obj0. by rewrite decide_True.
    + destruct Hrow as (Hsaved & ->).
      destruct (tables_set_playa_events (playa_events db ++ [saved]) db)
        as [-> _].
      rewrite length_app. split; [done|].
      exists (next_pk (pe_id <$> playa_events db)), saved.
      assert (pe_id saved = Some (next_pk (pe_id <$> playa_events db))) as ->
        by (rewrite Hsaved; apply pe_id_set_pe_id).
      split_and!; [done| |done].
      apply elem_of_app. right. by apply list_elem_of_singleton.
  - intros (d0 & obj0 & year & street & ts & saved & Hp & Ht & _ & _ & _ & ->
            & _ & Hrow)%ThemeCamp_saved_row.
    split; [by eapply Hverb|].
    destruct (truthy entity_id) as [cid|].
    + destruct Hrow as (Hsaved & Hin & [k Hk] & ->).
      destruct (tables_set_theme_camps
                  ((λ r, if decide (tc_id r = tc_id obj0) then saved else r)
                     <$> theme_camps db) db) as [-> _].
      rewrite length_fmap. split; [lia|].
      assert (tc_id saved = Some k) as Hsk.
      { rewrite Hsaved, <- Hk. apply ThemeCamp_assign_kept. }
      exists k, saved. rewrite Hsk. split_and!; [done| |done].
      apply list_elem_of_fmap. exists obj0. by rewrite decide_True.
    + destruct Hrow as (Hsaved & ->).
      destruct (tables_set_theme_camps (theme_camps db ++ [saved]) db)
        as [-> _].
      rewrite length_app. split; [done|].
      exists (next_pk (tc_id <$> theme_camps db)), saved.
      assert (tc_id saved = Some (next_pk (tc_id <$> theme_camps db))) as ->
        by (rewrite Hsaved; apply tc_id_set_tc_id).
      split_and!; [done| |done].
      apply elem_of_app. right. by apply list_elem_of_singleton.
Qed.

Lemma fields_read_moderation keys year_year entity_id d0 current :
  "moderation" ∉ keys →
  moderation_of (fields_read keys year_year entity_id d0) current
  = moderation_of d0 current.
Proof.
  intros Hin. unfold moderation_of. by rewrite lookup_fields_read.
Qed.

(** X12. A create appends one row and changes nothing else. The new row has a key
    greater than every key of the table, and the answer carries it. A new
    event has the requesting user as creator, the event type the field map
    names by its abbreviation (the type with key 1 when it names none), and
    the defaults in the columns the handler never writes; a new camp has the
    defaults in the columns its handler never writes: it is not deleted. *)
Theorem create_appends_fresh_row request year_year entity_id db r db' :
  truthy entity_id = None →
  (PlayaEventHandler__create_or_update request year_year entity_id db
     = (Next r, db') →
   ∃ d0 t saved k,
     payload request = Some d0
     ∧ db' = set_playa_events (playa_events db ++ [saved]) db
     ∧ pe_id saved = Some k ∧ content r = JsonPk (Some k)
     ∧ (∀ e j, e ∈ playa_events db → pe_id e = Some j → j < k)
     ∧ pe_creator saved = Some (user_id (req_user request))
     ∧ t ∈ event_types db ∧ pe_event_type saved = Some (et_id t)
     ∧ match d0 !! "event_type" with
       | Some abbr => et_abbr t = abbr
       | None => et_id t = 1
       end
     ∧ pe_moderation saved = moderation_of d0 "U"
     ∧ PlayaEvent_unwritten saved = PlayaEvent_unwritten PlayaEvent_new)
  ∧ (ThemeCampHandler__create_or_update request year_year entity_id db
       = (Next r, db') →
     ∃ saved k,
       db' = set_theme_camps (theme_camps db ++ [saved]) db
       ∧ tc_id saved = Some k ∧ content r = JsonPk (Some k)
       ∧ (∀ c j, c ∈ theme_camps db → tc_id c = Some j → j < k)
       ∧ ThemeCamp_unwritten saved = ThemeCamp_unwritten ThemeCamp_new
       ∧ tc_deleted saved = Some false).
Proof.
  intros Hid. split.
  - intros (d0 & obj0 & year & camp & art & saved & Hp & Ht & _ & _ & _ & ->
            & _ & Hrow)%PlayaEvent_saved_row.
    unfold PlayaEvent_target in Ht. rewrite Hid in Ht, Hrow.
    destruct Ht as (t & Ht & ->). destruct Hrow as [Hsaved ->].
    set (obj0 := set_pe_event_type _ _) in *.
    set (obj := PlayaEvent_assign _ year camp art obj0) in *.
    destruct (PlayaEvent_assign_kept
                (fields_read event_illegal_keys year_year entity_id d0)
                year camp art obj0) as (_ & Het & Hcr & Hun).
    destruct (PlayaEvent_assign_written
                (fields_read event_illegal_keys year_year entity_id d0)
                year camp art obj0) as (_ & Hmod & _).
    fold obj in Het, Hcr, Hun, Hmod.
    rewrite fields_read_moderation in Hmod by compute_done.
    exists d0, t, saved, (next_pk (pe_id <$> playa_events db)).
    assert (t ∈ event_types db
            ∧ match d0 !! "event_type" with
              | Some abbr => et_abbr t = abbr
              | None => et_id t = 1
              end) as [Hin Htype].
    { destruct (d0 !! "event_type") as [abbr|];
        apply get_Found in Ht;
        assert (t ∈ [t]) as Hel by left; rewrite <- Ht in Hel;
        by apply list_elem_of_filter in Hel as [? ?]. }
    subst saved. rewrite pe_id_set_pe_id. unfold PlayaEvent_unwritten in *.
    strip_setters. split_and!; try done.
    intros e j He Hj. apply next_pk_fresh. rewrite <- Hj.
    by apply list_elem_of_fmap_2.
  - intros (d0 & obj0 & year & street & ts & saved & Hp & Ht & _ & _ & _ & ->
            & _ & Hrow)%ThemeCamp_saved_row.
    unfold ThemeCamp_target in Ht. rewrite Hid in Ht, Hrow.
    subst obj0. destruct Hrow as [Hsaved ->].
    set (obj := ThemeCamp_assign _ year street ThemeCamp_new) in *.
    destruct (ThemeCamp_assign_kept
                (fields_read camp_illegal_keys year_year entity_id d0)
                year street ThemeCamp_new) as (_ & Hun).
    fold obj in Hun.
    exists saved, (next_pk (tc_id <$> theme_camps db)).
    assert (tc_deleted obj = Some false) as Hdel
      by (unfold ThemeCamp_unwritten in Hun; by simplify_eq).
    subst saved. rewrite tc_id_set_tc_id. unfold ThemeCamp_unwritten in *.
    strip_setters. split_and!; try done.
    intros c j Hc Hj. apply next_pk_fresh. rewrite <- Hj.
    by apply list_elem_of_fmap_2.
Qed.

(** X13. An update replaces its target and nothing else: every other row and
    every other table is as before. The stored row keeps the key of the
    target and the columns the handler never writes: an event keeps its
    year, event type, creator, title, description and password columns; a
    camp keeps its year, contact email, [bm_fm_id] and [deleted], so that no
    update brings a deleted camp back. *)
Theorem update_replaces_target_only request year_year entity_id db r db' key :
  truthy entity_id = Some key →
  (PlayaEventHandler__create_or_update request year_year entity_id db
     = (Next r, db') →
   ∃ obj0 saved,
     PlayaEvent_objects_get_pk key db = Found obj0
     ∧ db' = set_playa_events
               ((λ r, if decide (r = obj0) then saved else r)
                  <$> playa_events db) db
     ∧ content r = JsonPk (pe_id saved)
     ∧ pe_id saved = pe_id obj0
     ∧ pe_year saved = pe_year obj0
     ∧ pe_event_type saved = pe_event_type obj0
     ∧ pe_creator saved = pe_creator obj0
     ∧ PlayaEvent_unwritten saved = PlayaEvent_unwritten obj0)
  ∧ (ThemeCampHandler__create_or_update request year_year entity_id db
       = (Next r, db') →
     ∃ obj0 saved,
       ThemeCamp_objects_get_pk key db = Found obj0
       ∧ db' = set_theme_camps
                 ((λ r, if decide (tc_id r = tc_id obj0) then saved else r)
                    <$> theme_camps db) db
       ∧ content r = JsonPk (tc_id saved)
       ∧ tc_id saved = tc_id obj0
       ∧ tc_year saved = tc_year obj0
       ∧ ThemeCamp_unwritten saved = ThemeCamp_unwritten obj0).
Proof.
  intros Hid. split.
  - intros (d0 & obj0 & year & camp & art & saved & Hp & Ht & Hyear & _ & _
            & -> & _ & Hrow)%PlayaEvent_saved_row.
    unfold PlayaEvent_target in Ht. rewrite Hid in Ht, Hrow.
    rewrite lookup_fields_read_year, Hid in Hyear by compute_done.
    cbn in Hyear. subst year.
    destruct Hrow as (-> & Hin & [k Hk] & ->).
    destruct (PlayaEvent_assign_kept
                (fields_read event_illegal_keys year_year entity_id d0)
                None camp art obj0) as (Hsid & Het & Hcr & Hun).
    destruct (PlayaEvent_assign_written
                (fields_read event_illegal_keys year_year entity_id d0)
                None camp art obj0) as (Hy & _).
    exists obj0, (PlayaEvent_assign
                    (fields_read event_illegal_keys year_year entity_id d0)
                    None camp art obj0).
    split_and!; try done.
    f_equal. rewrite Hk. apply fmap_replace_by_key; [done|].
    apply PlayaEvent_get_pk_Found in Ht as (k' & _ & Hk' & _ & Huniq).
    intros r0 Hr0 Hr0k. apply Huniq; [done|congruence].
  - intros (d0 & obj0 & year & street & ts & saved & Hp & Ht & Hyear & _ & _
            & -> & _ & Hrow)%ThemeCamp_saved_row.
    unfold ThemeCamp_target in Ht. rewrite Hid in Ht, Hrow.
    rewrite lookup_fields_read_year, Hid in Hyear by compute_done.
    cbn in Hyear. subst year.
    destruct Hrow as (-> & Hin & [k Hk] & ->).
    destruct (ThemeCamp_assign_kept
                (fields_read camp_illegal_keys year_year entity_id d0)
                None street obj0) as (Hsid & Hun).
    destruct (ThemeCamp_assign_written
                (fields_read camp_illegal_keys year_year entity_id d0)
                None street obj0) as (Hy & _).
    exists obj0, (ThemeCamp_assign
                    (fields_read camp_illegal_keys year_year entity_id d0)
                    None street obj0).
    by split_and!.
Qed.

(** *** The fields of the map that reach the row *)

Lemma event_text_key_read key :
  key ∈ event_text_keys → key ≠ "year" ∧ key ∉ event_illegal_keys.
Proof.
  unfold event_text_keys, event_illegal_keys. set_unfold.
  intros [->|[->|[->|[->|[->|[]]]]]]; split; try done;
    intros [?|[?|[]]]; done.
Qed.

Lemma camp_text_key_read key :
  key ∈ camp_text_keys → key ≠ "year" ∧ key ∉ camp_illegal_keys.
Proof.
  unfold camp_text_keys, camp_illegal_keys. set_unfold.
  intros [->|[->|[->|[->|[->|[->|[]]]]]]]; split; try done;
    intros [?|[?|[?|[?|[]]]]]; done.
Qed.

(** X14. The row a successful create/update stores holds, in each of its text
    columns, the value of the field map as it was sent (not trimmed, not
    checked, the empty text included) when the map has the key, and what the
    target held (for a create: the default) when it has not. *)
Theorem text_fields_stored_verbatim request year_year entity_id db r db' :
  (PlayaEventHandler__create_or_update request year_year entity_id db
     = (Next r, db') →
   ∃ d0 obj0 saved,
     payload request = Some d0
     ∧ PlayaEvent_target request entity_id db d0 obj0
     ∧ content r = JsonPk (pe_id saved) ∧ saved ∈ playa_events db'
     ∧ ∀ key, key ∈ event_text_keys →
         PlayaEvent_getattr key saved
         = match d0 !! key with
           | Some val => Some val
           | None => PlayaEvent_getattr key obj0
           end)
  ∧ (ThemeCampHandler__create_or_update request year_year entity_id db
       = (Next r, db') →
     ∃ d0 obj0 saved,
       payload request = Some d0
       ∧ ThemeCamp_target entity_id db obj0
       ∧ content r = JsonPk (tc_id saved) ∧ saved ∈ theme_camps db'
       ∧ ∀ key, key ∈ camp_text_keys →
           ThemeCamp_getattr key saved
           = match d0 !! key with
             | Some val => Some val
             | None => ThemeCamp_getattr key obj0
             end).
Proof.
  split.
  - intros (d0 & obj0 & year & camp & art & saved & Hp & Ht & _ & _ & _
            & -> & _ & Hrow)%PlayaEvent_saved_row.
    exists d0, obj0, saved. split_and!; try done.
    + destruct (truthy entity_id).
      * destruct Hrow as (_ & Hin & _ & ->).
        destruct (tables_set_playa_events
                    ((λ r, if decide (pe_id r = pe_id obj0) then saved else r)
                       <$> playa_events db) db) as [-> _].
        apply list_elem_of_fmap. exists obj0. by rewrite decide_True.
      * destruct Hrow as (_ & ->).
        destruct (tables_set_playa_events (playa_events db ++ [saved]) db)
          as [-> _].
        apply elem_of_app. right. by apply list_elem_of_singleton.
    + intros key Hkey.
      destruct (event_text_key_read key Hkey) as [Hk1 Hk2].
      assert (PlayaEvent_getattr key saved
              = PlayaEvent_getattr key
                  (PlayaEvent_assign
                     (fields_read event_illegal_keys year_year entity_id d0)
                     year camp art obj0)) as ->.
      { destruct (truthy entity_id); destruct Hrow as (-> & _); [done|].
        unfold PlayaEvent_getattr. by strip_setters. }
      rewrite PlayaEvent_assign_texts by done.
      by rewrite lookup_fields_read.
  - intros (d0 & obj0 & year & street & ts & saved & Hp & Ht & _ & _ & _
            & -> & _ & Hrow)%ThemeCamp_saved_row.
    exists d0, obj0, saved. split_and!; try done.
    + destruct (truthy entity_id).
      * destruct Hrow as (_ & Hin & _ & ->).
        destruct (tables_set_theme_camps
                    ((λ r, if decide (tc_id r = tc_id obj0) then saved else r)
                       <$> theme_camps db) db) as [-> _].
        apply list_elem_of_fmap. exists obj0. by rewrite decide_True.
      * destruct Hrow as (_ & ->).
        destruct (tables_set_theme_camps (theme_camps db ++ [saved]) db)
          as [-> _].
        apply elem_of_app. right. by apply list_elem_of_singleton.
    + intros key Hkey.
      destruct (camp_text_key_read key Hkey) as [Hk1 Hk2].
      assert (ThemeCamp_getattr key saved
              = ThemeCamp_getattr key
                  (ThemeCamp_assign
                     (fields_read camp_illegal_keys year_year entity_id d0)
                     year street obj0)) as ->.
      { destruct (truthy entity_id); destruct Hrow as (-> & _); [done|].
        unfold ThemeCamp_getattr. by strip_setters. }
      rewrite ThemeCamp_assign_texts by done.
      by rewrite lookup_fields_read.
Qed.

Lemma filter_singleton_elem {A} (P : A → Prop) `{∀ x, Decision (P x)}
    (l : list A) a :
  filter P l = [a] → a ∈ l ∧ P a.
Proof.
  intros Hf. assert (a ∈ filter P l) as Hin by (rewrite Hf; left).
  apply list_elem_of_filter in Hin. tauto.
Qed.

(** X15. The rows a stored row points to exist. When the field map of a
    successful create/update names a camp, an art installation or a circular
    street, the key is an integer, a row with that key is in the table (for
    the camp: a listed one), and the stored row points to it; when the map
    does not name one, the reference is the one of the target. The time
    street a camp's map names has to exist as well, although the handler
    stores nothing of it. *)
Theorem stored_references_exist request year_year entity_id db r db' :
  (PlayaEventHandler__create_or_update request year_year entity_id db
     = (Next r, db') →
   ∃ d0 obj0 saved,
     payload request = Some d0
     ∧ PlayaEvent_target request entity_id db d0 obj0
     ∧ content r = JsonPk (pe_id saved)
     ∧ match d0 !! "hosted_by_camp" with
       | Some key =>
           ∃ k c, to_int key = Some k ∧ c ∈ theme_camps db
                  ∧ tc_id c = Some k ∧ tc_list_online c = Some true
                  ∧ pe_hosted_by_camp saved = Some k
       | None => pe_hosted_by_camp saved = pe_hosted_by_camp obj0
       end
     ∧ match d0 !! "located_at_art" with
       | Some key =>
           ∃ a, to_int key = Some (art_id a) ∧ a ∈ art_installations db
                ∧ pe_located_at_art saved = Some (art_id a)
       | None => pe_located_at_art saved = pe_located_at_art obj0
       end)
  ∧ (ThemeCampHandler__create_or_update request year_year entity_id db
       = (Next r, db') →
     ∃ d0 obj0 saved,
       payload request = Some d0
       ∧ ThemeCamp_target entity_id db obj0
       ∧ content r = JsonPk (tc_id saved)
       ∧ match d0 !! "circular_street" with
         | Some key =>
             ∃ s, to_int key = Some (cs_id s) ∧ s ∈ circular_streets db
                  ∧ tc_circular_street saved = Some (cs_id s)
         | None => tc_circular_street saved = tc_circular_street obj0
         end
       ∧ match d0 !! "time_street" with
         | Some key => ∃ s, to_int key = Some (ts_id s) ∧ s ∈ time_streets db
         | None => True
         end).
Proof.
  split.
  - intros (d0 & obj0 & year & camp & art & saved & Hp & Ht & _ & Hcamp & Hart
            & -> & _ & Hrow)%PlayaEvent_saved_row.
    exists d0, obj0, saved. split_and!; try done.
    + assert (pe_hosted_by_camp saved
              = match camp with
                | Some c => tc_id c
                | None => pe_hosted_by_camp obj0
                end) as ->.
      { destruct (PlayaEvent_assign_written
                    (fields_read event_illegal_keys year_year entity_id d0)
                    year camp art obj0) as (_ & _ & <- & _).
        destruct (truthy entity_id); destruct Hrow as (-> & _); [done|].
        by strip_setters. }
      rewrite lookup_fields_read in Hcamp by compute_done.
      destruct (d0 !! "hosted_by_camp") as [key|]; [|by rewrite Hcamp].
      destruct Hcamp as (c & Hc & ->).
      apply ThemeCamp_get_pk_Found in Hc as (k & Hk & Hck & Hin & Hl & _).
      by exists k, c.
    + assert (pe_located_at_art saved
              = match art with
                | Some a => Some (art_id a)
                | None => pe_located_at_art obj0
                end) as ->.
      { destruct (PlayaEvent_assign_written
                    (fields_read event_illegal_keys year_year entity_id d0)
                    year camp art obj0) as (_ & _ & _ & <-).
        destruct (truthy entity_id); destruct Hrow as (-> & _); [done|].
        by strip_setters. }
      rewrite lookup_fields_read in Hart by compute_done.
      destruct (d0 !! "located_at_art") as [key|]; [|by rewrite Hart].
      destruct Hart as (a & Ha & ->).
      apply get_pk_Found in Ha as (k & Hk & Hsel).
      apply filter_singleton_elem in Hsel as [Hin <-]. by exists a.
  - intros (d0 & obj0 & year & street & ts & saved & Hp & Ht & _ & Hstreet
            & Hts & -> & _ & Hrow)%ThemeCamp_saved_row.
    exists d0, obj0, saved. split_and!; try done.
    + assert (tc_circular_street saved
              = match street with
                | Some s => Some (cs_id s)
                | None => tc_circular_street obj0
                end) as ->.
      { destruct (ThemeCamp_assign_written
                    (fields_read camp_illegal_keys year_year entity_id d0)
                    year street obj0) as (_ & <-).
        destruct (truthy entity_id); destruct Hrow as (-> & _); [done|].
        by strip_setters. }
      rewrite lookup_fields_read in Hstreet by compute_done.
      destruct (d0 !! "circular_street") as [key|]; [|by rewrite Hstreet].
      destruct Hstreet as (s & Hs & ->).
      apply get_pk_Found in Hs as (k & Hk & Hsel).
      apply filter_singleton_elem in Hsel as [Hin <-]. by exists s.
    + rewrite lookup_fields_read in Hts by compute_done.
      destruct (d0 !! "time_street") as [key|]; [|done].
      destruct Hts as (s & Hs & ->).
      apply get_pk_Found in Hs as (k & Hk & Hsel).
      apply filter_singleton_elem in Hsel as [Hin <-]. by exists s.
Qed.

(** X16. A create that succeeds has a year: the one its field map names, and the
    year of the path when the map names none. The stored row points to the
    row of [Year] with that label. *)
Theorem create_takes_year_of_map_or_path request year_year entity_id db r db' :
  truthy entity_id = None →
  (PlayaEventHandler__create_or_update request year_year entity_id db
     = (Next r, db') →
   ∃ d0 label y saved,
     payload request = Some d0
     ∧ match d0 !! "year" with
       | Some l => label = l
       | None => truthy year_year = Some label
       end
     ∧ y ∈ years db ∧ y_year y = label
     ∧ db' = set_playa_events (playa_events db ++ [saved]) db
     ∧ pe_year saved = Some (y_id y))
  ∧ (ThemeCampHandler__create_or_update request year_year entity_id db
       = (Next r, db') →
     ∃ d0 label y saved,
       payload request = Some d0
       ∧ match d0 !! "year" with
         | Some l => label = l
         | None => truthy year_year = Some label
         end
       ∧ y ∈ years db ∧ y_year y = label
       ∧ db' = set_theme_camps (theme_camps db ++ [saved]) db
       ∧ tc_year saved = Some (y_id y)).
Proof.
  intros Hid. split.
  - intros (d0 & obj0 & year & camp & art & saved & Hp & Ht & Hyear & _ & _
            & -> & Hsy & Hrow)%PlayaEvent_saved_row.
    unfold PlayaEvent_target in Ht. rewrite Hid in Ht, Hrow.
    destruct Ht as (t & _ & ->). destruct Hrow as [Hsaved ->].
    rewrite lookup_fields_read_year, Hid in Hyear by compute_done.
    assert (pe_year saved = match year with
                            | Some y => Some (y_id y)
                            | None => None
                            end) as Hy.
    { destruct (PlayaEvent_assign_written
                  (fields_read event_illegal_keys year_year entity_id d0)
                  year camp art
                  (set_pe_event_type (Some (et_id t))
                     (set_pe_creator (Some (user_id (req_user request)))
                        PlayaEvent_new))) as (Hy & _).
      rewrite Hsaved. strip_setters. rewrite Hy. by destruct year. }
    destruct year as [y|]; [|rewrite Hy in Hsy; by destruct Hsy].
    assert (∃ label, match d0 !! "year" with
                     | Some l => label = l
                     | None => truthy year_year = Some label
                     end
                     ∧ Year_objects_get label db = Found y)
      as (label & Hlabel & Hget).
    { destruct (d0 !! "year") as [l|].
      - destruct Hyear as (y' & Hget & ?). simplify_eq. by exists l.
      - destruct (truthy year_year) as [yy|]; [|done].
        destruct Hyear as (y' & Hget & ?). simplify_eq. by exists yy. }
    apply get_Found, filter_singleton_elem in Hget as [Hin Hl].
    by exists d0, label, y, saved.
  - intros (d0 & obj0 & year & street & ts & saved & Hp & Ht & Hyear & _ & _
            & -> & Hsy & Hrow)%ThemeCamp_saved_row.
    unfold ThemeCamp_target in Ht. rewrite Hid in Ht, Hrow.
    subst obj0. destruct Hrow as [Hsaved ->].
    rewrite lookup_fields_read_year, Hid in Hyear by compute_done.
    assert (tc_year saved = match year with
                            | Some y => Some (y_id y)
                            | None => None
                            end) as Hy.
    { destruct (ThemeCamp_assign_written
                  (fields_read camp_illegal_keys year_year entity_id d0)
                  year street ThemeCamp_new) as (Hy & _).
      rewrite Hsaved. strip_setters. rewrite Hy. by destruct year. }
    destruct year as [y|]; [|rewrite Hy in Hsy; by destruct Hsy].
    assert (∃ label, match d0 !! "year" with
                     | Some l => label = l
                     | None => truthy year_year = Some label
                     end
                     ∧ Year_objects_get label db = Found y)
      as (label & Hlabel & Hget).
    { destruct (d0 !! "year") as [l|].
      - destruct Hyear as (y' & Hget & ?). simplify_eq. by exists l.
      - destruct (truthy year_year) as [yy|]; [|done].
        destruct Hyear as (y' & Hget & ?). simplify_eq. by exists yy. }
    apply get_Found, filter_singleton_elem in Hget as [Hin Hl].
    by exists d0, label, y, saved.
Qed.

(** *** The cache of the managers *)

(** What the cache answers after a call of [get_and_cache] that found or
    stored [value] under [key]: the same value until the entry expires, and
    nothing from then on. *)
Lemma cache_get_after_call key now now2 cache (value : Cached) :
  let cache' := match cache_get key now cache with
                | Some _ => cache
                | None => cache_set key value one_day now cache
                end in
  (now2 < entry_expiry key now cache →
   cache_get key now2 cache'
   = Some (match cache_get key now cache with
           | Some cached => cached
           | None => value
           end))
  ∧ (entry_expiry key now cache ≤ now2 → cache_get key now2 cache' = None).
Proof.
  cbv zeta. unfold entry_expiry, cache_get.
  destruct (cache_lookup key cache) as [entry|] eqn:Hentry.
  - case_bool_decide as Hlive.
    + rewrite Hentry. split; intros Hnow2.
      * by rewrite bool_decide_true.
      * by rewrite bool_decide_false by lia.
    + unfold cache_set. cbn [cache_lookup]. rewrite decide_True by done.
      cbn [ce_expires ce_value]. split; intros Hnow2.
      * by rewrite bool_decide_true.
      * by rewrite bool_decide_false by lia.
  - unfold cache_set. cbn [cache_lookup]. rewrite decide_True by done.
    cbn [ce_expires ce_value]. split; intros Hnow2.
    + by rewrite bool_decide_true.
    + by rewrite bool_decide_false by lia.
Qed.

Lemma ThemeCampAllManager_get_and_cache_unfold kwargs now db cache :
  ThemeCampAllManager_get_and_cache kwargs now db cache
  = let key := cache_key_camps "ThemeCampAll" kwargs in
    let rows := CachedCamps (filter_camps kwargs (theme_camps db)) in
    match cache_get key now cache with
    | Some cached => (cached, cache)
    | None => (rows, cache_set key rows one_day now cache)
    end.
Proof.
  unfold ThemeCampAllManager_get_and_cache, ThemeCamp_all_objects. cbv zeta.
  destruct (cache_get _ now cache); [done|].
  case_bool_decide as Hkw; [done|]. subst kwargs. by rewrite filter_camps_nil.
Qed.

Lemma ThemeCampManager_get_and_cache_unfold kwargs now db cache :
  ThemeCampManager_get_and_cache kwargs now db cache
  = let key := cache_key_camps "ThemeCamp" kwargs in
    let rows := CachedCamps
                  (filter_camps kwargs (ThemeCampManager_get_query_set db)) in
    match cache_get key now cache with
    | Some cached => (cached, cache)
    | None => (rows, cache_set key rows one_day now cache)
    end.
Proof.
  unfold ThemeCampManager_get_and_cache. cbv zeta.
  destruct (cache_get _ now cache); [done|].
  case_bool_decide as Hkw; [done|]. subst kwargs. by rewrite filter_camps_nil.
Qed.

Lemma PlayaEventManager_get_and_cache_unfold kwargs now db cache :
  PlayaEventManager_get_and_cache kwargs now db cache
  = let key := cache_key_events "PlayaEvent" kwargs in
    let rows := CachedEvents (filter_events kwargs (PlayaEvent_objects db)) in
    match cache_get key now cache with
    | Some cached => (cached, cache)
    | None => (rows, cache_set key rows one_day now cache)
    end.
Proof.
  unfold PlayaEventManager_get_and_cache. cbv zeta.
  destruct (cache_get _ now cache); [done|].
  case_bool_decide as Hkw; [done|]. subst kwargs. by rewrite filter_events_nil.
Qed.

(** X17. [ThemeCampAllManager.get_and_cache]: on a hit the cached sequence is
    returned and the cache is left as it is; on a miss the camps matching
    the parameters, listed or not, are stored for one day and returned; a
    second call with the same parameters returns the same sequence whatever
    the database holds, as long as the entry has not expired. *)
Theorem all_camps_get_and_cache kwargs now db cache :
  let key := cache_key_camps "ThemeCampAll" kwargs in
  let rows := CachedCamps (filter_camps kwargs (theme_camps db)) in
  (∀ cached, cache_get key now cache = Some cached →
     ThemeCampAllManager_get_and_cache kwargs now db cache = (cached, cache))
  ∧ (cache_get key now cache = None →
     ThemeCampAllManager_get_and_cache kwargs now db cache
     = (rows, cache_set key rows one_day now cache))
  ∧ (∀ now2 db2,
       now2 < entry_expiry key now cache →
       let first := ThemeCampAllManager_get_and_cache kwargs now db cache in
       ThemeCampAllManager_get_and_cache kwargs now2 db2 first.2
       = (first.1, first.2)).
Proof.
  cbv zeta. split; [|split].
  - intros cached Hget. rewrite ThemeCampAllManager_get_and_cache_unfold.
    cbv zeta. by rewrite Hget.
  - intros Hget. rewrite ThemeCampAllManager_get_and_cache_unfold.
    cbv zeta. by rewrite Hget.
  - intros now2 db2 Hlive.
    destruct (cache_get_after_call (cache_key_camps "ThemeCampAll" kwargs)
                now now2 cache
                (CachedCamps (filter_camps kwargs (theme_camps db))))
      as [Hcached _].
    specialize (Hcached Hlive).
    rewrite (ThemeCampAllManager_get_and_cache_unfold kwargs now2).
    rewrite (ThemeCampAllManager_get_and_cache_unfold kwargs now db).
    cbv zeta.
    destruct (cache_get _ now cache) as [cached|]; cbn [fst snd];
      by rewrite Hcached.
Qed.

(** X18. An entry is served for one day and no longer. A call made once the
    entry of an earlier call with the same parameters has expired reads the
    database again: it returns the rows the database holds by then and
    stores them for another day. This holds for the three managers. *)
Theorem cache_entries_expire now now2 db db2 cache :
  (∀ kwargs,
     entry_expiry (cache_key_events "PlayaEvent" kwargs) now cache ≤ now2 →
     let first := PlayaEventManager_get_and_cache kwargs now db cache in
     let rows := CachedEvents (filter_events kwargs (PlayaEvent_objects db2)) in
     PlayaEventManager_get_and_cache kwargs now2 db2 first.2
     = (rows, cache_set (cache_key_events "PlayaEvent" kwargs) rows one_day
                now2 first.2))
  ∧ (∀ kwargs,
       entry_expiry (cache_key_camps "ThemeCamp" kwargs) now cache ≤ now2 →
       let first := ThemeCampManager_get_and_cache kwargs now db cache in
       let rows := CachedCamps
                     (filter_camps kwargs (ThemeCampManager_get_query_set db2))
       in
       ThemeCampManager_get_and_cache kwargs now2 db2 first.2
       = (rows, cache_set (cache_key_camps "ThemeCamp" kwargs) rows one_day
                  now2 first.2))
  ∧ (∀ kwargs,
       entry_expiry (cache_key_camps "ThemeCampAll" kwargs) now cache ≤ now2 →
       let first := ThemeCampAllManager_get_and_cache kwargs now db cache in
       let rows := CachedCamps (filter_camps kwargs (theme_camps db2)) in
       ThemeCampAllManager_get_and_cache kwargs now2 db2 first.2
       = (rows, cache_set (cache_key_camps "ThemeCampAll" kwargs) rows one_day
                  now2 first.2)).
Proof.
  split; [|split]; intros kwargs Hexpired; cbv zeta.
  - destruct (cache_get_after_call (cache_key_events "PlayaEvent" kwargs)
                now now2 cache
                (CachedEvents (filter_events kwargs (PlayaEvent_objects db))))
      as [_ Hgone].
    specialize (Hgone Hexpired).
    rewrite (PlayaEventManager_get_and_cache_unfold kwargs now2).
    rewrite (PlayaEventManager_get_and_cache_unfold kwargs now db).
    cbv zeta.
    destruct (cache_get _ now cache) as [cached|]; cbn [fst snd];
      by rewrite Hgone.
  - destruct (cache_get_after_call (cache_key_camps "ThemeCamp" kwargs)
                now now2 cache
                (CachedCamps
                   (filter_camps kwargs (ThemeCampManager_get_query_set db))))
      as [_ Hgone].
    specialize (Hgone Hexpired).
    rewrite (ThemeCampManager_get_and_cache_unfold kwargs now2).
    rewrite (ThemeCampManager_get_and_cache_unfold kwargs now db).
    cbv zeta.
    destruct (cache_get _ now cache) as [cached|]; cbn [fst snd];
      by rewrite Hgone.
  - destruct (cache_get_after_call (cache_key_camps "ThemeCampAll" kwargs)
                now now2 cache
                (CachedCamps (filter_camps kwargs (theme_camps db))))
      as [_ Hgone].
    specialize (Hgone Hexpired).
    rewrite (ThemeCampAllManager_get_and_cache_unfold kwargs now2).
    rewrite (ThemeCampAllManager_get_and_cache_unfold kwargs now db).
    cbv zeta.
    destruct (cache_get _ now cache) as [cached|]; cbn [fst snd];
      by rewrite Hgone.
Qed.

Lemma cache_get_set_ne key key' value length now now2 cache :
  key ≠ key' →
  cache_get key' now2 (cache_set key value length now cache)
  = cache_get key' now2 cache.
Proof.
  intros Hne. unfold cache_get, cache_set. cbn [cache_lookup].
  by rewrite decide_False.
Qed.

(** X19. The two managers of ThemeCamp keep entries of their own: what one of
    them returns is the same whether or not the other one has been called
    before, with whatever parameters. A listing cached by the manager that
    hides unlisted camps is never served by the one that shows them, nor the
    other way round. *)
Theorem camp_managers_keep_separate_entries kwargs kwargs' now now2 db db2 cache :
  (ThemeCampManager_get_and_cache kwargs now2 db2
     (ThemeCampAllManager_get_and_cache kwargs' now db cache).2).1
  = (ThemeCampManager_get_and_cache kwargs now2 db2 cache).1
  ∧ (ThemeCampAllManager_get_and_cache kwargs now2 db2
       (ThemeCampManager_get_and_cache kwargs' now db cache).2).1
    = (ThemeCampAllManager_get_and_cache kwargs now2 db2 cache).1.
Proof.
  split.
  - rewrite (ThemeCampAllManager_get_and_cache_unfold kwargs' now db).
    rewrite !(ThemeCampManager_get_and_cache_unfold kwargs now2).
    cbv zeta. destruct (cache_get _ now cache) as [cached|]; cbn [fst snd];
      [done|].
    rewrite cache_get_set_ne by done.
    by destruct (cache_get _ now2 cache).
  - rewrite (ThemeCampManager_get_and_cache_unfold kwargs' now db).
    rewrite !(ThemeCampAllManager_get_and_cache_unfold kwargs now2).
    cbv zeta. destruct (cache_get _ now cache) as [cached|]; cbn [fst snd];
      [done|].
    rewrite cache_get_set_ne by done.
    by destruct (cache_get _ now2 cache).
Qed.

(** *** Creating an event of a type that does not exist *)

Lemma filter_none {A} (P : A → Prop) `{∀ x, Decision (P x)} (l : list A) :
  (∀ x, x ∈ l → ¬ P x) → filter P l = [].
Proof.
  induction l as [|a l IH]; intros Hno; [done|].
  rewrite filter_cons_False by (apply Hno; left).
  apply IH. intros x Hx. apply Hno. by right.
Qed.

(** X20. A create naming an event type by an abbreviation that no type carries is
    answered NOT_HERE; a create naming none relies on the type with key 1
    and, when the table has no such row, is not answered at all: the
    exception of the lookup escapes. The database is unchanged. *)
Theorem create_with_unknown_event_type request year_year entity_id db d0 :
  api_allowed (req_user request) = true →
  payload request = Some d0 →
  with_path_year year_year d0 ≠ ∅ →
  truthy entity_id = None →
  (∀ abbr, d0 !! "event_type" = Some abbr →
     (∀ t, t ∈ event_types db → et_abbr t ≠ abbr) →
     PlayaEventHandler__create_or_update request year_year entity_id db
     = (Return (rc_response NOT_HERE ("No such EventType: " +:+ abbr)), db))
  ∧ (d0 !! "event_type" = None →
     (∀ t, t ∈ event_types db → et_id t ≠ 1) →
     PlayaEventHandler__create_or_update request year_year entity_id db
     = (Throw ObjectDoesNotExist, db)).
Proof.
  intros Hok Hp Hne Hid.
  unfold PlayaEventHandler__create_or_update. cbv zeta.
  erewrite bind_Next by (by apply request_data_ok).
  rewrite Hid, lookup_with_path_year by done.
  split.
  - intros abbr -> Hnone.
    assert (EventType_objects_get_abbr abbr db = DoesNotExist) as Hget.
    { unfold EventType_objects_get_abbr.
      by rewrite filter_none. }
    erewrite bind_Return; [done|].
    erewrite bind_Return; [done|].
    by apply get_or_return_DoesNotExist.
  - intros -> Hnone.
    assert (EventType_objects_get_pk 1 db = DoesNotExist) as Hget.
    { unfold EventType_objects_get_pk.
      by rewrite filter_none. }
    cbv [bind get_or_raise query raise pure return_]. by rewrite Hget.
Qed.

(** *** Keys that are illegal to update *)

Lemma strip_keys_delete keys key (d : gmap string string) :
  key ∈ keys → strip_keys keys (delete key d) = strip_keys keys d.
Proof.
  intros Hin. apply map_eq. intros k. rewrite !lookup_strip_keys.
  case_decide as Hk; [done|].
  rewrite lookup_delete_ne; [done|]. by intros ->.
Qed.

Lemma strip_keys_delete_delete keys key k' (d : gmap string string) :
  key ∈ keys →
  strip_keys keys (delete k' (delete key d)) = strip_keys keys (delete k' d).
Proof.
  intros Hin. apply map_eq. intros k. rewrite !lookup_strip_keys.
  case_decide as Hk; [done|].
  assert (key ≠ k) as Hkey by (by intros ->).
  destruct (decide (k' = k)) as [->|Hne].
  - by rewrite !lookup_delete_eq.
  - by rewrite !lookup_delete_ne by done.
Qed.

Lemma with_path_year_delete year_year key (d0 : gmap string string) :
  key ≠ "year" →
  with_path_year year_year (delete key d0)
  = delete key (with_path_year year_year d0).
Proof.
  intros Hkey. unfold with_path_year.
  destruct (truthy year_year) as [yy|]; [|done].
  rewrite lookup_delete_ne by done.
  case_decide; [|done]. by rewrite delete_insert_ne.
Qed.

(** X21. The keys that are illegal to update are dropped without an error: a
    request carrying one of them runs exactly as the same request without
    it (as long as the field map is not left empty, which the handler
    rejects before it drops any key). *)
Theorem illegal_keys_are_ignored request year_year entity_id db d0 key :
  payload request = Some d0 →
  with_path_year year_year (delete key d0) ≠ ∅ →
  (key ∈ event_illegal_keys →
   PlayaEventHandler__create_or_update request year_year entity_id db
   = PlayaEventHandler__create_or_update (drop_field key request) year_year
       entity_id db)
  ∧ (key ∈ camp_illegal_keys →
     ThemeCampHandler__create_or_update request year_year entity_id db
     = ThemeCampHandler__create_or_update (drop_field key request) year_year
         entity_id db).
Proof.
  intros Hp Hne.
  assert (∀ keys : list string,
            key ∈ keys → "year" ∉ keys → "event_type" ∉ keys →
            key ≠ "year" ∧ key ≠ "event_type"
            ∧ with_path_year year_year d0 ≠ ∅) as Hkey.
  { intros keys Hin Hy Het.
    assert (key ≠ "year") as Hky by (by intros ->).
    split; [done|]. split; [by intros ->|].
    intros Hempty. apply Hne.
    by rewrite with_path_year_delete, Hempty, delete_empty. }
  assert (∀ (k : gmap string string → Handler HttpResponse)
            (k' : gmap string string → Handler HttpResponse),
            key ≠ "year" → with_path_year year_year d0 ≠ ∅ →
            k (with_path_year year_year d0) db
            = k' (delete key (with_path_year year_year d0)) db →
            bind (request_data request year_year) k db
            = bind (request_data (drop_field key request) year_year) k' db)
    as Hdata.
  { intros k k' Hky Hne1 Hk.
    destruct (api_allowed (req_user request)) eqn:Hallowed.
    2:{ erewrite !bind_Return; [done| |];
          rewrite request_data_unfold; cbn [req_user drop_field];
          by rewrite Hallowed. }
    erewrite (bind_Next (request_data request year_year))
      by (by apply request_data_ok).
    erewrite (bind_Next (request_data (drop_field key request) year_year)).
    2:{ apply request_data_ok;
          [done|by rewrite payload_drop_field, Hp|done]. }
    by rewrite with_path_year_delete. }
  split; intros Hin.
  - destruct (Hkey event_illegal_keys Hin) as (Hky & Hket & Hne1);
      [compute_done..|].
    unfold PlayaEventHandler__create_or_update. cbv zeta.
    apply Hdata; [done..|]. cbn [req_user req_method drop_field].
    apply (bind_rel (λ od1 od2,
             od1.1 = od2.1
             ∧ strip_keys event_illegal_keys od1.2
               = strip_keys event_illegal_keys od2.2)).
    + destruct (truthy entity_id) as [pid|].
      * unfold step_rel, bind, get_or_return, query, pure, return_, raise, bind.
        destruct (PlayaEvent_objects_get_pk pid db); cbn [fst snd]; [|done..].
        split; [done|]. split; [done|].
        by rewrite strip_keys_delete_delete.
      * rewrite lookup_delete_ne by done.
        match goal with
        | |- step_rel _ (bind ?m _ db) _ =>
            unfold bind, step_rel; destruct (m db) as [[t|r|e] db1]
        end; cbn [fst snd]; [|done..].
        split; [done|]. split; [done|]. cbn [fst snd].
        by rewrite strip_keys_delete.
    + intros [o d1] [o' d2] db1 [Ho Hd]. cbn [fst snd] in *. subst o'.
      by rewrite Hd.
  - destruct (Hkey camp_illegal_keys Hin) as (Hky & Hket & Hne1);
      [compute_done..|].
    unfold ThemeCampHandler__create_or_update. cbv zeta.
    apply Hdata; [done..|]. cbn [req_user req_method drop_field].
    apply (bind_rel (λ od1 od2,
             od1.1 = od2.1
             ∧ strip_keys camp_illegal_keys od1.2
               = strip_keys camp_illegal_keys od2.2)).
    + destruct (truthy entity_id) as [cid|].
      * unfold step_rel, bind, get_or_return, query, pure, return_, raise, bind.
        destruct (ThemeCamp_objects_get_pk cid db); cbn [fst snd]; [|done..].
        split; [done|]. split; [done|].
        by rewrite strip_keys_delete_delete.
      * unfold step_rel, pure. cbn [fst snd]. split; [done|].
        split; [done|]. cbn [fst snd]. by rewrite strip_keys_delete.
    + intros [o d1] [o' d2] db1 [Ho Hd]. cbn [fst snd] in *. subst o'.
      by rewrite Hd.
Qed.

(** *** Creating without a year *)

(** X22. A create that names no year, in the path or in the field map, stores
    nothing, whatever else the map holds: the database is as before and the
    call does not succeed. For a camp whose map names no street, the call is
    not even answered: [save] raises on the missing year. *)
Theorem create_without_year_is_not_saved request year_year entity_id db d0 :
  payload request = Some d0 →
  truthy entity_id = None →
  truthy year_year = None →
  d0 !! "year" = None →
  (∀ s db',
     PlayaEventHandler__create_or_update request year_year entity_id db
     = (s, db') →
     db' = db ∧ ∀ r, s ≠ Next r)
  ∧ (∀ s db',
       ThemeCampHandler__create_or_update request year_year entity_id db
       = (s, db') →
       db' = db ∧ ∀ r, s ≠ Next r)
  ∧ (api_allowed (req_user request) = true → d0 ≠ ∅ →
     d0 !! "circular_street" = None → d0 !! "time_street" = None →
     ThemeCampHandler__create_or_update request year_year entity_id db
     = (Throw IntegrityError, db)).
Proof.
  intros Hp Hid Hyy Hy.
  assert (∀ keys, "year" ∉ keys →
            fields_read keys year_year entity_id d0 !! "year" = None)
    as Hnoyear.
  { intros keys Hkeys. by rewrite lookup_fields_read_year, Hid, Hy, Hyy. }
  split; [|split].
  - intros s db' Hrun. destruct s as [r|r|e].
    + exfalso.
      apply PlayaEvent_saved_row in Hrun
        as (d0' & obj0 & year & camp & art & saved & Hp' & Ht & Hyear & _ & _
            & _ & [y Hsy] & Hrow).
      rewrite Hp in Hp'. simplify_eq.
      rewrite Hnoyear in Hyear by compute_done. cbn in Hyear. subst year.
      unfold PlayaEvent_target in Ht. rewrite Hid in Ht, Hrow.
      destruct Ht as (t & _ & ->). destruct Hrow as [-> _].
      destruct (PlayaEvent_assign_written
                  (fields_read event_illegal_keys year_year entity_id d0')
                  None camp art
                  (set_pe_event_type (Some (et_id t))
                     (set_pe_creator (Some (user_id (req_user request)))
                        PlayaEvent_new))) as (Hnone & _).
      revert Hsy. strip_setters. by rewrite Hnone.
    + apply PlayaEvent_create_or_update_inv in Hrun as [_ ->]. by split.
    + apply PlayaEvent_create_or_update_inv in Hrun as ->. by split.
  - intros s db' Hrun. destruct s as [r|r|e].
    + exfalso.
      apply ThemeCamp_saved_row in Hrun
        as (d0' & obj0 & year & street & ts & saved & Hp' & Ht & Hyear & _ & _
            & _ & [y Hsy] & Hrow).
      rewrite Hp in Hp'. simplify_eq.
      rewrite Hnoyear in Hyear by compute_done. cbn in Hyear. subst year.
      unfold ThemeCamp_target in Ht. rewrite Hid in Ht, Hrow.
      subst obj0. destruct Hrow as [-> _].
      destruct (ThemeCamp_assign_written
                  (fields_read camp_illegal_keys year_year entity_id d0')
                  None street ThemeCamp_new) as (Hnone & _).
      revert Hsy. strip_setters. by rewrite Hnone.
    + apply ThemeCamp_create_or_update_inv in Hrun as [_ ->]. by split.
    + apply ThemeCamp_create_or_update_inv in Hrun as ->. by split.
  - intros Hok Hne Hcs Hts.
    assert (with_path_year year_year d0 = d0) as Hd
      by (unfold with_path_year; by rewrite Hyy).
    unfold ThemeCampHandler__create_or_update. cbv zeta.
    erewrite bind_Next by (apply request_data_ok; [done..|by rewrite Hd]).
    rewrite Hid, Hd. erewrite bind_Next by reflexivity. cbn [fst snd].
    unfold resolve_year.
    rewrite !lookup_strip_keys, !decide_False by compute_done.
    rewrite Hy, Hcs, Hts.
    do 3 (erewrite bind_Next by reflexivity).
    unfold bind, ThemeCamp_save.
    assert (∀ o, tc_year o = None →
              tc_year (copy_fields ThemeCamp_setattr_bool coerce_bool
                         camp_bool_keys (strip_keys camp_illegal_keys d0)
                         (copy_fields ThemeCamp_setattr id camp_text_keys
                            (strip_keys camp_illegal_keys d0) o)) = None)
      as Hnone by (intros o Ho; by strip_copies).
    by rewrite Hnone.
Qed.

(** *** What no write does *)

Lemma PlayaEvent_save_table obj db s db' :
  PlayaEvent_save obj db = (s, db') →
  db' = set_playa_events (playa_events db') db
  ∧ pe_id <$> playa_events db `prefix_of` pe_id <$> playa_events db'.
Proof.
  unfold PlayaEvent_save.
  assert (∀ v, set_playa_events v db
               = set_playa_events (playa_events (set_playa_events v db)) db)
    as Hset by (intros v; by destruct db).
  assert (∀ v, playa_events (set_playa_events v db) = v) as Hrows
    by (intros v; by destruct db).
  destruct (pe_year obj).
  2:{ intros; simplify_eq. by rewrite set_playa_events_id. }
  destruct (pe_id obj) as [k|] eqn:Hid; [case_bool_decide|];
    intros; simplify_eq; (split; [apply Hset|]); rewrite Hrows.
  - rewrite <- list_fmap_compose.
    assert (pe_id ∘ (λ r, if decide (pe_id r = Some k) then obj else r)
            <$> playa_events db = pe_id <$> playa_events db) as ->; [|done].
    apply Forall_fmap_ext, Forall_forall. intros r _. cbn.
    case_decide; congruence.
  - rewrite fmap_app. by apply prefix_app_r.
  - rewrite fmap_app. by apply prefix_app_r.
Qed.

Lemma ThemeCamp_save_table obj db s db' :
  ThemeCamp_save obj db = (s, db') →
  db' = set_theme_camps (theme_camps db') db
  ∧ tc_id <$> theme_camps db `prefix_of` tc_id <$> theme_camps db'.
Proof.
  unfold ThemeCamp_save.
  assert (∀ v, set_theme_camps v db
               = set_theme_camps (theme_camps (set_theme_camps v db)) db)
    as Hset by (intros v; by destruct db).
  assert (∀ v, theme_camps (set_theme_camps v db) = v) as Hrows
    by (intros v; by destruct db).
  destruct (tc_year obj).
  2:{ intros; simplify_eq. by rewrite set_theme_camps_id. }
  destruct (tc_id obj) as [k|] eqn:Hid; [case_bool_decide|];
    intros; simplify_eq; (split; [apply Hset|]); rewrite Hrows.
  - rewrite <- list_fmap_compose.
    assert (tc_id ∘ (λ r, if decide (tc_id r = Some k) then obj else r)
            <$> theme_camps db = tc_id <$> theme_camps db) as ->; [|done].
    apply Forall_fmap_ext, Forall_forall. intros r _. cbn.
    case_decide; congruence.
  - rewrite fmap_app. by apply prefix_app_r.
  - rewrite fmap_app. by apply prefix_app_r.
Qed.

(** X23. However a create, an update or a delete ends (answer, error answer or
    exception), it touches no table but its own, and in its own table it
    removes no row and changes no key: the keys of the table before the call
    are, in order, the first keys of the table after it. *)
Theorem writes_never_remove_rows request year_year entity_id db s db' :
  (PlayaEventHandler__create_or_update request year_year entity_id db
     = (s, db')
   ∨ PlayaEventHandler_delete request year_year entity_id db = (s, db') →
   db' = set_playa_events (playa_events db') db
   ∧ pe_id <$> playa_events db `prefix_of` pe_id <$> playa_events db')
  ∧ (ThemeCampHandler__create_or_update request year_year entity_id db
       = (s, db')
     ∨ ThemeCampHandler_delete request year_year entity_id db = (s, db') →
     db' = set_theme_camps (theme_camps db') db
     ∧ tc_id <$> theme_camps db `prefix_of` tc_id <$> theme_camps db').
Proof.
  assert (db = set_playa_events (playa_events db) db
          ∧ pe_id <$> playa_events db `prefix_of` pe_id <$> playa_events db)
    as Hsame_e by (by rewrite set_playa_events_id).
  assert (db = set_theme_camps (theme_camps db) db
          ∧ tc_id <$> theme_camps db `prefix_of` tc_id <$> theme_camps db)
    as Hsame_c by (by rewrite set_theme_camps_id).
  split; intros [Hrun|Hrun].
  - apply PlayaEvent_create_or_update_inv in Hrun. destruct s as [r|r|e].
    + destruct Hrun as (d0 & obj0 & obj & saved & _ & _ & _ & _ & _ & _ & _
                        & Hsave & _).
      by apply PlayaEvent_save_table in Hsave.
    + by destruct Hrun as [_ ->].
    + by subst db'.
  - unfold PlayaEventHandler_delete in Hrun. cbv zeta in Hrun.
    destruct (api_allowed (req_user request)); cbn [negb] in Hrun;
      [|unfold return_ in Hrun; by simplify_eq].
    destruct (truthy entity_id) as [pid|];
      [|unfold return_ in Hrun; by simplify_eq].
    exec_bind Hrun obj Hobj; [|done].
    unfold bind in Hrun.
    destruct (PlayaEvent_save _ db) as [s1 db1] eqn:Hsave.
    apply PlayaEvent_save_table in Hsave.
    destruct s1; unfold pure in Hrun; by simplify_eq.
  - apply ThemeCamp_create_or_update_inv in Hrun. destruct s as [r|r|e].
    + destruct Hrun as (d0 & obj0 & obj & saved & _ & _ & _ & _ & _ & _
                        & Hsave & _).
      by apply ThemeCamp_save_table in Hsave.
    + by destruct Hrun as [_ ->].
    + by subst db'.
  - unfold ThemeCampHandler_delete in Hrun. cbv zeta in Hrun.
    destruct (api_allowed (req_user request)); cbn [negb] in Hrun;
      [|unfold return_ in Hrun; by simplify_eq].
    destruct (truthy entity_id) as [cid|];
      [|unfold return_ in Hrun; by simplify_eq].
    exec_bind Hrun obj Hobj; [|done].
    unfold bind in Hrun.
    destruct (ThemeCamp_save _ db) as [s1 db1] eqn:Hsave.
    apply ThemeCamp_save_table in Hsave.
    destruct s1; unfold pure in Hrun; by simplify_eq.
Qed.

(** ** The target of an update or a delete

    The last of the claims, which rests on the characterisation of the runs
    that save. *)

Lemma with_path_year_given year_year (d0 : gmap string string) :
  d0 ≠ ∅ ∨ is_Some (truthy year_year) → with_path_year year_year d0 ≠ ∅.
Proof.
  intros [Hne|Hy]; [|by apply with_path_year_nonempty].
  unfold with_path_year. destruct (truthy year_year); [|done].
  case_decide; [apply insert_non_empty|done].
Qed.

Lemma success_saved_response method pk :
  success_response (saved_response method pk).
Proof.
  unfold success_response, saved_response. simpl. case_decide; auto.
Qed.

(** C10. Update and delete resolve their target by primary key alone. The
    year of the path takes no part in the lookup: a delete does not depend on
    it at all, and an update behaves the same for any two years given in the
    path. An existing entity of whatever year, reached through whatever year
    of the path, is found and modified by an update: the row with its key is
    replaced by the entity with the assignments of the field map applied, its
    year is kept, and the answer reports success with its key. A delete
    finds it, rejects it or marks it deleted, and reports it as deleted. *)
Theorem C10_target_resolved_by_key_alone request entity_id db :
  (* delete ignores the year of the path *)
  (∀ y1 y2,
     PlayaEventHandler_delete request y1 entity_id
     = PlayaEventHandler_delete request y2 entity_id
     ∧ ThemeCampHandler_delete request y1 entity_id
       = ThemeCampHandler_delete request y2 entity_id)
  (* update: any two years of the path give the same run *)
  ∧ (∀ y1 y2,
       is_Some (truthy entity_id) →
       is_Some (truthy y1) → is_Some (truthy y2) →
       run (PlayaEventHandler__create_or_update request y1 entity_id) db
       = run (PlayaEventHandler__create_or_update request y2 entity_id) db
       ∧ run (ThemeCampHandler__create_or_update request y1 entity_id) db
         = run (ThemeCampHandler__create_or_update request y2 entity_id) db)
  (* delete finds the entity whatever its year is, and reports success *)
  ∧ (∀ year_year pid e,
       api_allowed (req_user request) = true →
       truthy entity_id = Some pid →
       PlayaEvent_objects_get_pk pid db = Found e →
       is_Some (pe_year e) →
       ∃ db',
         run (PlayaEventHandler_delete request year_year entity_id) db
         = (Returned (rc_response DELETED ("Event rejected #" +:+ pid)), db')
         ∧ set_pe_moderation "R" e ∈ playa_events db')
  ∧ (∀ year_year cid c,
       api_allowed (req_user request) = true →
       truthy entity_id = Some cid →
       ThemeCamp_objects_get_pk cid db = Found c →
       is_Some (tc_year c) →
       ∃ db',
         run (ThemeCampHandler_delete request year_year entity_id) db
         = (Returned (rc_response DELETED ("Camp deleted #" +:+ cid)), db')
         ∧ set_tc_deleted (Some true) c ∈ theme_camps db')
  (* update finds the entity whatever its year and the year of the path are,
     stores it with the assignments applied, and reports success *)
  ∧ (∀ year_year pid e d0 camp art,
       api_allowed (req_user request) = true →
       payload request = Some d0 →
       d0 ≠ ∅ ∨ is_Some (truthy year_year) →
       truthy entity_id = Some pid →
       PlayaEvent_objects_get_pk pid db = Found e →
       is_Some (pe_year e) →
       let data := strip_keys event_illegal_keys (delete "year" d0) in
       resolved (data !! "hosted_by_camp") ThemeCamp_objects_get_pk db camp →
       resolved (data !! "located_at_art") ArtInstallation_objects_get_pk
         db art →
       let saved := PlayaEvent_assign data None camp art e in
       run (PlayaEventHandler__create_or_update request year_year entity_id) db
       = (Returned (saved_response (req_method request) (pe_id e)),
          set_playa_events
            ((λ r, if decide (r = e) then saved else r) <$> playa_events db) db)
       ∧ success_response (saved_response (req_method request) (pe_id e))
       ∧ pe_id saved = pe_id e
       ∧ pe_year saved = pe_year e)
  ∧ (∀ year_year cid c d0 street time_street,
       api_allowed (req_user request) = true →
       payload request = Some d0 →
       d0 ≠ ∅ ∨ is_Some (truthy year_year) →
       truthy entity_id = Some cid →
       ThemeCamp_objects_get_pk cid db = Found c →
       is_Some (tc_year c) →
       let data := strip_keys camp_illegal_keys (delete "year" d0) in
       resolved (data !! "circular_street") CircularStreet_objects_get_pk
         db street →
       resolved (data !! "time_street") TimeStreet_objects_get_pk
         db time_street →
       let saved := ThemeCamp_assign data None street c in
       run (ThemeCampHandler__create_or_update request year_year entity_id) db
       = (Returned (saved_response (req_method request) (tc_id c)),
          set_theme_camps
            ((λ r, if decide (tc_id r = tc_id c) then saved else r)
               <$> theme_camps db) db)
       ∧ success_response (saved_response (req_method request) (tc_id c))
       ∧ tc_id saved = tc_id c
       ∧ tc_year saved = tc_year c).
Proof.
  split; [done|]. split; [|split; [|split; [|split]]].
  - intros y1 y2 [pid Hpid] Hy1 Hy2.
    unfold run, PlayaEventHandler__create_or_update,
      ThemeCampHandler__create_or_update.
    rewrite !bind_request_data by done.
    destruct (api_allowed _); [|done].
    destruct (payload request) as [d0|]; [|done].
    rewrite Hpid. by rewrite !delete_year_with_path_year.
  - intros year_year pid e Hallowed Hpid He Hyear.
    apply PlayaEvent_get_pk_Found in He as Hfound.
    destruct Hfound as (k & _ & Hk & _).
    destruct (PlayaEvent_save_stored (set_pe_moderation "R" e) db k)
      as (db' & Hsave & Hin); [by destruct e..|].
    exists db'. split; [|done].
    unfold run, PlayaEventHandler_delete. rewrite Hallowed, Hpid. simpl.
    erewrite bind_Next by (by apply get_or_return_Found).
    erewrite bind_Next by done. done.
  - intros year_year cid c Hallowed Hcid Hc Hyear.
    apply ThemeCamp_get_pk_Found in Hc as Hfound.
    destruct Hfound as (k & _ & Hk & _).
    destruct (ThemeCamp_save_stored (set_tc_deleted (Some true) c) db k)
      as (db' & Hsave & Hin); [by destruct c..|].
    exists db'. split; [|done].
    unfold run, ThemeCampHandler_delete. rewrite Hallowed, Hcid. simpl.
    erewrite bind_Next by (by apply get_or_return_Found).
    erewrite bind_Next by done. done.
  - intros year_year pid e d0 camp art Hallowed Hp Hgiven Hpid He Hyear data
      Hcamp Hart saved.
    assert (fields_read event_illegal_keys year_year entity_id d0 = data)
      as Hdata
      by (unfold fields_read; by rewrite Hpid, delete_year_with_path_year).
    pose proof (lookup_fields_read_year event_illegal_keys year_year entity_id
                  d0 ltac:(compute_done)) as Hy.
    rewrite Hpid, Hdata in Hy.
    destruct (PlayaEvent_assign_kept data None camp art e) as (Hid & _).
    destruct (PlayaEvent_assign_written data None camp art e) as (Hsy & _).
    fold saved in Hid, Hsy.
    apply PlayaEvent_get_pk_Found in He as Hfound.
    destruct Hfound as (k & _ & Hk & Hin & Huniq).
    split; [|split; [apply success_saved_response|done]].
    unfold run.
    erewrite (proj2 (PlayaEvent_create_or_update_steps request year_year
                       entity_id db _ _)); [done|].
    exists d0, e, None, camp, art, saved.
    split; [done|]. split; [done|].
    split; [by apply with_path_year_given|].
    split; [unfold PlayaEvent_target; by rewrite Hpid|].
    cbv zeta. rewrite Hdata, Hy. fold data saved.
    split; [done|]. split; [done|]. split; [done|].
    split; [|by rewrite Hid].
    rewrite (PlayaEvent_save_update saved k);
      [|by rewrite Hsy|by rewrite Hid|by exists e].
    by rewrite (fmap_replace_by_key pe_id _ k e saved).
  - intros year_year cid c d0 street ts Hallowed Hp Hgiven Hcid Hc Hyear data
      Hstreet Hts saved.
    assert (fields_read camp_illegal_keys year_year entity_id d0 = data)
      as Hdata
      by (unfold fields_read; by rewrite Hcid, delete_year_with_path_year).
    pose proof (lookup_fields_read_year camp_illegal_keys year_year entity_id
                  d0 ltac:(compute_done)) as Hy.
    rewrite Hcid, Hdata in Hy.
    destruct (ThemeCamp_assign_kept data None street c) as (Hid & _).
    destruct (ThemeCamp_assign_written data None street c) as (Hsy & _).
    fold saved in Hid, Hsy.
    apply ThemeCamp_get_pk_Found in Hc as Hfound.
    destruct Hfound as (k & _ & Hk & Hin & _).
    split; [|split; [apply success_saved_response|done]].
    unfold run.
    erewrite (proj2 (ThemeCamp_create_or_update_steps request year_year
                       entity_id db _ _)); [done|].
    exists d0, c, None, street, ts, saved.
    split; [done|]. split; [done|].
    split; [by apply with_path_year_given|].
    split; [unfold ThemeCamp_target; by rewrite Hcid|].
    cbv zeta. rewrite Hdata, Hy. fold data saved.
    split; [done|]. split; [done|]. split; [done|].
    split; [|by rewrite Hid].
    rewrite (ThemeCamp_save_update saved k);
      [|by rewrite Hsy|by rewrite Hid|by exists c].
    by rewrite Hk.
Qed.

End Handlers.

(** ** The claims the code does not meet, on the sample database *)

Import Sample.

(** C1. On the code the claim fails for Events. A rejected but listed event is
    returned by the public by-id read of its year (that queryset filters on
    [list_online] only), and a read narrowed by [start_time]/[end_time]
    returns an unmoderated, unlisted event of another year (those querysets
    filter on the occurrence ids only). *)
Theorem C1_hidden_events_in_public_reads :
  AnonymousPlayaEventHandler_read decimal timestamp (request "GET" ∅ ∅)
    (Some "2012") (Some "7") db0
  = Ok [event 7 1 "R" true]
  ∧ AnonymousPlayaEventHandler_read decimal timestamp
      (request "GET" both_bounds ∅)
      (Some "2012") None db0
    = Ok [event 8 1 "A" true; event 9 2 "U" false].
Proof. split; vm_compute; reflexivity. Qed.

(** C2. On the code the claim fails. Deleting camp 3 answers "Camp deleted"
    and sets [deleted], yet the public reads of its year, by listing and by
    id, still return it, since they filter on [list_online] alone; deleting
    event 8 sets its moderation to R, which removes it from the listing of
    its year but not from the public by-id read. *)
Theorem C2_deleted_still_in_public_reads :
  let del_camp :=
    run (ThemeCampHandler_delete decimal (request "DELETE" ∅ ∅)
           (Some "2012") (Some "3")) db0 in
  let del_event :=
    run (PlayaEventHandler_delete decimal (request "DELETE" ∅ ∅)
           (Some "2012") (Some "8")) db0 in
  del_camp.1 = Returned (rc_response DELETED "Camp deleted #3")
  ∧ BaseThemeCampHandler_read decimal (request "GET" ∅ ∅)
      (Some "2012") None del_camp.2
    = Ok [set_tc_deleted (Some true) (camp 3 1 true)]
  ∧ BaseThemeCampHandler_read decimal (request "GET" ∅ ∅)
      (Some "2012") (Some "3") del_camp.2
    = Ok [set_tc_deleted (Some true) (camp 3 1 true)]
  ∧ del_event.1 = Returned (rc_response DELETED "Event rejected #8")
  ∧ BasePlayaEventHandler_read decimal timestamp (request "GET" ∅ ∅)
      (Some "2012") None del_event.2
    = Ok []
  ∧ BasePlayaEventHandler_read decimal timestamp (request "GET" ∅ ∅)
      (Some "2012") (Some "8") del_event.2
    = Ok [event 8 1 "R" true].
Proof. repeat split; vm_compute; reflexivity. Qed.

(** C3, counterexample to the claim as stated. With an event id in the path
    the time bounds are not looked at: the read for 2012 and id 7 with both
    bounds given returns event 7, which owns no occurrence, and not the
    events owning an occurrence within the bounds. *)
Lemma C3_counterexample_event_id_given :
  let request :=
    request "GET" both_bounds ∅ in
  bound timestamp "start_time" request = Some (Some t_from)
  ∧ bound timestamp "end_time" request = Some (Some t_to)
  ∧ BasePlayaEventHandler_read decimal timestamp request (Some "2012") (Some "7")
      db0
    = Ok [event 7 1 "R" true]
  ∧ events_owning db0 (in_range (Some t_from) (Some t_to))
    = [event 8 1 "A" true; event 9 2 "U" false]
  ∧ BasePlayaEventHandler_read decimal timestamp request (Some "2012") (Some "7")
      db0
    ≠ Ok (events_owning db0 (in_range (Some t_from) (Some t_to))).
Proof.
  split; [vm_compute; reflexivity|].
  split; [vm_compute; reflexivity|].
  split; [vm_compute; reflexivity|].
  split; [vm_compute; reflexivity|].
  vm_compute. discriminate.
Qed.

(** ** The properties at work on the sample database *)

(** C3 on a read of 2012 with both bounds given. *)
Lemma C3_witness :
  let request :=
    request "GET" both_bounds ∅ in
  BasePlayaEventHandler_read decimal timestamp request (Some "2012") None db0
  = Ok (events_owning db0 (in_range (Some t_from) (Some t_to)))
  ∧ events_owning db0 (in_range (Some t_from) (Some t_to))
    = filter_events
        [pe_id__in (occ_event <$> filter (λ o, in_range (Some t_from) (Some t_to) o)
                                    (occurrences db0))]
        (PlayaEvent_objects db0).
Proof.
  apply (C3_read_narrowed_by_times decimal timestamp
           (request "GET" both_bounds ∅)
           (Some "2012") "2012" y2012 db0 (Some t_from) (Some t_to));
    vm_compute; reflexivity.
Defined.

(** C4 on a PUT to /2011/.../7 with a [year] in the field map: event 7 stays
    in 2012. *)
Lemma C4_witness :
  let request :=
    request "PUT" ∅ {["year" := "2011"; "moderation" := "a"]} in
  let result :=
    run (PlayaEventHandler__create_or_update decimal request (Some "2011")
           (Some "7")) db0 in
  result.1 = Returned (saved_response "PUT" (Some 7))
  ∧ (λ e, (pe_id e, pe_year e)) <$> playa_events result.2
    = (λ e, (pe_id e, pe_year e)) <$> playa_events db0.
Proof.
  intros request result. split; [vm_compute; reflexivity|].
  apply (proj1 (C4_update_keeps_year decimal request (Some "2011") (Some "7")
                  db0 result.1 result.2 (ex_intro _ "7" eq_refl))).
  vm_compute; reflexivity.
Defined.

(** C5 on a POST naming a year that does not exist. *)
Lemma C5_witness :
  let request :=
    request "POST" ∅ {["year" := "1999"; "slug" := "sunrise-yoga"]} in
  let result :=
    run (PlayaEventHandler__create_or_update decimal request None None) db0 in
  result.1 = Returned (rc_response NOT_HERE "No such year: 1999")
  ∧ result.2 = db0.
Proof.
  intros request result. split; [vm_compute; reflexivity|].
  apply (proj1 (C5_error_response_no_change decimal request None None db0
                  (rc_response NOT_HERE "No such year: 1999") result.2
                  (or_intror eq_refl))).
  vm_compute; reflexivity.
Defined.


(** C7 on a PUT with [moderation=a] to the rejected event 7, and on a PUT
    whose moderation value is no letter of the three. *)
Lemma C7_witness :
  let accept := request "PUT" ∅ {["moderation" := "a"]} in
  let garbled := request "PUT" ∅ {["moderation" := "x"; "slug" := "yoga"]} in
  let result :=
    run (PlayaEventHandler__create_or_update decimal accept (Some "2012")
           (Some "7")) db0 in
  (∃ saved, saved ∈ playa_events result.2
            ∧ pe_id saved = Some 7 ∧ pe_moderation saved = "A")
  ∧ run (PlayaEventHandler__create_or_update decimal garbled (Some "2012")
           (Some "7")) db0
    = run (PlayaEventHandler__create_or_update decimal
             (drop_field "moderation" garbled) (Some "2012") (Some "7")) db0.
Proof.
  intros accept garbled result. split.
  - destruct (proj1 (C7_moderation_field decimal accept (Some "2012")
                       (Some "7") db0 {["moderation" := "a"]} "a"
                       eq_refl eq_refl)
                (saved_response "PUT" (Some 7)) result.2 (or_introl eq_refl))
      as (obj0 & saved & _ & Hpk & Hin & _ & Hmod).
    + vm_compute; reflexivity.
    + exists saved. split; [exact Hin|]. split; [by inversion Hpk|].
      exact Hmod.
  - apply (proj2 (C7_moderation_field decimal garbled (Some "2012") (Some "7")
                    db0 {["moderation" := "x"; "slug" := "yoga"]} "x"
                    eq_refl eq_refl)); compute_done.
Defined.

(** C8 on two calls an hour apart, the events table emptied in between. *)
Lemma C8_witness :
  let kwargs := [pe_moderation_is "A"] in
  let first := PlayaEventManager_get_and_cache kwargs 0 db0 [] in
  first.1 = CachedEvents [event 8 1 "A" true]
  ∧ PlayaEventManager_get_and_cache kwargs 3600 (set_playa_events [] db0)
      first.2
    = (first.1, first.2).
Proof.
  intros kwargs first. split; [vm_compute; reflexivity|].
  apply (proj2 (proj2 (proj1 (proj2 C8_get_and_cache) kwargs 0 db0 []))).
  vm_compute; reflexivity.
Defined.

(** C9 on the unlisted camp 4. *)
Lemma C9_witness :
  run (ThemeCampHandler__create_or_update decimal
         (request "PUT" ∅ {["name" := "Camp Nowhere"]}) (Some "2012")
         (Some "4")) db0
  = (Returned (rc_response NOT_HERE "ThemeCamp not found #4"), db0).
Proof.
  apply (proj1 (C9_unlisted_camp_not_found decimal
                  (request "PUT" ∅ {["name" := "Camp Nowhere"]}) (Some "2012")
                  "4" db0 (camp 4 1 false) eq_refl eq_refl eq_refl)
           {["name" := "Camp Nowhere"]});
    [discriminate|reflexivity|compute_done].
Defined.

(** C10 on event 9 of 2011, reached through the path of 2012: the update
    stores the new slug on the event, which stays in 2011, and answers ALL_OK
    with its key; the delete rejects it. *)
Lemma C10_witness :
  let put := request "PUT" ∅ {["slug" := "yoga"]} in
  let e9 := event 9 2 "U" false in
  run (PlayaEventHandler__create_or_update decimal put (Some "2012")
         (Some "9")) db0
  = run (PlayaEventHandler__create_or_update decimal put (Some "2011")
           (Some "9")) db0
  ∧ (run (PlayaEventHandler__create_or_update decimal put (Some "2012")
            (Some "9")) db0
     = (Returned {| status := ALL_OK; content := JsonPk (Some 9) |},
        set_playa_events
          ((λ r, if decide (r = e9) then set_pe_slug "yoga" e9 else r)
             <$> playa_events db0) db0)
     ∧ pe_year (set_pe_slug "yoga" e9) = Some 2)
  ∧ ∃ db',
      run (PlayaEventHandler_delete decimal (request "DELETE" ∅ ∅)
             (Some "2012") (Some "9")) db0
      = (Returned (rc_response DELETED "Event rejected #9"), db')
      ∧ set_pe_moderation "R" e9 ∈ playa_events db'.
Proof.
  intros put e9. split; [|split].
  - apply (proj1 (proj2 (C10_target_resolved_by_key_alone decimal put
                           (Some "9") db0)));
      by eexists.
  - destruct (proj1 (proj2 (proj2 (proj2 (proj2
                (C10_target_resolved_by_key_alone decimal put (Some "9")
                   db0)))))
                (Some "2012") "9" e9 {["slug" := "yoga"]} None None)
      as (Hrun & _ & _ & Hyear);
      [reflexivity|reflexivity|right; by eexists|reflexivity
      |vm_compute; reflexivity|by eexists|reflexivity|reflexivity|].
    split; [exact Hrun|exact Hyear].
  - apply (proj1 (proj2 (proj2 (C10_target_resolved_by_key_alone decimal
                                  (request "DELETE" ∅ ∅) (Some "9") db0)))
             (Some "2012") "9" e9);
      [reflexivity|reflexivity|vm_compute; reflexivity|by eexists].
Defined.

(** ** The further properties at work on the sample databases *)

Import Reference.

(** The days of an event from day 10 to day 12, and of one that ends before
    it starts. *)
Lemma Year_daterange_days_witness :
  Year_daterange (Some 10) (Some 12) = [10; 11; 12]
  ∧ Year_daterange (Some 12) (Some 10) = [].
Proof.
  split; [reflexivity|].
  apply (proj1 (proj2 (proj2 (proj2 Year_daterange_days))) 12 10). lia.
Defined.

(** The binary collation, byte by byte, is a total preorder. *)
Lemma String_compare_trans (a b c : string) :
  String.compare a b ≠ Gt → String.compare b c ≠ Gt → String.compare a c ≠ Gt.
Proof.
  revert b c. induction a as [|ca a IH]; intros [|cb b] [|cc c]; simpl;
    try done.
  unfold Ascii.compare.
  destruct (N.compare_spec (N_of_ascii ca) (N_of_ascii cb)),
    (N.compare_spec (N_of_ascii cb) (N_of_ascii cc)),
    (N.compare_spec (N_of_ascii ca) (N_of_ascii cc));
    try lia; try done. apply IH.
Qed.

Lemma String_leb_total_preorder : total_preorder String.leb.
Proof.
  split; [apply String.leb_total|].
  intros a b c. unfold String.leb.
  pose proof (String_compare_trans a b c) as H.
  destruct (String.compare a b), (String.compare b c), (String.compare a c);
    try done; intros _ _; exfalso; by apply H.
Qed.

Lemma NoDup_years_db1 : NoDup (y_id <$> years db1).
Proof. compute_done. Qed.

(** The art of the reference data under the binary collation. The whole
    table comes with the Temple of 2011 first, against the order of the table
    and of the keys, and the art of 2012 comes by name, Anemone before the
    Man. *)
Lemma art_read_scoped_by_year_witness :
  let request := request "GET" ∅ ∅ in
  BaseArtHandler_read decimal String.leb request None (Some "5") db1
  = Ok [temple_2011; anemone; the_man]
  ∧ BaseArtHandler_read decimal String.leb request (Some "2012") None db1
    = Ok [anemone; the_man]
  ∧ (∃ kl, BaseArtHandler_read decimal String.leb request None (Some "5") db1
           = Ok kl.*2
           ∧ StronglySorted
               (key_le (then_by String.leb String.leb)
                  (λ p, (p.1, art_name p.2))) kl)
  ∧ (∃ l, BaseArtHandler_read decimal String.leb request (Some "2012") None db1
          = Ok l
          ∧ l ≡ₚ filter (λ a, art_year a = 1) (art_installations db1)
          ∧ StronglySorted (key_le String.leb art_name) l).
Proof.
  intros request. split; [reflexivity|]. split; [reflexivity|]. split.
  - destruct (proj1 (art_read_scoped_by_year decimal String.leb request None
                        db1 String_leb_total_preorder NoDup_years_db1)
                eq_refl (Some "5")) as (kl & Hread & Hsorted & _).
    by exists kl.
  - apply (proj1 (proj2 (art_read_scoped_by_year decimal String.leb request
                           (Some "2012") db1 String_leb_total_preorder
                           NoDup_years_db1) "2012" y2012 eq_refl eq_refl)).
Defined.

(** The streets of the reference data: the whole tables come with the
    streets of 2011 first, the circular streets of 2011 by their order and
    the time streets of 2012 by their name. *)
Lemma street_reads_scoped_by_year_witness :
  let request := request "GET" ∅ ∅ in
  AnonymousCircularStreetHandler_read String.leb true request None db1
  = Ok [esplanade_2011; anniversary; esplanade]
  ∧ AnonymousTimeStreetHandler_read String.leb request None db1
    = Ok [nine_2011; three_2012; six_2012]
  ∧ AnonymousTimeStreetHandler_read String.leb request (Some "2012") db1
    = Ok [three_2012; six_2012]
  ∧ ∃ l, AnonymousCircularStreetHandler_read String.leb true request
           (Some "2011") db1 = Ok l
         ∧ l ≡ₚ filter (λ s, cs_year s = 2) (circular_streets db1)
         ∧ StronglySorted (key_le (nullable_le true) cs_order) l.
Proof.
  intros request.
  split; [reflexivity|]. split; [reflexivity|]. split; [reflexivity|].
  apply (proj1 (proj2 (street_reads_scoped_by_year String.leb true request
                         (Some "2011") db1 String_leb_total_preorder
                         NoDup_years_db1) "2011" y2011 eq_refl eq_refl)).
Defined.

(** Reads of the year 1999, which the sample database does not have. *)
Lemma reads_raise_for_unknown_year_witness :
  let request := request "GET" ∅ ∅ in
  BasePlayaEventHandler_read decimal timestamp request (Some "1999") None db1
  = Raise ObjectDoesNotExist
  ∧ BaseThemeCampHandler_read decimal request (Some "1999") None db1
    = Raise ObjectDoesNotExist
  ∧ BaseArtHandler_read decimal String.leb request (Some "1999") None db1
    = Raise ObjectDoesNotExist
  ∧ AnonymousCircularStreetHandler_read String.leb true request
      (Some "1999") db1
    = Raise ObjectDoesNotExist
  ∧ AnonymousTimeStreetHandler_read String.leb request (Some "1999") db1
    = Raise ObjectDoesNotExist.
Proof.
  intros request.
  apply (proj1 (reads_raise_for_unknown_year decimal timestamp String.leb
                  true request
                  (Some "1999") "1999" None db1 eq_refl)).
  intros y Hy. unfold db1, db0 in Hy. cbn [years] in Hy.
  apply elem_of_cons in Hy as [->|Hy]; [discriminate|].
  apply elem_of_cons in Hy as [->|Hy]; [discriminate|].
  by apply elem_of_nil in Hy.
Defined.

(** A search of the year 1999 finds nothing. *)
Lemma search_returns_public_events_witness :
  PlayaEventManager_search slug_is "" (Some "1999") db0 = [].
Proof.
  apply (proj1 (proj2 (proj2 (search_returns_public_events slug_is ""
                                (Some "1999") db0))) "1999" eq_refl).
  - discriminate.
  - intros y Hy. unfold db0 in Hy. cbn [years] in Hy.
    apply elem_of_cons in Hy as [->|Hy]; [discriminate|].
    apply elem_of_cons in Hy as [->|Hy]; [discriminate|].
    by apply elem_of_nil in Hy.
Defined.

(** [bob], whose profile does not allow the API, tries to delete camp 3. *)
Lemma writes_need_permission_witness :
  ThemeCampHandler_delete decimal (request_of_bob "DELETE" ∅) (Some "2012")
    (Some "3") db1
  = (Return (rc_response BAD_REQUEST "User not permitted to use the API"), db1).
Proof.
  apply (writes_need_permission decimal (request_of_bob "DELETE" ∅)
           (Some "2012") (Some "3") db1 eq_refl).
Defined.

(** A PATCH, and a POST with nothing in it to a path without a year. *)
Lemma create_or_update_rejects_malformed_witness :
  PlayaEventHandler__create_or_update decimal
    (request "PATCH" ∅ {["slug" := "yoga"]}) (Some "2012") (Some "7") db0
  = (Return (rc_response BAD_REQUEST "Bad request method: PATCH"), db0)
  ∧ ThemeCampHandler__create_or_update decimal (request "POST" ∅ ∅) None None
      db0
    = (Return (rc_response BAD_REQUEST "Missing critical information"), db0).
Proof.
  split.
  - apply (proj1 (create_or_update_rejects_malformed decimal
                    (request "PATCH" ∅ {["slug" := "yoga"]}) (Some "2012")
                    (Some "7") db0 eq_refl)); discriminate.
  - apply (proj2 (create_or_update_rejects_malformed decimal
                    (request "POST" ∅ ∅) None None db0 eq_refl));
      reflexivity.
Defined.

(** Deletes without an id, and with an id that is no number. *)
Lemma delete_without_target_witness :
  PlayaEventHandler_delete decimal (request "DELETE" ∅ ∅) (Some "2012")
    (Some "") db0
  = (Return (rc_response NOT_HERE "Event ID required"), db0)
  ∧ ThemeCampHandler_delete decimal (request "DELETE" ∅ ∅) (Some "2012")
      (Some "three") db0
    = (Throw ValueError, db0).
Proof.
  split.
  - apply (proj1 (delete_without_target decimal (request "DELETE" ∅ ∅)
                    (Some "2012") (Some "") db0 eq_refl) eq_refl).
  - apply (proj2 (proj2 (delete_without_target decimal (request "DELETE" ∅ ∅)
                           (Some "2012") (Some "three") db0 eq_refl))
             "three" eq_refl eq_refl).
Defined.

(** Deleting the accepted event 8, twice. *)
Lemma event_delete_rejects_in_place_witness :
  let request := request "DELETE" ∅ ∅ in
  let db' := set_playa_events
               [event 7 1 "R" true; event 8 1 "R" true; event 9 2 "U" false]
               db0 in
  PlayaEventHandler_delete decimal request (Some "2012") (Some "8") db0
  = (Next (rc_response DELETED "Event rejected #8"), db')
  ∧ PlayaEventHandler_delete decimal request (Some "2012") (Some "8") db'
    = (Next (rc_response DELETED "Event rejected #8"), db').
Proof.
  intros request db'.
  apply (event_delete_rejects_in_place decimal request (Some "2012")
           (Some "8") db0 "8" (event 8 1 "A" true));
    [reflexivity|reflexivity|vm_compute; reflexivity|by eexists].
Defined.

(** Deleting the listed camp 3, twice. *)
Lemma camp_delete_marks_in_place_witness :
  let request := request "DELETE" ∅ ∅ in
  let db' := set_theme_camps
               [set_tc_deleted (Some true) (camp 3 1 true); camp 4 1 false]
               db0 in
  ThemeCampHandler_delete decimal request (Some "2012") (Some "3") db0
  = (Next (rc_response DELETED "Camp deleted #3"), db')
  ∧ ThemeCampHandler_delete decimal request (Some "2012") (Some "3") db'
    = (Next (rc_response DELETED "Camp deleted #3"), db').
Proof.
  intros request db'.
  apply (camp_delete_marks_in_place decimal request (Some "2012")
           (Some "3") db0 "3" (camp 3 1 true));
    [reflexivity|reflexivity| |vm_compute; reflexivity|by eexists].
  unfold db0. cbn [theme_camps]. cbn. repeat constructor; set_solver.
Defined.

(** A PUT without an id creates a camp and is answered ALL_OK. *)
Lemma status_follows_verb_witness :
  let request := request "PUT" ∅ {["name" := "Camp Late"]} in
  let result :=
    ThemeCampHandler__create_or_update decimal request (Some "2012") None db0 in
  result.1 = Next (saved_response "PUT" (Some 5))
  ∧ (req_method request = "PUT"
     ∧ status (saved_response "PUT" (Some 5)) = ALL_OK
     ∨ req_method request = "POST"
       ∧ status (saved_response "PUT" (Some 5)) = CREATED)
  ∧ List.length (theme_camps result.2)
    = (List.length (theme_camps db0) + 1)%nat.
Proof.
  intros request result. split; [vm_compute; reflexivity|].
  destruct (proj2 (status_follows_verb decimal request (Some "2012") None db0
                     (saved_response "PUT" (Some 5)) result.2))
    as (Hverb & Hlen & _); [vm_compute; reflexivity|].
  split; [exact Hverb|exact Hlen].
Defined.

(** A POST creating a party of 2012. *)
Lemma create_appends_fresh_row_witness :
  let request :=
    request "POST" ∅ {["event_type" := "PTY"; "slug" := "white-party"]} in
  let result :=
    PlayaEventHandler__create_or_update decimal request (Some "2012") None
      db1 in
  ∃ d0 t saved k,
    payload request = Some d0
    ∧ result.2 = set_playa_events (playa_events db1 ++ [saved]) db1
    ∧ pe_id saved = Some k
    ∧ content (saved_response "POST" (Some 10)) = JsonPk (Some k)
    ∧ (∀ e j, e ∈ playa_events db1 → pe_id e = Some j → j < k)
    ∧ pe_creator saved = Some (user_id (req_user request))
    ∧ t ∈ event_types db1 ∧ pe_event_type saved = Some (et_id t)
    ∧ match d0 !! "event_type" with
      | Some abbr => et_abbr t = abbr
      | None => et_id t = 1
      end
    ∧ pe_moderation saved = moderation_of d0 "U"
    ∧ PlayaEvent_unwritten saved = PlayaEvent_unwritten PlayaEvent_new.
Proof.
  intros request result.
  apply (proj1 (create_appends_fresh_row decimal request (Some "2012") None
                  db1 (saved_response "POST" (Some 10)) result.2 eq_refl)).
  vm_compute; reflexivity.
Defined.

(** A PUT to the deleted camp 3: it stays deleted. *)
Lemma update_replaces_target_only_witness :
  let db := set_theme_camps
              [set_tc_deleted (Some true) (camp 3 1 true); camp 4 1 false]
              db0 in
  let request := request "PUT" ∅ {["deleted" := "False"; "name" := "Camp"]} in
  let result :=
    ThemeCampHandler__create_or_update decimal request (Some "2012")
      (Some "3") db in
  ∃ obj0 saved,
    ThemeCamp_objects_get_pk decimal "3" db = Found obj0
    ∧ result.2 = set_theme_camps
                   ((λ r, if decide (tc_id r = tc_id obj0) then saved else r)
                      <$> theme_camps db) db
    ∧ content (saved_response "PUT" (Some 3)) = JsonPk (tc_id saved)
    ∧ tc_id saved = tc_id obj0
    ∧ tc_year saved = tc_year obj0
    ∧ ThemeCamp_unwritten saved = ThemeCamp_unwritten obj0.
Proof.
  intros db request result.
  apply (proj2 (update_replaces_target_only decimal request (Some "2012")
                  (Some "3") db (saved_response "PUT" (Some 3)) result.2 "3"
                  eq_refl)).
  vm_compute; reflexivity.
Defined.

(** A PUT of an empty url and a slug to event 7. *)
Lemma text_fields_stored_verbatim_witness :
  let request := request "PUT" ∅ {["url" := ""; "slug" := " Yoga "]} in
  let result :=
    PlayaEventHandler__create_or_update decimal request (Some "2012")
      (Some "7") db0 in
  ∃ d0 obj0 saved,
    payload request = Some d0
    ∧ PlayaEvent_target decimal request (Some "7") db0 d0 obj0
    ∧ content (saved_response "PUT" (Some 7)) = JsonPk (pe_id saved)
    ∧ saved ∈ playa_events result.2
    ∧ ∀ key, key ∈ event_text_keys →
        PlayaEvent_getattr key saved
        = match d0 !! key with
          | Some val => Some val
          | None => PlayaEvent_getattr key obj0
          end.
Proof.
  intros request result.
  apply (proj1 (text_fields_stored_verbatim decimal request (Some "2012")
                  (Some "7") db0 (saved_response "PUT" (Some 7)) result.2)).
  vm_compute; reflexivity.
Defined.

(** A PUT placing event 8 at the art installation 5, hosted by camp 3. *)
Lemma stored_references_exist_witness :
  let request :=
    request "PUT" ∅ {["hosted_by_camp" := "3"; "located_at_art" := "5"]} in
  let result :=
    PlayaEventHandler__create_or_update decimal request (Some "2012")
      (Some "8") db1 in
  ∃ d0 obj0 saved,
    payload request = Some d0
    ∧ PlayaEvent_target decimal request (Some "8") db1 d0 obj0
    ∧ content (saved_response "PUT" (Some 8)) = JsonPk (pe_id saved)
    ∧ match d0 !! "hosted_by_camp" with
      | Some key =>
          ∃ k c, decimal key = Some k ∧ c ∈ theme_camps db1
                 ∧ tc_id c = Some k ∧ tc_list_online c = Some true
                 ∧ pe_hosted_by_camp saved = Some k
      | None => pe_hosted_by_camp saved = pe_hosted_by_camp obj0
      end
    ∧ match d0 !! "located_at_art" with
      | Some key =>
          ∃ a, decimal key = Some (art_id a) ∧ a ∈ art_installations db1
               ∧ pe_located_at_art saved = Some (art_id a)
      | None => pe_located_at_art saved = pe_located_at_art obj0
      end.
Proof.
  intros request result.
  apply (proj1 (stored_references_exist decimal request (Some "2012")
                  (Some "8") db1 (saved_response "PUT" (Some 8)) result.2)).
  vm_compute; reflexivity.
Defined.

(** A POST to the path of 2012 whose field map names 2011. *)
Lemma create_takes_year_of_map_or_path_witness :
  let request := request "POST" ∅ {["year" := "2011"; "name" := "Camp"]} in
  let result :=
    ThemeCampHandler__create_or_update decimal request (Some "2012") None
      db0 in
  ∃ d0 label y saved,
    payload request = Some d0
    ∧ match d0 !! "year" with
      | Some l => label = l
      | None => Some "2012" = Some label
      end
    ∧ y ∈ years db0 ∧ y_year y = label
    ∧ result.2 = set_theme_camps (theme_camps db0 ++ [saved]) db0
    ∧ tc_year saved = Some (y_id y).
Proof.
  intros request result.
  apply (proj2 (create_takes_year_of_map_or_path decimal request (Some "2012")
                  None db0 (saved_response "POST" (Some 5)) result.2 eq_refl)).
  vm_compute; reflexivity.
Defined.

(** All camps of the sample database, cached at time 0 and asked for again
    an hour later, when the table has been emptied. *)
Lemma all_camps_get_and_cache_witness :
  let first := ThemeCampAllManager_get_and_cache [] 0 db0 [] in
  first.1 = CachedCamps [camp 3 1 true; camp 4 1 false]
  ∧ ThemeCampAllManager_get_and_cache [] 3600 (set_theme_camps [] db0) first.2
    = (first.1, first.2).
Proof.
  intros first. split; [vm_compute; reflexivity|].
  apply (proj2 (proj2 (all_camps_get_and_cache [] 0 db0 [])) 3600
           (set_theme_camps [] db0)).
  vm_compute; reflexivity.
Defined.

(** The same two calls a day apart: the second one reads the emptied table. *)
Lemma cache_entries_expire_witness :
  let first := ThemeCampManager_get_and_cache [] 0 db0 [] in
  first.1 = CachedCamps [camp 3 1 true]
  ∧ (ThemeCampManager_get_and_cache [] 86400 (set_theme_camps [] db0)
       first.2).1
    = CachedCamps [].
Proof.
  intros first. split; [vm_compute; reflexivity|]. unfold first.
  rewrite (proj1 (proj2 (cache_entries_expire 0 86400 db0
                           (set_theme_camps [] db0) [])) []).
  - reflexivity.
  - vm_compute. discriminate.
Defined.

(** The listed camps cached at time 0; all camps asked for a minute later. *)
Lemma camp_managers_keep_separate_entries_witness :
  (ThemeCampAllManager_get_and_cache [] 60 db0
     (ThemeCampManager_get_and_cache [] 0 db0 []).2).1
  = CachedCamps [camp 3 1 true; camp 4 1 false].
Proof.
  rewrite (proj2 (camp_managers_keep_separate_entries [] [] 0 60 db0 db0 [])).
  reflexivity.
Defined.

(** A POST of an event of a type nobody defined, and a POST of an event
    without a type to a database without event types. *)
Lemma create_with_unknown_event_type_witness :
  PlayaEventHandler__create_or_update decimal
    (request "POST" ∅ {["event_type" := "RAVE"]}) (Some "2012") None db0
  = (Return (rc_response NOT_HERE "No such EventType: RAVE"), db0)
  ∧ PlayaEventHandler__create_or_update decimal
      (request "POST" ∅ {["slug" := "yoga"]}) (Some "2012") None
      (mkDB (years db0) [] [] [] [] [] [] [])
    = (Throw ObjectDoesNotExist, mkDB (years db0) [] [] [] [] [] [] []).
Proof.
  split.
  - apply (proj1 (create_with_unknown_event_type decimal
                    (request "POST" ∅ {["event_type" := "RAVE"]})
                    (Some "2012") None db0 {["event_type" := "RAVE"]}
                    eq_refl eq_refl ltac:(compute_done) eq_refl)
             "RAVE" ltac:(compute_done)).
    intros t Ht. unfold db0 in Ht. cbn [event_types] in Ht.
    apply list_elem_of_singleton in Ht as ->. discriminate.
  - apply (proj2 (create_with_unknown_event_type decimal
                    (request "POST" ∅ {["slug" := "yoga"]})
                    (Some "2012") None (mkDB (years db0) [] [] [] [] [] [] [])
                    {["slug" := "yoga"]}
                    eq_refl eq_refl ltac:(compute_done) eq_refl)
             ltac:(compute_done)).
    intros t Ht. by apply elem_of_nil in Ht.
Defined.

(** A PUT to camp 3 that tries to bring it back by sending [deleted]. *)
Lemma illegal_keys_are_ignored_witness :
  let request := request "PUT" ∅ {["deleted" := "False"; "name" := "Camp"]} in
  ThemeCampHandler__create_or_update decimal request (Some "2012") (Some "3")
    db0
  = ThemeCampHandler__create_or_update decimal (drop_field "deleted" request)
      (Some "2012") (Some "3") db0.
Proof.
  intros request.
  apply (proj2 (illegal_keys_are_ignored decimal request (Some "2012")
                  (Some "3") db0 {["deleted" := "False"; "name" := "Camp"]}
                  "deleted" eq_refl ltac:(compute_done))).
  compute_done.
Defined.

(** A POST of a camp to a path without a year. *)
Lemma create_without_year_is_not_saved_witness :
  ThemeCampHandler__create_or_update decimal
    (request "POST" ∅ {["name" := "Camp Nowhen"]}) None None db0
  = (Throw IntegrityError, db0).
Proof.
  apply (proj2 (proj2 (create_without_year_is_not_saved decimal
                         (request "POST" ∅ {["name" := "Camp Nowhen"]})
                         None None db0 {["name" := "Camp Nowhen"]}
                         eq_refl eq_refl eq_refl ltac:(compute_done))) eq_refl);
    compute_done.
Defined.

(** The keys of the events table after event 8 has been deleted. *)
Lemma writes_never_remove_rows_witness :
  let result :=
    PlayaEventHandler_delete decimal (request "DELETE" ∅ ∅) (Some "2012")
      (Some "8") db0 in
  result.2 = set_playa_events (playa_events result.2) db0
  ∧ pe_id <$> playa_events db0 `prefix_of` pe_id <$> playa_events result.2.
Proof.
  intros result.
  apply (proj1 (writes_never_remove_rows decimal (request "DELETE" ∅ ∅)
                  (Some "2012") (Some "8") db0 result.1 result.2)).
  right. apply surjective_pairing.
Defined.
